(** * Supply-chain intelligence: the analytical engine, embedded and verified

    The engines of [src/src/ml] and the tool bridge of [src/src/agent/tools.py]
    are embedded here as Rocq definitions.  Python floats are idealised as
    real numbers ([R]): overflow, NaN and rounding error of IEEE arithmetic
    are outside the model.  Calls that can raise return an [outcome]. *)

From Stdlib Require Import Reals Ranalysis5 Psatz Lia ZArith List String Bool.
From Stdlib Require Import QArith Qround Sorting.Sorted.
From Stdlib Require Import Classical ClassicalEpsilon.
Import ListNotations.

Open Scope R_scope.

(** ** NumPy helpers *)

Module Numpy.

(** Float comparisons [x <= y] and [x < y] as booleans. *)
Definition Rleb (x y : R) : bool := if Rle_dec x y then true else false.
Definition Rltb (x y : R) : bool := if Rlt_dec x y then true else false.

Lemma Rleb_true (x y : R) : Rleb x y = true <-> x <= y.
Proof. unfold Rleb. destruct (Rle_dec x y); split; intros; try discriminate; tauto. Qed.

Lemma Rleb_false (x y : R) : Rleb x y = false <-> y < x.
Proof.
  unfold Rleb. destruct (Rle_dec x y); split; intros;
    try discriminate; try reflexivity; lra.
Qed.

Lemma Rltb_true (x y : R) : Rltb x y = true <-> x < y.
Proof. unfold Rltb. destruct (Rlt_dec x y); split; intros; try discriminate; tauto. Qed.

Lemma Rltb_false (x y : R) : Rltb x y = false <-> y <= x.
Proof.
  unfold Rltb. destruct (Rlt_dec x y); split; intros;
    try discriminate; try reflexivity; lra.
Qed.

(** [np.rint]: nearest integer, ties to the even neighbour. *)
Definition rint (x : R) : Z :=
  let f := Int_part x in
  let d := x - IZR f in
  if Rlt_dec d (1 / 2) then f
  else if Rlt_dec (1 / 2) d then (f + 1)%Z
  else if Z.even f then f else (f + 1)%Z.

(** [round(x, decimals)] on a NumPy float: scale, [rint], unscale. *)
Definition round (x : R) (decimals : nat) : R :=
  IZR (rint (x * 10 ^ decimals)) / 10 ^ decimals.

(** [np.mean] and [np.sum] of a one-dimensional array. *)
Definition sum (l : list R) : R := fold_right Rplus 0 l.

Definition mean (l : list R) : R := sum l / INR (List.length l).

(** Sum of squared deviations from the mean. *)
Definition sq_dev (l : list R) : R :=
  sum (map (fun x => (x - mean l) * (x - mean l)) l).

(** [np.std] (population, ddof = 0). *)
Definition std (l : list R) : R := sqrt (sq_dev l / INR (List.length l)).

(** [Series.std] of pandas (sample, ddof = 1). *)
Definition sample_std (l : list R) : R :=
  sqrt (sq_dev l / (INR (List.length l) - 1)).

Lemma Int_part_bounds (x : R) : IZR (Int_part x) <= x < IZR (Int_part x) + 1.
Proof.
  destruct (base_Int_part x) as [H1 H2]. split; lra.
Qed.

Lemma Int_part_unique (x : R) (z : Z) :
  IZR z <= x < IZR z + 1 -> Int_part x = z.
Proof.
  intros [H1 H2]. destruct (Int_part_bounds x) as [H3 H4].
  assert (Hlt1 : (z < Int_part x + 1)%Z).
  { apply lt_IZR. rewrite plus_IZR. simpl. lra. }
  assert (Hlt2 : (Int_part x < z + 1)%Z).
  { apply lt_IZR. rewrite plus_IZR. simpl. lra. }
  lia.
Qed.

Lemma Int_part_mono (x y : R) : x <= y -> (Int_part x <= Int_part y)%Z.
Proof.
  intros Hxy.
  destruct (Int_part_bounds x) as [H1 H2].
  destruct (Int_part_bounds y) as [H3 H4].
  assert (Hlt : (Int_part x < Int_part y + 1)%Z).
  { apply lt_IZR. rewrite plus_IZR. simpl. lra. }
  lia.
Qed.

(** [rint] stays within half a unit of its argument. *)
Lemma rint_bounds (x : R) : x - 1 / 2 <= IZR (rint x) <= x + 1 / 2.
Proof.
  unfold rint. destruct (Int_part_bounds x) as [H1 H2].
  destruct (Rlt_dec (x - IZR (Int_part x)) (1 / 2)) as [Hd | Hd].
  - lra.
  - destruct (Rlt_dec (1 / 2) (x - IZR (Int_part x))) as [He | He].
    + rewrite plus_IZR. simpl. lra.
    + destruct (Z.even (Int_part x)).
      * lra.
      * rewrite plus_IZR. simpl. lra.
Qed.

(** The value of [rint] is pinned down by an open half-unit window. *)
Lemma rint_unique (x : R) (z : Z) :
  IZR z - 1 / 2 < x < IZR z + 1 / 2 -> rint x = z.
Proof.
  intros [H1 H2]. destruct (rint_bounds x) as [H3 H4].
  assert (Hlt1 : (z < rint x + 1)%Z).
  { apply lt_IZR. rewrite plus_IZR. simpl. lra. }
  assert (Hlt2 : (rint x < z + 1)%Z).
  { apply lt_IZR. rewrite plus_IZR. simpl. lra. }
  lia.
Qed.

Lemma rint_IZR (z : Z) : rint (IZR z) = z.
Proof. apply rint_unique. lra. Qed.

(** The two possible values of [rint], with the side of the tie each takes. *)
Lemma rint_cases (x : R) :
  let f := Int_part x in
  (rint x = f /\ x - IZR f <= 1 / 2 /\
     (x - IZR f = 1 / 2 -> Z.even f = true)) \/
  (rint x = (f + 1)%Z /\ 1 / 2 <= x - IZR f /\
     (x - IZR f = 1 / 2 -> Z.even f = false)).
Proof.
  intros f. unfold rint. fold f.
  destruct (Rlt_dec (x - IZR f) (1 / 2)) as [Hd | Hd].
  { left. repeat split; try reflexivity; try lra; auto. }
  destruct (Rlt_dec (1 / 2) (x - IZR f)) as [He | He].
  { right. repeat split; try reflexivity; try lra; auto. }
  destruct (Z.even f) eqn:Hev.
  { left. repeat split; try reflexivity; try lra; auto. }
  right. repeat split; try reflexivity; try lra; auto.
Qed.

(** Rounding to nearest never reorders two numbers. *)
Lemma rint_mono (x y : R) : x <= y -> (rint x <= rint y)%Z.
Proof.
  intros Hxy.
  pose proof (Int_part_mono x y Hxy) as Hfl.
  destruct (rint_cases x) as [[Hx [Hx1 Hx2]] | [Hx [Hx1 Hx2]]];
    destruct (rint_cases y) as [[Hy [Hy1 Hy2]] | [Hy [Hy1 Hy2]]];
    rewrite Hx, Hy; try lia.
  destruct (Z.eq_dec (Int_part x) (Int_part y)) as [Heq | Hne]; [| lia].
  exfalso. rewrite <- Heq in Hy1, Hy2.
  assert (Hx3 : x - IZR (Int_part x) = 1 / 2) by lra.
  assert (Hy3 : y - IZR (Int_part x) = 1 / 2) by lra.
  rewrite (Hx2 Hx3) in Hy2. specialize (Hy2 Hy3). discriminate.
Qed.

Lemma pow10_pos (d : nat) : 0 < 10 ^ d.
Proof. apply pow_lt. lra. Qed.

Lemma round_0_rint (x : R) : round x 0 = IZR (rint x).
Proof. unfold round. simpl. rewrite Rmult_1_r. field. Qed.

Lemma round_mono (d : nat) (x y : R) : x <= y -> round x d <= round y d.
Proof.
  intros Hxy. unfold round.
  pose proof (pow10_pos d) as Hp.
  apply Rmult_le_compat_r.
  - left. now apply Rinv_0_lt_compat.
  - apply IZR_le, rint_mono. nra.
Qed.

Lemma round_0 (d : nat) : round 0 d = 0.
Proof.
  unfold round. rewrite Rmult_0_l.
  change 0 with (IZR 0) at 1. rewrite rint_IZR. simpl.
  unfold Rdiv. apply Rmult_0_l.
Qed.

Lemma round_nonneg (d : nat) (x : R) : 0 <= x -> 0 <= round x d.
Proof.
  intros Hx. rewrite <- (round_0 d). now apply round_mono.
Qed.

End Numpy.

(** ** The standard normal distribution (behind [scipy.stats.norm]) *)

Module Normal.

(** The Gaussian kernel [exp(-t^2/2)], the unnormalised standard normal density. *)
Definition gauss (t : R) : R := exp (- (t * t) / 2).

Lemma gauss_continuous : continuity gauss.
Proof. unfold gauss. reg. Qed.

Lemma gauss_integrable (a b : R) : Riemann_integrable gauss a b.
Proof.
  destruct (Rle_dec a b) as [Hab | Hab].
  - apply continuity_implies_RiemannInt; [exact Hab |].
    intros x _. apply gauss_continuous.
  - apply RiemannInt_P1, continuity_implies_RiemannInt; [lra |].
    intros x _. apply gauss_continuous.
Qed.

(** [gauss_int a b] is the integral of the kernel from [a] to [b]. *)
Definition gauss_int (a b : R) : R := RiemannInt (gauss_integrable a b).

Lemma gauss_pos (t : R) : 0 < gauss t.
Proof. apply exp_pos. Qed.

Lemma gauss_le_1 (t : R) : gauss t <= 1.
Proof.
  unfold gauss. rewrite <- exp_0.
  destruct (Req_dec t 0) as [-> | Ht].
  - right. f_equal. lra.
  - left. apply exp_increasing. nra.
Qed.

Lemma gauss_antitone (s t : R) : 0 <= s <= t -> gauss t <= gauss s.
Proof.
  intros [Hs Hst]. unfold gauss.
  destruct (Req_dec s t) as [-> | Hne]; [lra |].
  left. apply exp_increasing. nra.
Qed.

Lemma gauss_int_chasles (a b c : R) :
  gauss_int a b + gauss_int b c = gauss_int a c.
Proof. unfold gauss_int. apply RiemannInt_P26. Qed.

Lemma gauss_int_refl (a : R) : gauss_int a a = 0.
Proof. unfold gauss_int. apply RiemannInt_P9. Qed.

Lemma gauss_int_lower (a b m : R) :
  a <= b -> (forall t, a < t < b -> m <= gauss t) -> m * (b - a) <= gauss_int a b.
Proof.
  intros Hab Hm. unfold gauss_int.
  rewrite <- (RiemannInt_P15 (RiemannInt_P14 a b m)).
  apply RiemannInt_P19; [exact Hab |].
  intros t Ht. unfold fct_cte. now apply Hm.
Qed.

Lemma gauss_int_upper (a b M : R) :
  a <= b -> (forall t, a < t < b -> gauss t <= M) -> gauss_int a b <= M * (b - a).
Proof.
  intros Hab HM. unfold gauss_int.
  rewrite <- (RiemannInt_P15 (RiemannInt_P14 a b M)).
  apply RiemannInt_P19; [exact Hab |].
  intros t Ht. unfold fct_cte. now apply HM.
Qed.


(** Area under the kernel between [0] and [x] (signed). *)
Definition gauss_area (x : R) : R := gauss_int 0 x.

Lemma gauss_area_0 : gauss_area 0 = 0.
Proof. apply gauss_int_refl. Qed.

Lemma gauss_area_diff (x y : R) : gauss_area y - gauss_area x = gauss_int x y.
Proof. unfold gauss_area. rewrite <- (gauss_int_chasles 0 x y). ring. Qed.

Lemma gauss_lower (t M : R) : Rabs t <= M -> exp (- (M * M) / 2) <= gauss t.
Proof.
  intros Ht. unfold gauss.
  assert (Hsq : t * t <= M * M).
  { pose proof (Rabs_pos t) as Hp.
    replace (t * t) with (Rabs t * Rabs t).
    - nra.
    - unfold Rabs. destruct (Rcase_abs t); ring. }
  destruct (Req_dec (t * t) (M * M)) as [-> | Hne]; [lra |].
  left. apply exp_increasing. lra.
Qed.

Lemma gauss_area_increasing (x y : R) : x < y -> gauss_area x < gauss_area y.
Proof.
  intros Hxy.
  set (M := Rmax (Rabs x) (Rabs y)).
  assert (Hlow : exp (- (M * M) / 2) * (y - x) <= gauss_int x y).
  { apply gauss_int_lower; [lra |].
    intros t Ht. apply gauss_lower. unfold M.
    pose proof (Rmax_l (Rabs x) (Rabs y)). pose proof (Rmax_r (Rabs x) (Rabs y)).
    unfold Rabs in *.
    destruct (Rcase_abs x); destruct (Rcase_abs y); destruct (Rcase_abs t); lra. }
  pose proof (exp_pos (- (M * M) / 2)) as Hpos.
  rewrite <- gauss_area_diff in Hlow. nra.
Qed.

Lemma gauss_area_monotone (x y : R) : x <= y -> gauss_area x <= gauss_area y.
Proof.
  intros [Hlt | ->]; [left; now apply gauss_area_increasing | right; reflexivity].
Qed.

Lemma gauss_area_injective (x y : R) : gauss_area x = gauss_area y -> x = y.
Proof.
  intros Heq. destruct (Rtotal_order x y) as [H | [H | H]]; trivial.
  - apply gauss_area_increasing in H. lra.
  - apply gauss_area_increasing in H. lra.
Qed.

(** The area grows at most as fast as its upper limit. *)
Lemma gauss_area_lipschitz (x y : R) :
  Rabs (gauss_area y - gauss_area x) <= Rabs (y - x).
Proof.
  assert (Hle : forall a b, a <= b -> 0 <= gauss_area b - gauss_area a <= b - a).
  { intros a b Hab. rewrite gauss_area_diff. split.
    - pose proof (gauss_int_lower a b 0 Hab) as Hl.
      rewrite Rmult_0_l in Hl. apply Hl. intros t _. left. apply gauss_pos.
    - pose proof (gauss_int_upper a b 1 Hab) as Hu.
      rewrite Rmult_1_l in Hu. apply Hu. intros t _. apply gauss_le_1. }
  destruct (Rle_dec x y) as [Hxy | Hxy].
  - destruct (Hle x y Hxy) as [H1 H2].
    rewrite !Rabs_pos_eq; lra.
  - destruct (Hle y x) as [H1 H2]; [lra |].
    rewrite <- (Rabs_Ropp (gauss_area y - gauss_area x)), <- (Rabs_Ropp (y - x)).
    rewrite !Rabs_pos_eq; lra.
Qed.

Lemma gauss_area_continuous : continuity gauss_area.
Proof.
  intros x. unfold continuity_pt, continue_in, limit1_in, limit_in.
  intros eps Heps. exists eps. split; [exact Heps |].
  intros y [_ Hd]. simpl in *. unfold Rdist in *.
  eapply Rle_lt_trans; [apply gauss_area_lipschitz | exact Hd].
Qed.

Lemma exp_neg_bound (u : R) : 0 <= u -> exp (- u) <= / (1 + u).
Proof.
  intros Hu. rewrite exp_Ropp.
  apply Rinv_le_contravar; [lra |].
  apply exp_ineq1_le.
Qed.

(** The area up to [n >= 1] stays below [5 - 4/n]: each unit step adds at
    most [gauss n <= 2 / (2 + n^2)], which telescopes. *)
Lemma gauss_area_nat_bound (n : nat) :
  (1 <= n)%nat -> gauss_area (INR n) <= 5 - 4 / INR n.
Proof.
  induction n as [| n IH]; [lia |]. intros _.
  destruct n as [| n].
  - simpl. pose proof (gauss_area_lipschitz 0 1) as Hl.
    rewrite gauss_area_0 in Hl.
    rewrite !Rminus_0_r in Hl. rewrite (Rabs_pos_eq 1) in Hl; [| lra].
    pose proof (Rle_abs (gauss_area 1)). lra.
  - specialize (IH ltac:(lia)).
    set (k := INR (S n)) in *.
    assert (Hk : 1 <= k). { unfold k. rewrite S_INR. pose proof (pos_INR n). lra. }
    replace (INR (S (S n))) with (k + 1) by (unfold k; now rewrite (S_INR (S n))).
    assert (Hstep : gauss_int k (k + 1) <= / (1 + k * k / 2)).
    { pose proof (gauss_int_upper k (k + 1) (gauss k)) as Hu.
      replace (gauss k * (k + 1 - k)) with (gauss k) in Hu by ring.
      eapply Rle_trans.
      - apply Hu; [lra |]. intros t Ht. apply gauss_antitone. lra.
      - unfold gauss. replace (- (k * k) / 2) with (- (k * k / 2)) by field.
        apply exp_neg_bound. nra. }
    rewrite <- gauss_area_diff in Hstep.
    assert (Htel : / (1 + k * k / 2) <= 4 / k - 4 / (k + 1)).
    { replace (4 / k - 4 / (k + 1)) with (4 / (k * (k + 1))) by (field; lra).
      replace (/ (1 + k * k / 2)) with (2 / (2 + k * k)) by (field; nra).
      apply Rmult_le_reg_r with ((2 + k * k) * (k * (k + 1))); [nra |].
      replace (2 / (2 + k * k) * ((2 + k * k) * (k * (k + 1))))
        with (2 * (k * (k + 1))) by (field; nra).
      replace (4 / (k * (k + 1)) * ((2 + k * k) * (k * (k + 1))))
        with (4 * (2 + k * k)) by (field; lra).
      nra. }
    lra.
Qed.

Lemma gauss_area_bounded (x : R) : gauss_area x <= 5.
Proof.
  destruct (Rle_dec x 1) as [Hx | Hx].
  - apply Rle_trans with (gauss_area 1); [now apply gauss_area_monotone |].
    pose proof (gauss_area_nat_bound 1 ltac:(lia)) as H1. simpl in H1. lra.
  - destruct (archimed x) as [Hup _].
    assert (Hz : (1 <= up x)%Z). { apply le_IZR. lra. }
    set (n := Z.to_nat (up x)).
    assert (Hn : INR n = IZR (up x)). { unfold n. rewrite INR_IZR_INZ, Z2Nat.id; [reflexivity | lia]. }
    apply Rle_trans with (gauss_area (INR n)).
    + apply gauss_area_monotone. lra.
    + pose proof (gauss_area_nat_bound n ltac:(unfold n; lia)) as Hb.
      assert (0 < 4 / INR n). { apply Rdiv_lt_0_compat; lra. }
      lra.
Qed.


(** The areas reached over the non-negative half line. *)
Definition half_areas (y : R) : Prop := exists x, 0 <= x /\ y = gauss_area x.

Lemma half_areas_bound : bound half_areas.
Proof.
  exists 5. intros y [x [_ ->]]. apply gauss_area_bounded.
Qed.

Lemma half_areas_inhabited : exists y, half_areas y.
Proof. exists 0, 0. split; [lra | symmetry; apply gauss_area_0]. Qed.

(** Half of the total mass of the kernel: the integral over [0, +oo),
    as the least upper bound of the partial areas (its value is sqrt(pi/2)). *)
Definition half_mass : R :=
  proj1_sig (completeness half_areas half_areas_bound half_areas_inhabited).

Lemma half_mass_lub : is_lub half_areas half_mass.
Proof.
  unfold half_mass.
  destruct (completeness half_areas half_areas_bound half_areas_inhabited) as [m Hm].
  exact Hm.
Qed.

Lemma half_mass_above (x : R) : gauss_area x < half_mass.
Proof.
  apply Rlt_le_trans with (gauss_area (Rabs x + 1)).
  - apply gauss_area_increasing. pose proof (Rle_abs x). lra.
  - destruct half_mass_lub as [Hub _]. apply Hub.
    exists (Rabs x + 1). split; [pose proof (Rabs_pos x); lra | reflexivity].
Qed.

Lemma half_mass_pos : 0 < half_mass.
Proof. rewrite <- gauss_area_0. apply half_mass_above. Qed.

Lemma half_mass_lower : 1 / 2 < half_mass.
Proof.
  apply Rle_lt_trans with (gauss_area 1); [| apply half_mass_above].
  pose proof (gauss_int_lower 0 1 (1 / 2)) as Hl.
  unfold gauss_area. replace (1 / 2) with (1 / 2 * (1 - 0)) at 1 by field.
  apply Hl; [lra |]. intros t Ht.
  apply Rle_trans with (exp (- (1 * 1) / 2)).
  - pose proof (exp_ineq1_le (- (1 * 1) / 2)). lra.
  - apply gauss_lower. rewrite Rabs_pos_eq; lra.
Qed.

(** Every level below the half mass is exceeded by some partial area. *)
Lemma half_mass_approach (t : R) :
  t < half_mass -> exists x, 0 <= x /\ t < gauss_area x.
Proof.
  intros Ht. apply NNPP. intros Hno.
  destruct half_mass_lub as [_ Hleast].
  assert (Hub : is_upper_bound half_areas t).
  { intros y [x [Hx ->]]. apply Rnot_lt_le. intros Hlt.
    apply Hno. now exists x. }
  specialize (Hleast t Hub). lra.
Qed.

(** Intermediate values: each level in [0, half_mass) is a partial area. *)
Lemma gauss_area_attains (t : R) :
  0 <= t < half_mass -> exists x, 0 <= x /\ gauss_area x = t.
Proof.
  intros [[Ht0 | <-] Ht].
  - destruct (half_mass_approach t Ht) as [x0 [Hx0 Hgt]].
    assert (Hx0' : 0 < x0).
    { destruct Hx0 as [H | <-]; [exact H |]. rewrite gauss_area_0 in Hgt. lra. }
    destruct (IVT_interv (fun x => gauss_area x - t) 0 x0) as [z [Hz Hfz]].
    + intros a _. apply continuity_pt_minus.
      * apply gauss_area_continuous.
      * apply continuity_pt_const. intros u v. reflexivity.
    + exact Hx0'.
    + rewrite gauss_area_0. lra.
    + lra.
    + exists z. split; lra.
  - exists 0. split; [lra | apply gauss_area_0].
Qed.

(** The standard normal distribution function.  The density is the kernel
    divided by its total mass [2 * half_mass]; for a negative argument the
    symmetry of the density gives the mass to its left. *)
Definition norm_cdf (x : R) : R :=
  if Rle_dec 0 x then 1 / 2 + gauss_area x / (2 * half_mass)
  else 1 / 2 - gauss_area (- x) / (2 * half_mass).

Lemma norm_cdf_0 : norm_cdf 0 = 1 / 2.
Proof.
  unfold norm_cdf. destruct (Rle_dec 0 0) as [_ | H]; [| lra].
  rewrite gauss_area_0. unfold Rdiv. ring.
Qed.

Lemma scaled_area_bounds (x : R) :
  0 <= x -> 0 <= gauss_area x / (2 * half_mass) < 1 / 2.
Proof.
  intros Hx. pose proof half_mass_pos as HG.
  pose proof (half_mass_above x) as Hup.
  pose proof (gauss_area_monotone 0 x Hx) as Hlo. rewrite gauss_area_0 in Hlo.
  split.
  - apply Rmult_le_pos; [exact Hlo |]. left. apply Rinv_0_lt_compat. lra.
  - apply Rmult_lt_reg_r with (2 * half_mass); [lra |].
    unfold Rdiv. rewrite Rmult_assoc, Rinv_l; lra.
Qed.

Lemma scaled_area_pos (x : R) : 0 < x -> 0 < gauss_area x / (2 * half_mass).
Proof.
  intros Hx. pose proof half_mass_pos as HG.
  pose proof (gauss_area_increasing 0 x Hx) as Hlo. rewrite gauss_area_0 in Hlo.
  apply Rmult_lt_0_compat; [exact Hlo |]. apply Rinv_0_lt_compat. lra.
Qed.

Lemma norm_cdf_range (x : R) : 0 < norm_cdf x < 1.
Proof.
  unfold norm_cdf. destruct (Rle_dec 0 x) as [Hx | Hx].
  - pose proof (scaled_area_bounds x Hx). lra.
  - pose proof (scaled_area_bounds (- x)) as H. lra.
Qed.

Lemma norm_cdf_increasing (x y : R) : x < y -> norm_cdf x < norm_cdf y.
Proof.
  intros Hxy. pose proof half_mass_pos as HG.
  assert (Hscale : forall a b, a < b ->
            gauss_area a / (2 * half_mass) < gauss_area b / (2 * half_mass)).
  { intros a b Hab. apply Rmult_lt_compat_r.
    - apply Rinv_0_lt_compat. lra.
    - now apply gauss_area_increasing. }
  unfold norm_cdf.
  destruct (Rle_dec 0 x) as [Hx | Hx]; destruct (Rle_dec 0 y) as [Hy | Hy].
  - specialize (Hscale x y Hxy). lra.
  - lra.
  - pose proof (scaled_area_pos (- x)) as H1.
    pose proof (scaled_area_bounds y Hy) as H2. lra.
  - specialize (Hscale (- y) (- x)). lra.
Qed.

Lemma norm_cdf_monotone (x y : R) : x <= y -> norm_cdf x <= norm_cdf y.
Proof.
  intros [Hlt | ->]; [left; now apply norm_cdf_increasing | right; reflexivity].
Qed.

Lemma norm_cdf_injective (x y : R) : norm_cdf x = norm_cdf y -> x = y.
Proof.
  intros Heq. destruct (Rtotal_order x y) as [H | [H | H]]; trivial.
  - apply norm_cdf_increasing in H. lra.
  - apply norm_cdf_increasing in H. lra.
Qed.

(** Every probability strictly between 0 and 1 is a value of the
    distribution function. *)
Lemma norm_cdf_surjective (p : R) : 0 < p < 1 -> exists z, norm_cdf z = p.
Proof.
  intros [Hp0 Hp1]. pose proof half_mass_pos as HG.
  destruct (Rle_dec (1 / 2) p) as [Hhalf | Hhalf].
  - destruct (gauss_area_attains ((p - 1 / 2) * (2 * half_mass))) as [x [Hx Hax]].
    { split; nra. }
    exists x. unfold norm_cdf. destruct (Rle_dec 0 x) as [_ | H]; [| lra].
    rewrite Hax. field. lra.
  - destruct (gauss_area_attains ((1 / 2 - p) * (2 * half_mass))) as [x [Hx Hax]].
    { split; nra. }
    assert (Hxpos : 0 < x).
    { destruct Hx as [H | <-]; [exact H |]. rewrite gauss_area_0 in Hax. nra. }
    exists (- x). unfold norm_cdf. destruct (Rle_dec 0 (- x)) as [H | _]; [lra |].
    rewrite Ropp_involutive, Hax. field. lra.
Qed.

(** The quantile function ([scipy.stats.norm.ppf]): the point at which the
    distribution function takes the value [p]. *)
Definition norm_ppf (p : R) : R :=
  epsilon (inhabits 0) (fun z => norm_cdf z = p).

Lemma norm_cdf_ppf (p : R) : 0 < p < 1 -> norm_cdf (norm_ppf p) = p.
Proof.
  intros Hp. unfold norm_ppf. apply epsilon_spec. now apply norm_cdf_surjective.
Qed.

Lemma norm_ppf_cdf (z : R) : norm_ppf (norm_cdf z) = z.
Proof.
  apply norm_cdf_injective, norm_cdf_ppf, norm_cdf_range.
Qed.

Lemma norm_ppf_increasing (p q : R) :
  0 < p -> p < q -> q < 1 -> norm_ppf p < norm_ppf q.
Proof.
  intros Hp Hpq Hq.
  apply Rnot_le_lt. intros Hle. apply norm_cdf_monotone in Hle.
  rewrite !norm_cdf_ppf in Hle; lra.
Qed.

Lemma norm_ppf_monotone (p q : R) :
  0 < p -> p <= q -> q < 1 -> norm_ppf p <= norm_ppf q.
Proof.
  intros Hp [Hlt | ->] Hq; [left; now apply norm_ppf_increasing | right; reflexivity].
Qed.

Lemma norm_ppf_half : norm_ppf (1 / 2) = 0.
Proof. rewrite <- norm_cdf_0. apply norm_ppf_cdf. Qed.

Lemma norm_ppf_nonneg (p : R) : 1 / 2 <= p < 1 -> 0 <= norm_ppf p.
Proof.
  intros [Hlo Hhi]. rewrite <- norm_ppf_half.
  apply norm_ppf_monotone; lra.
Qed.

Lemma norm_ppf_neg (p : R) : 0 < p < 1 / 2 -> norm_ppf p < 0.
Proof.
  intros [Hlo Hhi]. rewrite <- norm_ppf_half.
  apply norm_ppf_increasing; lra.
Qed.

(** A quantitative bound: levels at most 2/5 have a quantile below -1/10. *)
Lemma norm_ppf_low (p : R) : 0 < p <= 2 / 5 -> norm_ppf p < - (1 / 10).
Proof.
  intros [Hlo Hhi]. apply Rnot_le_lt. intros Hle.
  apply norm_cdf_monotone in Hle. rewrite norm_cdf_ppf in Hle; [| lra].
  unfold norm_cdf in Hle. destruct (Rle_dec 0 (- (1 / 10))) as [H | _]; [lra |].
  rewrite Ropp_involutive in Hle.
  pose proof half_mass_lower as HG.
  pose proof (gauss_area_lipschitz 0 (1 / 10)) as Hl.
  rewrite gauss_area_0, !Rminus_0_r in Hl.
  rewrite (Rabs_pos_eq (1 / 10)) in Hl; [| lra].
  pose proof (Rle_abs (gauss_area (1 / 10))) as Ha.
  assert (Hq : gauss_area (1 / 10) / (2 * half_mass) < 1 / 10).
  { apply Rmult_lt_reg_r with (2 * half_mass); [lra |].
    unfold Rdiv. rewrite Rmult_assoc, Rinv_l; [| lra]. nra. }
  lra.
Qed.

End Normal.

(** ** Python results and exceptions *)

Module Py.

(** A raised exception: its class name and its message ([str(e)]).  Only
    subclasses of [Exception] are modelled; interrupts are not. *)
Inductive exn : Type := Exn (class : string) (message : string).

Definition exn_class (e : exn) : string := let 'Exn c _ := e in c.
Definition exn_message (e : exn) : string := let 'Exn _ m := e in m.

(** The result of a call: a returned value or a raised exception. *)
Inductive outcome (A : Type) : Type :=
| Returned (a : A)
| Raised (e : exn).

Arguments Returned {A} a.
Arguments Raised {A} e.

Definition bind {A B : Type} (m : outcome A) (k : A -> outcome B) : outcome B :=
  match m with
  | Returned a => k a
  | Raised e => Raised e
  end.

(** Truthiness of an optional string argument ([if category:]). *)
Definition truthy (s : option string) : bool :=
  match s with
  | Some (String _ _) => true
  | _ => false
  end.

(** [l[-n:]] for a positive [n]. *)
Definition lastn {A : Type} (n : nat) (l : list A) : list A :=
  skipn (List.length l - n) l.

End Py.

Notation "x <- m ;; k" := (Py.bind m (fun x => k))
  (at level 61, m at next level, right associativity).

(** ** The dataset contract: one record per order line *)

Module Dataset.

(** The columns the engines read.  [order_date] is the calendar day of the
    order as a day number; numeric columns hold numbers (no nulls). *)
Record order : Type := mk_order {
  order_id : Z;
  order_date : Z;
  product_category : string;
  quantity : R;
  unit_price : R;
  revenue : R;
  discount_percent : R;
  scheduled_shipping_days : R;
  late_delivery : R
}.

Definition dataframe : Type := list order.

(** Group keys of [groupby] and the result of [sorted(unique())]: the
    distinct values in increasing order. *)
Section SortedUnique.
Context {K : Type} (ltb eqb : K -> K -> bool).

Fixpoint insert_unique (x : K) (l : list K) : list K :=
  match l with
  | [] => [x]
  | y :: ys =>
      if eqb x y then l
      else if ltb x y then x :: l
      else y :: insert_unique x ys
  end.

Definition sorted_unique (l : list K) : list K :=
  fold_right insert_unique [] l.
End SortedUnique.

Definition unique_days : list Z -> list Z := sorted_unique Z.ltb Z.eqb.
Definition unique_names : list string -> list string :=
  sorted_unique String.ltb String.eqb.

(** [df[df["product_category"] == category]]. *)
Definition of_category (category : string) (df : dataframe) : dataframe :=
  filter (fun o => String.eqb (product_category o) category) df.

(** The rows of one calendar day. *)
Definition on_day (d : Z) (df : dataframe) : dataframe :=
  filter (fun o => Z.eqb (order_date o) d) df.

End Dataset.

(** ** Inventory optimisation ([src/src/ml/inventory_optimizer.py]) *)

Module InventoryOptimizer.

(** [calculate_eoq]: economic order quantity, rounded to a whole unit. *)
Definition calculate_eoq
    (annual_demand ordering_cost unit_price holding_cost_rate : R) : R :=
  let holding_cost := unit_price * holding_cost_rate in
  if Numpy.Rleb holding_cost 0 || Numpy.Rleb annual_demand 0 then 0
  else
    let eoq := sqrt ((2 * annual_demand * ordering_cost) / holding_cost) in
    Numpy.round eoq 0.

(** Default arguments of [calculate_eoq]. *)
Definition default_ordering_cost : R := 50.
Definition default_unit_price : R := 100.
Definition default_holding_cost_rate : R := 20 / 100.

(** The dictionary returned by [calculate_safety_stock]. *)
Record safety_stock_result : Type := mk_safety_stock_result {
  safety_stock : R;
  reorder_point : R;
  z_score : R
}.

(** [calculate_safety_stock]: combined demand and lead-time variability. *)
Definition calculate_safety_stock
    (avg_demand demand_std avg_lead_time lead_time_std service_level : R)
    : safety_stock_result :=
  let z := Normal.norm_ppf service_level in
  let ss := z * sqrt (avg_lead_time * demand_std ^ 2 +
                      avg_demand ^ 2 * lead_time_std ^ 2) in
  let rop := avg_demand * avg_lead_time + ss in
  {| safety_stock := Numpy.round ss 0;
     reorder_point := Numpy.round rop 0;
     z_score := Numpy.round z 2 |}.

End InventoryOptimizer.

(** ** Supplier scoring ([src/src/ml/supplier_scoring.py]) *)

Module SupplierScorer.

Local Open Scope Q_scope.

(** The six normalised dimension columns of one department, as they stand
    just before the weighted sum is taken. *)
Record dimensions : Type := mk_dimensions {
  supplier : string;
  delivery_performance : Q;
  profitability : Q;
  volume_capability : Q;
  order_reliability : Q;
  cost_efficiency : Q;
  product_diversity : Q
}.

(** [WEIGHTS], in the order of the dictionary. *)
Definition WEIGHTS : list ((dimensions -> Q) * Q) :=
  [ (delivery_performance, 30 # 100);
    (profitability, 20 # 100);
    (volume_capability, 15 # 100);
    (order_reliability, 15 # 100);
    (cost_efficiency, 10 # 100);
    (product_diversity, 10 # 100) ].

(** [sum(supplier_data[metric] * weight for metric, weight in WEIGHTS.items())]. *)
Definition weighted_sum (d : dimensions) : Q :=
  fold_left (fun acc mw => acc + fst mw d * snd mw) WEIGHTS 0.

Inductive risk_label : Type := Critical | High | Medium | Low | VeryLow.
Inductive grade_label : Type := F | D | C | B | A.

(** Ordinal position of a label in its label list. *)
Definition risk_rank (r : risk_label) : nat :=
  match r with Critical => 0 | High => 1 | Medium => 2 | Low => 3 | VeryLow => 4 end.
Definition grade_rank (g : grade_label) : nat :=
  match g with F => 0 | D => 1 | C => 2 | B => 3 | A => 4 end.

Definition Qltb (x y : Q) : bool := negb (Qle_bool y x).

(** [bins.searchsorted(x, side="left")]: how many edges lie strictly below [x]. *)
Fixpoint searchsorted_left (bins : list Q) (x : Q) : nat :=
  match bins with
  | [] => 0
  | b :: rest => if Qltb b x then S (searchsorted_left rest x) else 0
  end.

(** [pd.cut(x, bins, labels)] with the defaults [right=True] and
    [include_lowest=False]: a value outside the edges, or on the lowest
    edge, gets no label (NaN). *)
Definition cut {L : Type} (bins : list Q) (labels : list L) (x : Q) : option L :=
  let ids := searchsorted_left bins x in
  if (ids =? 0)%nat || (ids =? List.length bins)%nat then None
  else nth_error labels (ids - 1).

Definition score_bins : list Q := [0; 3 # 10; 5 # 10; 65 # 100; 8 # 10; 1].

Definition risk_level_of (score : Q) : option risk_label :=
  cut score_bins [Critical; High; Medium; Low; VeryLow] score.

Definition grade_of (score : Q) : option grade_label :=
  cut score_bins [F; D; C; B; A] score.

(** One row of the returned table. *)
Record scored_row : Type := mk_scored_row {
  dims : dimensions;
  overall_score : Q;
  risk_level : option risk_label;
  grade : option grade_label
}.

Definition score_row (d : dimensions) : scored_row :=
  let s := weighted_sum d in
  {| dims := d; overall_score := s;
     risk_level := risk_level_of s; grade := grade_of s |}.

(** [sort_values("overall_score", ascending=False)]. *)
Fixpoint insert_desc (r : scored_row) (l : list scored_row) : list scored_row :=
  match l with
  | [] => [r]
  | y :: ys =>
      if Qle_bool (overall_score y) (overall_score r) then r :: y :: ys
      else y :: insert_desc r ys
  end.

Definition sort_desc (l : list scored_row) : list scored_row :=
  fold_right insert_desc [] l.

(** The tail of [score_suppliers]: weighted overall score, the two [pd.cut]
    label columns, and the final ordering. *)
Definition score_suppliers (table : list dimensions) : list scored_row :=
  sort_desc (map score_row table).

End SupplierScorer.

(** ** Demand forecasting ([src/src/ml/demand_forecasting.py]) *)

Module DemandForecaster.

Import Py Dataset.

(** The pandas [.dt] accessors of a day. *)
Record calendar : Type := mk_calendar {
  dt_year : Z -> Z;
  dt_month : Z -> Z;
  dt_quarter : Z -> Z;
  dt_dayofweek : Z -> Z;
  dt_dayofyear : Z -> Z;
  dt_week : Z -> Z;
  dt_is_month_start : Z -> bool;
  dt_is_month_end : Z -> bool;
  dt_is_quarter_start : Z -> bool
}.

Record time_features : Type := mk_time_features {
  year : Z;
  month : Z;
  quarter : Z;
  day_of_week : Z;
  day_of_year : Z;
  week_of_year : Z;
  is_weekend : Z;
  is_month_start : Z;
  is_month_end : Z;
  is_quarter_start : Z;
  month_sin : R;
  month_cos : R;
  dow_sin : R;
  dow_cos : R;
  is_holiday_season : Z
}.

Definition as_int (b : bool) : Z := if b then 1%Z else 0%Z.

(** [_create_time_features], for the row of one day. *)
Definition _create_time_features (cal : calendar) (d : Z) : time_features :=
  let m := dt_month cal d in
  let w := dt_dayofweek cal d in
  {| year := dt_year cal d;
     month := m;
     quarter := dt_quarter cal d;
     day_of_week := w;
     day_of_year := dt_dayofyear cal d;
     week_of_year := dt_week cal d;
     is_weekend := as_int (5 <=? w)%Z;
     is_month_start := as_int (dt_is_month_start cal d);
     is_month_end := as_int (dt_is_month_end cal d);
     is_quarter_start := as_int (dt_is_quarter_start cal d);
     month_sin := sin (2 * PI * IZR m / 12);
     month_cos := cos (2 * PI * IZR m / 12);
     dow_sin := sin (2 * PI * IZR w / 7);
     dow_cos := cos (2 * PI * IZR w / 7);
     is_holiday_season := as_int ((m =? 11) || (m =? 12))%Z |}.

(** One row of the daily demand series. *)
Record daily_row : Type := mk_daily_row {
  day : Z;
  demand : R;
  day_revenue : R;
  num_orders : R;
  avg_price : R;
  avg_discount : R
}.

(** [data.groupby(data["order_date"].dt.date).agg(...)]: one row per
    distinct day, in increasing order of the day. *)
Definition daily_aggregate (data : dataframe) : list daily_row :=
  map (fun d =>
         let g := on_day d data in
         {| day := d;
            demand := Numpy.sum (map quantity g);
            day_revenue := Numpy.sum (map revenue g);
            num_orders := INR (List.length g);
            avg_price := Numpy.mean (map unit_price g);
            avg_discount := Numpy.mean (map discount_percent g) |})
      (unique_days (map order_date data)).

(** [series.shift(lag)] at row [i]: the value [lag] rows earlier, NaN
    ([None]) for the first [lag] rows. *)
Definition shift_at (lag : nat) (l : list R) (i : nat) : option R :=
  if (i <? lag)%nat then None else nth_error l (i - lag).

(** The window of [series.rolling(window, min_periods=1)] ending at row [i]. *)
Definition window_at (window : nat) (l : list R) (i : nat) : list R :=
  skipn (i + 1 - window) (firstn (i + 1) l).

Definition rolling_mean_at (window : nat) (l : list R) (i : nat) : R :=
  Numpy.mean (window_at window l i).

(** Rolling sample deviation; a one-value window gives NaN, filled with 0. *)
Definition rolling_std_at (window : nat) (l : list R) (i : nat) : R :=
  let w := window_at window l i in
  if (List.length w <=? 1)%nat then 0 else Numpy.sample_std w.

(** The feature columns of a row (everything but the date and the target). *)
Record features : Type := mk_features {
  f_revenue : R;
  f_num_orders : R;
  f_avg_price : R;
  f_avg_discount : R;
  demand_lag_1 : R;
  demand_lag_7 : R;
  demand_lag_14 : R;
  demand_lag_28 : R;
  demand_rolling_mean_7 : R;
  demand_rolling_std_7 : R;
  demand_rolling_mean_14 : R;
  demand_rolling_std_14 : R;
  demand_rolling_mean_30 : R;
  demand_rolling_std_30 : R;
  f_time : time_features
}.

(** A row of the prepared frame: its index label (the row number in the
    daily series), the day, the target and the features. *)
Record prepared_row : Type := mk_prepared_row {
  p_index : nat;
  p_day : Z;
  p_demand : R;
  p_features : features
}.

(** Row [i] of the daily series with its lag, rolling and time columns;
    [None] when a lag column is NaN, in which case [dropna] removes the row. *)
Definition featured_row (cal : calendar) (daily : list daily_row) (i : nat)
    : option prepared_row :=
  let demands := map demand daily in
  match nth_error daily i,
        shift_at 1 demands i, shift_at 7 demands i,
        shift_at 14 demands i, shift_at 28 demands i with
  | Some r, Some l1, Some l7, Some l14, Some l28 =>
      Some {| p_index := i;
              p_day := day r;
              p_demand := demand r;
              p_features :=
                {| f_revenue := day_revenue r;
                   f_num_orders := num_orders r;
                   f_avg_price := avg_price r;
                   f_avg_discount := avg_discount r;
                   demand_lag_1 := l1;
                   demand_lag_7 := l7;
                   demand_lag_14 := l14;
                   demand_lag_28 := l28;
                   demand_rolling_mean_7 := rolling_mean_at 7 demands i;
                   demand_rolling_std_7 := rolling_std_at 7 demands i;
                   demand_rolling_mean_14 := rolling_mean_at 14 demands i;
                   demand_rolling_std_14 := rolling_std_at 14 demands i;
                   demand_rolling_mean_30 := rolling_mean_at 30 demands i;
                   demand_rolling_std_30 := rolling_std_at 30 demands i;
                   f_time := _create_time_features cal (day r) |} |}
  | _, _, _, _, _ => None
  end.

Fixpoint dropna {A : Type} (l : list (option A)) : list A :=
  match l with
  | [] => []
  | Some a :: rest => a :: dropna rest
  | None :: rest => dropna rest
  end.

(** [_prepare_data]: the frame [daily] after [dropna]; the returned
    [features] and [target] are its columns [p_features] and [p_demand]. *)
Definition _prepare_data (cal : calendar) (df : dataframe)
    (category : option string) : list prepared_row :=
  let data :=
    match category with
    | Some c => if truthy category then of_category c df else df
    | None => df
    end in
  let daily := daily_aggregate data in
  dropna (map (featured_row cal daily) (seq 0 (List.length daily))).

(** [config.TEST_SIZE]. *)
Definition TEST_SIZE : Q := 2 # 10.

(** [sklearn.model_selection.train_test_split(..., test_size, shuffle=False)]:
    the test part has [ceil(test_size * n)] rows taken from the end, and an
    empty training part is refused (the message is abridged). *)
Definition train_test_split {A : Type} (rows : list A) (test_size : Q)
    : outcome (list A * list A) :=
  let n := List.length rows in
  let n_test := Z.to_nat (Qceiling (test_size * inject_Z (Z.of_nat n))) in
  let n_train := (n - n_test)%nat in
  if (n_train =? 0)%nat then
    Raised (Exn "ValueError" "the resulting train set will be empty")
  else Returned (firstn n_train rows, firstn n_test (skipn n_train rows)).

(** A fitted [xgb.XGBRegressor]. *)
Record regressor : Type := mk_regressor {
  predict : features -> R
}.

Record train_metrics : Type := mk_train_metrics {
  mae : R;
  rmse : R;
  r2 : R;
  mape : R
}.

(** The metrics computed on the held-out tail. *)
Definition evaluate (y_test y_pred : list R) : train_metrics :=
  let errs := map (fun p => fst p - snd p) (combine y_test y_pred) in
  let ybar := Numpy.mean y_test in
  {| mae := Numpy.mean (map Rabs errs);
     rmse := sqrt (Numpy.mean (map (fun e => e * e) errs));
     r2 := 1 - Numpy.sum (map (fun e => e * e) errs)
               / Numpy.sum (map (fun y => (y - ybar) * (y - ybar)) y_test);
     mape := Numpy.mean
               (map (fun p => Rabs ((fst p - snd p) / (fst p + 1 / 10 ^ 8)))
                    (combine y_test y_pred)) * 100 |}.

(** The instance attributes set by [__init__] and [train]. *)
Record forecaster : Type := mk_forecaster {
  model : option regressor;
  feature_columns : list string;
  metrics : option train_metrics
}.

Definition init : forecaster :=
  {| model := None; feature_columns := []; metrics := None |}.

(** [features.columns.tolist()]. *)
Definition feature_column_names : list string :=
  [ "revenue"; "num_orders"; "avg_price"; "avg_discount";
    "demand_lag_1"; "demand_lag_7"; "demand_lag_14"; "demand_lag_28";
    "demand_rolling_mean_7"; "demand_rolling_std_7";
    "demand_rolling_mean_14"; "demand_rolling_std_14";
    "demand_rolling_mean_30"; "demand_rolling_std_30";
    "year"; "month"; "quarter"; "day_of_week"; "day_of_year";
    "week_of_year"; "is_weekend"; "is_month_start"; "is_month_end";
    "is_quarter_start"; "month_sin"; "month_cos"; "dow_sin"; "dow_cos";
    "is_holiday_season" ]%string.

(** What [train] returns: the metrics, the held-out target, the
    predictions for it and the index of the held-out rows. *)
Record train_report : Type := mk_train_report {
  report_metrics : train_metrics;
  y_test : list R;
  y_pred : list R;
  test_index : list nat
}.

Section Train.

(** [XGBRegressor(...).fit(X_train, y_train, eval_set=[(X_test, y_test)])]. *)
Variable xgb_fit :
  list (features * R) -> list (features * R) -> regressor.
Variable cal : calendar.

Definition xy (rows : list prepared_row) : list (features * R) :=
  map (fun r => (p_features r, p_demand r)) rows.

(** [train]: the instance after the call, and what the call returned or
    raised.  (The Streamlit memoisation around [train] is not modelled:
    this is the method body.) *)
Definition train (self : forecaster) (df : dataframe)
    (category : option string) : forecaster * outcome train_report :=
  let prepared := _prepare_data cal df category in
  let self1 := {| model := model self;
                  feature_columns := feature_column_names;
                  metrics := metrics self |} in
  match train_test_split prepared TEST_SIZE with
  | Raised e => (self1, Raised e)
  | Returned (train_rows, test_rows) =>
      let m := xgb_fit (xy train_rows) (xy test_rows) in
      let y_t := map p_demand test_rows in
      let y_p := map (fun r => predict m (p_features r)) test_rows in
      let ms := evaluate y_t y_p in
      ({| model := Some m;
          feature_columns := feature_column_names;
          metrics := Some ms |},
       Returned {| report_metrics := ms; y_test := y_t; y_pred := y_p;
                   test_index := map p_index test_rows |})
  end.

(** One forecast row: [{"date": ..., "predicted_demand": ...}]. *)
Record forecast_row : Type := mk_forecast_row {
  date : Z;
  predicted_demand : R
}.

(** [pd.date_range(start, periods, freq="D")]. *)
Definition date_range (start : Z) (periods : nat) : list Z :=
  map (fun i => (start + Z.of_nat i)%Z) (seq 0 periods).

(** [recent_demands[idx] if idx >= 0 else recent_demands[0]]. *)
Definition lag_value (recent_demands : list R) (lag : nat) : R :=
  if (lag <=? List.length recent_demands)%nat
  then nth (List.length recent_demands - lag) recent_demands 0
  else nth 0 recent_demands 0.

Definition recent_mean (recent_demands : list R) (window : nat) : R :=
  Numpy.mean (lastn window recent_demands).

Definition recent_std (recent_demands : list R) (window : nat) : R :=
  let w := lastn window recent_demands in
  if (1 <? List.length w)%nat then Numpy.std w else 0.

(** The feature row built for one future date. *)
Definition future_features (last_row : prepared_row)
    (recent_demands : list R) (d : Z) : features :=
  let lf := p_features last_row in
  {| f_revenue := f_revenue lf;
     f_num_orders := f_num_orders lf;
     f_avg_price := f_avg_price lf;
     f_avg_discount := f_avg_discount lf;
     demand_lag_1 := lag_value recent_demands 1;
     demand_lag_7 := lag_value recent_demands 7;
     demand_lag_14 := lag_value recent_demands 14;
     demand_lag_28 := lag_value recent_demands 28;
     demand_rolling_mean_7 := recent_mean recent_demands 7;
     demand_rolling_std_7 := recent_std recent_demands 7;
     demand_rolling_mean_14 := recent_mean recent_demands 14;
     demand_rolling_std_14 := recent_std recent_demands 14;
     demand_rolling_mean_30 := recent_mean recent_demands 30;
     demand_rolling_std_30 := recent_std recent_demands 30;
     f_time := _create_time_features cal d |}.

(** [max(0, pred)]. *)
Definition clamp (pred : R) : R := if Rlt_dec 0 pred then pred else 0.

(** One turn of the forecasting loop, on the pair
    [(forecasts, recent_demands)]. *)
Definition forecast_step (m : regressor) (last_row : prepared_row)
    (acc : list forecast_row * list R) (d : Z)
    : list forecast_row * list R :=
  let '(forecasts, recent_demands) := acc in
  let pred := clamp (predict m (future_features last_row recent_demands d)) in
  (forecasts ++ [{| date := d; predicted_demand := pred |}],
   recent_demands ++ [pred]).

(** [daily["order_date"].max()], with the last row's day as a start. *)
Definition max_day (rows : list prepared_row) (d0 : Z) : Z :=
  fold_left Z.max (map p_day rows) d0.

(** [forecast_future].  On an empty prepared frame the start of the date
    range is NaT, which [pd.date_range] refuses. *)
Definition forecast_future (self : forecaster) (df : dataframe)
    (horizon_days : nat) (category : option string)
    : outcome (list forecast_row) :=
  match model self with
  | None => Returned []
  | Some m =>
      let daily := _prepare_data cal df category in
      match last (map Some daily) None with
      | None => Raised (Exn "ValueError" "Neither `start` nor `end` can be NaT")
      | Some last_row =>
          let last_date := max_day daily (p_day last_row) in
          let future_dates := date_range (last_date + 1) horizon_days in
          let recent_demands := lastn 30 (map p_demand daily) in
          Returned
            (fst (fold_left (forecast_step m last_row) future_dates
                            ([], recent_demands)))
      end
  end.

End Train.

End DemandForecaster.

(** ** Streamlit memoisation ([@st.cache_data]) *)

Module Streamlit.

Section CacheData.

Context {A B : Type}.

(** The hash Streamlit takes of the arguments that are part of the key
    (an argument whose name starts with an underscore is left out). *)
Variable key : A -> N.
Variable body : A -> B.

Definition cache : Type := list (N * B).

Fixpoint lookup (k : N) (c : cache) : option B :=
  match c with
  | [] => None
  | (k', b) :: rest => if N.eqb k k' then Some b else lookup k rest
  end.

(** A call of the decorated function: a stored value is handed back, a
    missing one is computed by the body and stored. *)
Definition cached_call (c : cache) (a : A) : B * cache :=
  match lookup (key a) c with
  | Some b => (b, c)
  | None => let b := body a in (b, (key a, b) :: c)
  end.

End CacheData.

End Streamlit.

(** ** Inventory analysis per category ([analyze_inventory]) *)

Module InventoryAnalysis.

Import Py Dataset InventoryOptimizer.

(** One row of the analysis table. *)
Record inventory_row : Type := mk_inventory_row {
  category : string;
  total_orders : nat;
  total_revenue : R;
  avg_daily_demand : R;
  demand_std : R;
  demand_cv : R;
  annual_demand : R;
  avg_unit_price : R;
  avg_lead_time : R;
  eoq : R;
  safety_stock_95 : R;
  reorder_point_95 : R;
  safety_stock_99 : R;
  reorder_point_99 : R;
  late_delivery_rate : R;
  overstock_risk : string
}.

(** [cat_data.groupby(cat_data["order_date"].dt.date)["quantity"].sum()]:
    the index (days, increasing) and the values. *)
Definition daily_demand (cat_data : dataframe) : list (Z * R) :=
  map (fun d => (d, Numpy.sum (map quantity (on_day d cat_data))))
      (unique_days (map order_date cat_data)).

Definition index_max (days : list Z) : Z :=
  match days with
  | [] => 0%Z
  | d :: rest => fold_left Z.max rest d
  end.

Definition index_min (days : list Z) : Z :=
  match days with
  | [] => 0%Z
  | d :: rest => fold_left Z.min rest d
  end.

(** The body of the loop for one category; [None] is the [continue] taken
    for a category with fewer than 10 orders. *)
Definition analyze_category (df : dataframe) (cat : string)
    : option inventory_row :=
  let cat_data := of_category cat df in
  if (List.length cat_data <? 10)%nat then None
  else
    let daily := daily_demand cat_data in
    let demands := map snd daily in
    let avg_daily := Numpy.mean demands in
    let std_daily :=
      if (1 <? List.length demands)%nat then Numpy.sample_std demands else 0 in
    let date_range_days :=
      (index_max (map fst daily) - index_min (map fst daily))%Z in
    let annual :=
      if (0 <? date_range_days)%Z then avg_daily * 365 else avg_daily * 365 in
    let lead_time := Numpy.mean (map scheduled_shipping_days cat_data) in
    let lead_time_std :=
      if (1 <? List.length cat_data)%nat
      then Numpy.sample_std (map scheduled_shipping_days cat_data) else 1 in
    let avg_price := Numpy.mean (map unit_price cat_data) in
    let eoq_units :=
      calculate_eoq annual default_ordering_cost avg_price
                    default_holding_cost_rate in
    let ss_95 :=
      calculate_safety_stock avg_daily std_daily lead_time lead_time_std
                             (95 / 100) in
    let ss_99 :=
      calculate_safety_stock avg_daily std_daily lead_time lead_time_std
                             (99 / 100) in
    let late_rate := Numpy.mean (map late_delivery cat_data) * 100 in
    let cv :=
      if Numpy.Rltb 0 avg_daily then std_daily / avg_daily * 100 else 0 in
    let avg_order_qty := Numpy.mean (map quantity cat_data) in
    let risk :=
      if Numpy.Rltb (eoq_units * (15 / 10)) avg_order_qty
         && Numpy.Rltb 0 eoq_units then "High"%string
      else if Numpy.Rltb eoq_units avg_order_qty && Numpy.Rltb 0 eoq_units
           then "Medium"%string
           else "Low"%string in
    Some {| category := cat;
            total_orders := List.length cat_data;
            total_revenue := Numpy.round (Numpy.sum (map revenue cat_data)) 2;
            avg_daily_demand := Numpy.round avg_daily 1;
            demand_std := Numpy.round std_daily 1;
            demand_cv := Numpy.round cv 1;
            annual_demand := Numpy.round annual 0;
            avg_unit_price := Numpy.round avg_price 2;
            avg_lead_time := Numpy.round lead_time 1;
            eoq := eoq_units;
            safety_stock_95 := safety_stock ss_95;
            reorder_point_95 := reorder_point ss_95;
            safety_stock_99 := safety_stock ss_99;
            reorder_point_99 := reorder_point ss_99;
            late_delivery_rate := Numpy.round late_rate 1;
            overstock_risk := risk |}.

Definition appended (r : option inventory_row) : list inventory_row :=
  match r with
  | Some row => [row]
  | None => []
  end.

(** The method body: one row per category of at least 10 orders, the
    categories taken in [sorted(df["product_category"].unique())] order. *)
Definition analyze_inventory (df : dataframe) : list inventory_row :=
  flat_map (fun cat => appended (analyze_category df cat))
           (unique_names (map product_category df)).

(** The method as decorated with [@st.cache_data]: [_self] is not part of
    the key, the dataset is. *)
Definition cached_analyze_inventory (hash_dataframe : dataframe -> N)
    (c : Streamlit.cache) (df : dataframe)
    : list inventory_row * Streamlit.cache :=
  Streamlit.cached_call hash_dataframe analyze_inventory c df.

End InventoryAnalysis.

(** ** Late-delivery prediction ([src/src/ml/delivery_prediction.py]) *)

Module DeliveryPredictor.

Import Py.

(** The categorical columns the predictor encodes. *)
Inductive cat_col : Type :=
| product_category | region | shipping_mode | customer_segment | department.

(** The numeric columns the predictor reads or creates; [encoded c] is the
    column named [c ++ "_encoded"]. *)
Inductive num_col : Type :=
| unit_price | quantity | revenue | discount_percent | profit_margin
| scheduled_shipping_days | order_month | order_quarter | order_day_of_week
| encoded (c : cat_col)
| price_x_quantity | discount_x_price | scheduled_x_qty.

Definition cat_col_eq_dec (a b : cat_col) : {a = b} + {a <> b}.
Proof. decide equality. Defined.

Definition num_col_eq_dec (a b : num_col) : {a = b} + {a <> b}.
Proof. decide equality. apply cat_col_eq_dec. Defined.

Definition categorical_candidates : list cat_col :=
  [product_category; region; shipping_mode; customer_segment; department].

Definition numerical_candidates : list num_col :=
  [unit_price; quantity; revenue; discount_percent; profit_margin;
   scheduled_shipping_days; order_month; order_quarter; order_day_of_week].

(** A row of cells: text cells (after [astype(str)]) and numeric cells;
    [None] marks a column the frame does not have. *)
Record cells : Type := mk_cells {
  text : cat_col -> option string;
  number : num_col -> option R
}.

Definition has_text (r : cells) (c : cat_col) : bool :=
  match text r c with Some _ => true | None => false end.

Definition has_number (r : cells) (c : num_col) : bool :=
  match number r c with Some _ => true | None => false end.

(** [df[c] = v] on a one-row frame. *)
Definition set_number (c : num_col) (v : R) (r : cells) : cells :=
  {| text := text r;
     number := fun c' => if num_col_eq_dec c' c then Some v else number r c' |}.



(** The training frame: which columns exist, and for each order its cells
    and its [late_delivery] flag. *)
Record frame : Type := mk_frame {
  text_columns : list cat_col;
  number_columns : list num_col;
  rows : list (cells * R)
}.

Definition mem_cat (c : cat_col) (l : list cat_col) : bool :=
  existsb (fun c' => if cat_col_eq_dec c c' then true else false) l.

Definition mem_num (c : num_col) (l : list num_col) : bool :=
  existsb (fun c' => if num_col_eq_dec c c' then true else false) l.

(** The text of column [c] down the frame. *)
Definition column (df : frame) (c : cat_col) : list string :=
  map (fun r => match text (fst r) c with Some s => s | None => ""%string end)
      (rows df).

(** *** Label encoders *)

(** A fitted [LabelEncoder]: [classes_], sorted and without repeats. *)
Definition label_encoder : Type := list string.

Definition fit_encoder (values : list string) : label_encoder :=
  Dataset.unique_names values.

Fixpoint index_of (x : string) (classes : list string) : option nat :=
  match classes with
  | [] => None
  | c :: rest =>
      if String.eqb x c then Some 0%nat
      else option_map S (index_of x rest)
  end.

(** [le.transform([x])[0]]: a label that was not fitted is refused. *)
Definition transform (le : label_encoder) (x : string) : outcome Z :=
  match index_of x le with
  | Some i => Returned (Z.of_nat i)
  | None => Raised (Exn "ValueError" "y contains previously unseen labels")
  end.

(** [x in le.classes_]. *)
Definition known (le : label_encoder) (x : string) : bool :=
  existsb (String.eqb x) le.

(** [le.transform([x])[0] if x in le.classes_ else -1]. *)
Definition encode (le : label_encoder) (x : string) : outcome Z :=
  if known le x then transform le x else Returned (- 1)%Z.

(** *** The classifier *)

(** A fitted [xgb.XGBClassifier] for the binary target: [late] is the
    probability of class 1.  [predict_proba] returns the pair
    [(1 - p, p)] and [predict] thresholds [p] at one half. *)
Record classifier : Type := mk_classifier {
  late : list R -> R
}.

Definition predict_proba (m : classifier) (x : list R) : R * R :=
  (1 - late m x, late m x).

Definition predict (m : classifier) (x : list R) : Z :=
  if Rlt_dec (1 / 2) (late m x) then 1%Z else 0%Z.

(** The scores kept in [self.metrics] (the confusion matrix and the
    per-class report are left out). *)
Record classification_metrics : Type := mk_classification_metrics {
  accuracy : R;
  precision : R;
  recall : R;
  f1 : R;
  auc_roc : R
}.

(** The instance attributes. *)
Record predictor : Type := mk_predictor {
  model : option classifier;
  label_encoders : list (cat_col * label_encoder);
  feature_columns : list num_col;
  metrics : option classification_metrics
}.

Definition init : predictor :=
  {| model := None; label_encoders := []; feature_columns := [];
     metrics := None |}.

Fixpoint find_encoder (c : cat_col) (les : list (cat_col * label_encoder))
    : option label_encoder :=
  match les with
  | [] => None
  | (c', le) :: rest =>
      if cat_col_eq_dec c c' then Some le else find_encoder c rest
  end.

(** *** [_prepare_features] *)

(** The encoders after the loop over the categorical columns: a column
    without an encoder gets one fitted on the frame; an existing encoder is
    kept. *)
Fixpoint fit_encoders (df : frame) (cols : list cat_col)
    (les : list (cat_col * label_encoder)) : list (cat_col * label_encoder) :=
  match cols with
  | [] => les
  | c :: rest =>
      match find_encoder c les with
      | Some _ => fit_encoders df rest les
      | None => fit_encoders df rest (les ++ [(c, fit_encoder (column df c))])
      end
  end.

Definition categorical_cols (df : frame) : list cat_col :=
  filter (fun c => mem_cat c (text_columns df)) categorical_candidates.

Definition numerical_cols (df : frame) : list num_col :=
  filter (fun c => mem_num c (number_columns df)) numerical_candidates.

Definition interaction_cols (df : frame) : list num_col :=
  (if mem_num unit_price (number_columns df)
      && mem_num quantity (number_columns df)
   then [price_x_quantity] else [])
  ++ (if mem_num discount_percent (number_columns df)
         && mem_num unit_price (number_columns df)
      then [discount_x_price] else [])
  ++ (if mem_num scheduled_shipping_days (number_columns df)
         && mem_num quantity (number_columns df)
      then [scheduled_x_qty] else []).

Definition feature_cols (df : frame) : list num_col :=
  numerical_cols df ++ map encoded (categorical_cols df) ++ interaction_cols df.

(** The code of a cell under the encoders in force (an absent or unknown
    value gets -1, as in the [map] with the lambda). *)
Definition cell_code (les : list (cat_col * label_encoder)) (r : cells)
    (c : cat_col) : R :=
  match find_encoder c les, text r c with
  | Some le, Some s =>
      match index_of s le with
      | Some i => IZR (Z.of_nat i)
      | None => - 1
      end
  | _, _ => - 1
  end.

Definition product (a b : option R) : R :=
  match a, b with
  | Some x, Some y => x * y
  | _, _ => 0
  end.

(** The value of a feature column on a training row ([fillna(0)] included). *)
Definition feature_value (les : list (cat_col * label_encoder)) (r : cells)
    (c : num_col) : R :=
  match c with
  | encoded cc => cell_code les r cc
  | price_x_quantity => product (number r unit_price) (number r quantity)
  | discount_x_price => product (number r discount_percent) (number r unit_price)
  | scheduled_x_qty =>
      product (number r scheduled_shipping_days) (number r quantity)
  | _ => match number r c with Some v => v | None => 0 end
  end.

(** [_prepare_features]: the instance with its encoders and feature list
    set, and the design matrix with the target. *)
Definition _prepare_features (self : predictor) (df : frame)
    : predictor * list (list R * R) :=
  let les := fit_encoders df (categorical_cols df) (label_encoders self) in
  let cols := feature_cols df in
  ({| model := model self; label_encoders := les; feature_columns := cols;
      metrics := metrics self |},
   map (fun r => (map (feature_value les (fst r)) cols, snd r)) (rows df)).

(** *** [train] *)

Record train_report : Type := mk_train_report {
  report_metrics : classification_metrics;
  y_test : list R;
  y_pred : list Z;
  y_prob : list R
}.

Section Train.

(** [train_test_split(X, y, test_size, random_state, stratify=y)]; it
    raises when a class is too small to be split. *)
Variable stratified_split :
  list (list R * R) -> outcome (list (list R * R) * list (list R * R)).
(** [XGBClassifier(scale_pos_weight=..., ...).fit(...)]. *)
Variable xgb_fit :
  R -> list (list R * R) -> list (list R * R) -> classifier.
(** The scikit-learn metrics; [roc_auc_score] raises on a one-class test set. *)
Variable sklearn_metrics :
  list R -> list Z -> list R -> outcome classification_metrics.

Definition count_class (v : R) (ys : list R) : R :=
  INR (List.length (filter (fun y => if Req_dec_T y v then true else false) ys)).

Definition train (self : predictor) (df : frame)
    : predictor * outcome train_report :=
  let '(self1, xy) := _prepare_features self df in
  match stratified_split xy with
  | Raised e => (self1, Raised e)
  | Returned (train_set, test_set) =>
      let y_train := map snd train_set in
      let scale_pos_weight :=
        count_class 0 y_train / Rmax (count_class 1 y_train) 1 in
      let m := xgb_fit scale_pos_weight train_set test_set in
      let self2 :=
        {| model := Some m;
           label_encoders := label_encoders self1;
           feature_columns := feature_columns self1;
           metrics := metrics self1 |} in
      let yt := map snd test_set in
      let yp := map (fun r => predict m (fst r)) test_set in
      let pr := map (fun r => snd (predict_proba m (fst r))) test_set in
      match sklearn_metrics yt yp pr with
      | Raised e => (self2, Raised e)
      | Returned ms =>
          ({| model := Some m;
              label_encoders := label_encoders self1;
              feature_columns := feature_columns self1;
              metrics := Some ms |},
           Returned {| report_metrics := ms; y_test := yt; y_pred := yp;
                       y_prob := pr |})
      end
  end.

End Train.

(** *** [predict_single] *)

(** The dictionary returned by [predict_single]: either the single key
    ["error"], or the four prediction keys. *)
Inductive result : Type :=
| ErrorResult (error : string)
| Prediction (late_delivery_prediction : Z)
             (late_probability on_time_probability : R)
             (risk_level : string).

(** The loop "Encode categoricals" over [self.label_encoders]. *)
Fixpoint encode_categoricals (les : list (cat_col * label_encoder))
    (df : cells) : outcome cells :=
  match les with
  | [] => Returned df
  | (col, le) :: rest =>
      match text df col with
      | Some s =>
          code <- encode le s ;;
          encode_categoricals rest (set_number (encoded col) (IZR code) df)
      | None => encode_categoricals rest df
      end
  end.

Definition interaction (a b target : num_col) (df : cells) : cells :=
  match number df a, number df b with
  | Some x, Some y => set_number target (x * y) df
  | _, _ => df
  end.

(** "Compute interaction features". *)
Definition add_interactions (df : cells) : cells :=
  interaction scheduled_shipping_days quantity scheduled_x_qty
    (interaction discount_percent unit_price discount_x_price
       (interaction unit_price quantity price_x_quantity df)).

(** "Ensure all columns exist". *)
Definition fill_missing (cols : list num_col) (df : cells) : cells :=
  fold_left (fun d c => if has_number d c then d else set_number c 0 d) cols df.

(** [df[self.feature_columns]]: a missing column is a [KeyError]. *)
Fixpoint select (cols : list num_col) (df : cells) : outcome (list R) :=
  match cols with
  | [] => Returned []
  | c :: rest =>
      match number df c with
      | Some v => vs <- select rest df ;; Returned (v :: vs)
      | None => Raised (Exn "KeyError" "column not in index")
      end
  end.

Definition risk_of (p_late : R) : string :=
  if Rlt_dec (7 / 10) p_late then "High"
  else if Rlt_dec (4 / 10) p_late then "Medium" else "Low".

Definition predict_single (self : predictor) (order_data : cells)
    : outcome result :=
  match model self with
  | None => Returned (ErrorResult "Model not trained")
  | Some m =>
      df1 <- encode_categoricals (label_encoders self) order_data ;;
      let df2 := add_interactions df1 in
      let df3 := fill_missing (feature_columns self) df2 in
      x <- select (feature_columns self) df3 ;;
      let prob := predict_proba m x in
      let prediction := predict m x in
      Returned (Prediction prediction (snd prob) (fst prob) (risk_of (snd prob)))
  end.

End DeliveryPredictor.

(** ** The tool bridge ([src/src/agent/tools.py]) *)

Module Tools.

Import Py.

(** The key of a dictionary entry, as [json.dumps] sees it: a string, another
    scalar (written out as its text), or a key JSON cannot carry. *)
Inductive dict_key : Type :=
| KStr (s : string)
| KScalar (text : string)
| KOther.

#[local] Set Warnings "-register-all".

(** The Python values a tool returns. [PObject] is any value the JSON
    encoder does not know (a date, a NumPy scalar, ...), with its [str()]. *)
Inductive pyobj : Type :=
| PNone
| PBool (b : bool)
| PInt (n : Z)
| PFloat (x : R)
| PStr (s : string)
| PList (items : list pyobj)
| PDict (entries : list (dict_key * pyobj))
| PObject (str : string).

(** JSON documents.  The text [json.dumps] returns is identified with the
    document it spells. *)
Inductive json : Type :=
| JNull
| JBool (b : bool)
| JInt (n : Z)
| JFloat (x : R)
| JString (s : string)
| JArray (items : list json)
| JObject (members : list (string * json)).

Definition key_name (k : dict_key) : outcome string :=
  match k with
  | KStr s => Returned s
  | KScalar text => Returned text
  | KOther =>
      Raised (Exn "TypeError" "keys must be str, int, float, bool or None")
  end.

(** [json.dumps(v)] and, with [use_default], [json.dumps(v, default=str)]. *)
Fixpoint dumps (use_default : bool) (v : pyobj) : outcome json :=
  match v with
  | PNone => Returned JNull
  | PBool b => Returned (JBool b)
  | PInt n => Returned (JInt n)
  | PFloat x => Returned (JFloat x)
  | PStr s => Returned (JString s)
  | PList items =>
      ds <- (fix each (l : list pyobj) : outcome (list json) :=
               match l with
               | [] => Returned []
               | x :: rest =>
                   d <- dumps use_default x ;;
                   ds <- each rest ;;
                   Returned (d :: ds)
               end) items ;;
      Returned (JArray ds)
  | PDict entries =>
      ms <- (fix each (l : list (dict_key * pyobj))
               : outcome (list (string * json)) :=
               match l with
               | [] => Returned []
               | (k, x) :: rest =>
                   name <- key_name k ;;
                   d <- dumps use_default x ;;
                   ms <- each rest ;;
                   Returned ((name, d) :: ms)
               end) entries ;;
      Returned (JObject ms)
  | PObject str =>
      if use_default then Returned (JString str)
      else Raised (Exn "TypeError" "Object is not JSON serializable")
  end.

(** The seven tools. *)
Inductive tool : Type :=
| _query_data | _run_forecast | _analyze_supplier | _check_inventory
| _predict_delivery | _get_top_products | _compare_regions.

Definition tool_map : list (string * tool) :=
  [ ("query_supply_chain_data", _query_data);
    ("run_demand_forecast", _run_forecast);
    ("analyze_supplier", _analyze_supplier);
    ("check_inventory_status", _check_inventory);
    ("predict_delivery_risk", _predict_delivery);
    ("get_top_products", _get_top_products);
    ("compare_regions", _compare_regions) ]%string.

(** The keyword parameters of each implementation besides [df], with
    whether they have a default. *)
Definition parameters (t : tool) : list (string * bool) :=
  match t with
  | _query_data =>
      [("category", true); ("region", true); ("department", true);
       ("metric", true); ("time_period", true)]
  | _run_forecast => [("category", true); ("horizon_days", true)]
  | _analyze_supplier => [("supplier_name", false)]
  | _check_inventory => [("category", true)]
  | _predict_delivery =>
      [("category", true); ("region", true); ("shipping_mode", true);
       ("quantity", true)]
  | _get_top_products => [("metric", true); ("top_n", true)]
  | _compare_regions => []
  end%string.

Fixpoint lookup {V : Type} (name : string) (l : list (string * V)) : option V :=
  match l with
  | [] => None
  | (n, v) :: rest => if String.eqb name n then Some v else lookup name rest
  end.

(** [name in mapping]. *)
Definition contains {V : Type} (name : string) (l : list (string * V)) : bool :=
  match lookup name l with Some _ => true | None => false end.

(** [mapping[name]]. *)
Definition getitem {V : Type} (name : string) (l : list (string * V))
    : outcome V :=
  match lookup name l with
  | Some v => Returned v
  | None => Raised (Exn "KeyError" name)
  end.

(** The keywords of [**arguments]: the value must be a mapping and its keys
    strings. *)
Fixpoint keywords (entries : list (dict_key * pyobj))
    : outcome (list (string * pyobj)) :=
  match entries with
  | [] => Returned []
  | (KStr name, v) :: rest =>
      kws <- keywords rest ;; Returned ((name, v) :: kws)
  | _ :: _ => Raised (Exn "TypeError" "keywords must be strings")
  end.

Definition unpack (arguments : pyobj) : outcome (list (string * pyobj)) :=
  match arguments with
  | PDict entries => keywords entries
  | _ => Raised (Exn "TypeError" "argument after ** must be a mapping")
  end.

(** Binding [f(df=df, **arguments)]: a second [df], an unknown keyword or a
    missing required parameter is a [TypeError]. *)
Definition bind_arguments (t : tool) (arguments : pyobj)
    : outcome (list (string * pyobj)) :=
  kws <- unpack arguments ;;
  if contains "df" kws then
    Raised (Exn "TypeError" "got multiple values for keyword argument 'df'")
  else if negb (forallb (fun kv => contains (fst kv) (parameters t)) kws)
  then Raised (Exn "TypeError" "got an unexpected keyword argument")
  else if negb (forallb (fun p => snd p || contains (fst p) kws)
                        (parameters t))
  then Raised (Exn "TypeError" "missing 1 required positional argument")
  else Returned kws.

(** [try: body except Exception as e: handler(e)]. *)
Definition try_except {A : Type} (body : outcome A) (handler : exn -> outcome A)
    : outcome A :=
  match body with
  | Returned a => Returned a
  | Raised e => handler e
  end.

Section Dispatch.

(** The bodies of the seven implementations, on bound arguments. *)
Variable implementation :
  tool -> Dataset.dataframe -> list (string * pyobj) -> outcome pyobj.

(** [tool_map[tool_name](df=df, **arguments)]. *)
Definition call_tool (tool_name : string) (arguments : pyobj)
    (df : Dataset.dataframe) : outcome pyobj :=
  f <- getitem tool_name tool_map ;;
  bound <- bind_arguments f arguments ;;
  implementation f df bound.

Definition error_dict (message : string) : pyobj :=
  PDict [(KStr "error", PStr message)].

Definition execute_tool (tool_name : string)
    (arguments : pyobj) (df : Dataset.dataframe)
    : outcome json :=
  if negb (contains tool_name tool_map) then
    dumps false (error_dict ("Unknown tool: " ++ tool_name))
  else
    try_except
      (result <- call_tool tool_name arguments df ;;
       dumps true result)
      (fun e => dumps false (error_dict (exn_message e))).

End Dispatch.

(** The document [{"error": message}]. *)
Definition error_document (message : string) : json :=
  JObject [("error"%string, JString message)].

(** "The object contains the key". *)
Definition has_key (name : string) (doc : json) : bool :=
  match doc with
  | JObject members => contains name members
  | _ => false
  end.

End Tools.

(** ** Inventory recommendations ([get_recommendations]) *)

Module InventoryRecommendations.

Import InventoryAnalysis.

(** One recommendation dictionary ([savings] is always [None]). *)
Record recommendation : Type := mk_recommendation {
  rec_category : string;
  priority : string;
  action : string;
  reason : string
}.

Section Rules.

(** [format_fixed n x] is the text of [f"{x:.nf}"]. *)
Variable format_fixed : nat -> R -> string.

(** "High demand variability". *)
Definition variability_rule (row : inventory_row) : list recommendation :=
  if Numpy.Rltb 80 (demand_cv row) then
    [ {| rec_category := category row;
         priority := "High";
         action := "Increase safety stock to "
                   ++ format_fixed 0 (safety_stock_99 row) ++ " units";
         reason := "High demand variability (CV="
                   ++ format_fixed 0 (demand_cv row)
                   ++ "%). Current coefficient of variation exceeds 80%." |} ]
  else [].

(** "High late delivery rate". *)
Definition late_rule (row : inventory_row) : list recommendation :=
  if Numpy.Rltb 60 (late_delivery_rate row) then
    [ {| rec_category := category row;
         priority := "High";
         action := "Increase reorder point to "
                   ++ format_fixed 0 (reorder_point_99 row)
                   ++ " units and consider faster shipping";
         reason := "Late delivery rate of "
                   ++ format_fixed 1 (late_delivery_rate row)
                   ++ "% is critically high. "
                   ++ "Buffer stock and earlier reordering needed." |} ]
  else [].

(** "EOQ optimization". *)
Definition eoq_rule (row : inventory_row) : list recommendation :=
  if Numpy.Rltb 0 (eoq row) && Numpy.Rltb 0 (avg_daily_demand row) then
    let optimal_orders_per_year := annual_demand row / eoq row in
    if Numpy.Rltb 0 optimal_orders_per_year then
      let order_cycle_days := 365 / optimal_orders_per_year in
      [ {| rec_category := category row;
           priority := "Medium";
           action := "Order " ++ format_fixed 0 (eoq row)
                     ++ " units every " ++ format_fixed 0 order_cycle_days
                     ++ " days";
           reason := "EOQ-based ordering minimizes total inventory cost. "
                     ++ "Annual demand: "
                     ++ format_fixed 0 (annual_demand row) ++ " units." |} ]
    else []
  else [].

(** "Low demand volatility". *)
Definition stable_rule (row : inventory_row) : list recommendation :=
  if Numpy.Rltb (demand_cv row) 30 && Numpy.Rltb (late_delivery_rate row) 40
  then
    [ {| rec_category := category row;
         priority := "Low";
         action := "Reduce safety stock to 95% level: "
                   ++ format_fixed 0 (safety_stock_95 row) ++ " units";
         reason := "Stable demand (CV=" ++ format_fixed 0 (demand_cv row)
                   ++ "%) and acceptable delivery rate ("
                   ++ format_fixed 1 (late_delivery_rate row)
                   ++ "%) allow lower safety stock." |} ]
  else [].

(** The body of the loop for one row of the analysis table. *)
Definition row_recommendations (row : inventory_row) : list recommendation :=
  variability_rule row ++ late_rule row ++ eoq_rule row ++ stable_rule row.

Definition get_recommendations (analysis : list inventory_row)
    : list recommendation :=
  flat_map row_recommendations analysis.

End Rules.

End InventoryRecommendations.

(** ** The memoised [train] ([@st.cache_resource]) *)

Module MemoisedForecaster.

Import Py Dataset DemandForecaster.

Section Memoised.

(** The hash of the arguments that make the cache key: the dataset and the
    category.  [_self] starts with an underscore and is left out. *)
Variable key : dataframe * option string -> N.
Variable xgb_fit : list (features * R) -> list (features * R) -> regressor.
Variable cal : calendar.

(** [forecaster.train(df, category)] through the decorator: on a hit the
    stored return value is handed back and the body does not run, so the
    instance is left as it was; a raised exception is not stored. *)
Definition cached_train (c : @Streamlit.cache train_report)
    (self : forecaster) (df : dataframe) (category : option string)
    : (forecaster * outcome train_report) * @Streamlit.cache train_report :=
  match Streamlit.lookup (key (df, category)) c with
  | Some rep => ((self, Returned rep), c)
  | None =>
      match train xgb_fit cal self df category with
      | (self', Returned rep) =>
          ((self', Returned rep), (key (df, category), rep) :: c)
      | (self', Raised e) => ((self', Raised e), c)
      end
  end.

(** The first lines of the page and of the [_run_forecast] tool: a new
    [DemandForecaster()], [train], then [forecast_future]. *)
Definition train_and_forecast (c : @Streamlit.cache train_report)
    (df : dataframe) (horizon_days : nat) (category : option string)
    : outcome (train_report * list forecast_row)
      * @Streamlit.cache train_report :=
  let '((forecaster, trained), c') := cached_train c init df category in
  (rep <- trained ;;
   forecast <- forecast_future cal forecaster df horizon_days category ;;
   Returned (rep, forecast),
   c').

End Memoised.

End MemoisedForecaster.

(** ** Supplier scoring from the aggregated table, and its reports *)

Module SupplierReport.

Import Py SupplierScorer.
Local Open Scope Q_scope.

(** One row of [supplier_data] after the [groupby(...).agg(...)]: the
    aggregates the scoring reads.  The data is taken to hold no NaN. *)
Record aggregates : Type := mk_aggregates {
  group : string;
  late_delivery_rate : Q;
  avg_profit_margin : Q;
  total_quantity : Q;
  avg_delay : Q;
  avg_scheduled_days : Q;
  avg_discount : Q;
  num_categories : Q
}.

Definition qmin (a b : Q) : Q := if Qle_bool a b then a else b.
Definition qmax (a b : Q) : Q := if Qle_bool a b then b else a.

(** [MinMaxScaler().fit_transform(column)]: an empty column is refused; a
    constant column has its zero range replaced by 1. *)
Definition fit_transform (column : list Q) : outcome (list Q) :=
  match column with
  | [] =>
      Raised (Exn "ValueError"
                  "Found array with 0 sample(s) while a minimum of 1 is required by MinMaxScaler.")
  | x :: rest =>
      let data_min := fold_left qmin rest x in
      let data_max := fold_left qmax rest x in
      let data_range := data_max - data_min in
      let scale_ := 1 / (if Qeq_bool data_range 0 then 1 else data_range) in
      let min_ := 0 - data_min * scale_ in
      Returned (map (fun v => v * scale_ + min_) column)
  end.

Definition qsum (xs : list Q) : Q := fold_left Qplus xs 0.

Definition qmean (xs : list Q) : Q := qsum xs / inject_Z (Z.of_nat (List.length xs)).

(** [column.std() > 0], with the sample standard deviation (ddof = 1):
    NaN, hence false, on fewer than two rows; otherwise decided on the
    variance, which is positive exactly when its root is. *)
Definition std_positive (xs : list Q) : bool :=
  match xs with
  | [] | [_] => false
  | _ =>
      let m := qmean xs in
      Qltb 0 (qsum (map (fun x => (x - m) * (x - m)) xs)
              / inject_Z (Z.of_nat (List.length xs - 1)))
  end.

(** [np.clip(x, lo, hi)]. *)
Definition clip (x lo hi : Q) : Q := qmin (qmax x lo) hi.

Definition constant_column {A : Type} (data : list A) (v : Q) : list Q :=
  map (fun _ => v) data.

(** The six dimension columns, computed in the order of the code, and put
    back together row by row. *)
Definition dimension_columns (data : list aggregates)
    : outcome (list dimensions) :=
  let delivery := map (fun a => 1 - late_delivery_rate a) data in
  let profit_vals := map avg_profit_margin data in
  profit <- (if std_positive profit_vals then fit_transform profit_vals
             else Returned (constant_column data (5 # 10))) ;;
  volume <- fit_transform (map total_quantity data) ;;
  let reliability :=
    map (fun a => clip (1 - qmax (avg_delay a) 0 / qmax (avg_scheduled_days a) 1)
                       0 1) data in
  cost <- (if std_positive (map avg_discount data)
           then scaled <- fit_transform (map avg_discount data) ;;
                Returned (map (fun v => 1 - v) scaled)
           else Returned (constant_column data (5 # 10))) ;;
  diversity <- fit_transform (map num_categories data) ;;
  Returned
    (map (fun i =>
            {| supplier := nth i (map group data) ""%string;
               delivery_performance := nth i delivery 0;
               profitability := nth i profit 0;
               volume_capability := nth i volume 0;
               order_reliability := nth i reliability 0;
               cost_efficiency := nth i cost 0;
               product_diversity := nth i diversity 0 |})
         (seq 0 (List.length data))).

(** [score_suppliers] from the aggregated table on. *)
Definition score_aggregates (data : list aggregates)
    : outcome (list scored_row) :=
  table <- dimension_columns data ;;
  Returned (score_suppliers table).

(** *** [get_risk_summary] *)

(** [round(x, 3)] on a NumPy float: to the nearest thousandth, ties to the
    even one. *)
Definition rint (x : Q) : Z :=
  let f := Qfloor x in
  let r := x - inject_Z f in
  if Qltb r (1 # 2) then f
  else if Qltb (1 # 2) r then (f + 1)%Z
  else if Z.even f then f else (f + 1)%Z.

Definition round3 (x : Q) : Q := inject_Z (rint (x * 1000)) / 1000.

Definition risk_label_eqb (a b : risk_label) : bool :=
  (risk_rank a =? risk_rank b)%nat.

Record risk_summary : Type := mk_risk_summary {
  total_entities : nat;
  avg_score : option Q;       (* [None] is NaN, the mean of no rows *)
  best : string;
  worst : string;
  risk_distribution : risk_label -> nat
}.

(** [value_counts()] of the categorical column counts every label, the
    unused ones with 0, and leaves the NaN rows out. *)
Definition value_counts (labels : list (option risk_label))
    (l : risk_label) : nat :=
  List.length
    (filter (fun x => match x with
                      | Some l' => risk_label_eqb l l'
                      | None => false
                      end) labels).

Definition get_risk_summary (scored_df : list scored_row) : risk_summary :=
  {| total_entities := List.length scored_df;
     avg_score :=
       match scored_df with
       | [] => None
       | _ => Some (round3 (qmean (map overall_score scored_df)))
       end;
     best :=
       match scored_df with
       | [] => "N/A"%string
       | first :: _ => supplier (dims first)
       end;
     worst :=
       match last (map Some scored_df) None with
       | None => "N/A"%string
       | Some final => supplier (dims final)
       end;
     risk_distribution := value_counts (map risk_level scored_df) |}.

(** *** [get_improvement_suggestions] *)

(** [WEIGHTS.items()], with the keys. *)
Definition metric_keys : list string :=
  [ "delivery_performance"; "profitability"; "volume_capability";
    "order_reliability"; "cost_efficiency"; "product_diversity" ]%string.

Definition weight_items : list (string * ((dimensions -> Q) * Q)) :=
  combine metric_keys WEIGHTS.

(** [(metric, row[metric], weight)]. *)
Definition weak_area : Type := (string * Q * Q)%type.

Definition weak_areas (row : scored_row) : list weak_area :=
  flat_map (fun item =>
              let '(metric, (column, weight)) := item in
              if Qltb (column (dims row)) (5 # 10)
              then [(metric, column (dims row), weight)] else [])
           weight_items.

(** [weak_areas.sort(key=lambda x: x[1])]: stable. *)
Fixpoint insert_by_value (x : weak_area) (l : list weak_area)
    : list weak_area :=
  match l with
  | [] => [x]
  | y :: ys =>
      if Qle_bool (snd (fst x)) (snd (fst y)) then x :: l
      else y :: insert_by_value x ys
  end.

Definition sort_by_value (l : list weak_area) : list weak_area :=
  fold_right insert_by_value [] l.

(** [s.replace("_", " ").title()] on ASCII text. *)
Definition underscore : Ascii.ascii := Ascii.ascii_of_nat 95.
Definition space : Ascii.ascii := Ascii.ascii_of_nat 32.

Definition is_upper (c : Ascii.ascii) : bool :=
  let n := Ascii.nat_of_ascii c in (65 <=? n)%nat && (n <=? 90)%nat.
Definition is_lower (c : Ascii.ascii) : bool :=
  let n := Ascii.nat_of_ascii c in (97 <=? n)%nat && (n <=? 122)%nat.
Definition to_upper (c : Ascii.ascii) : Ascii.ascii :=
  if is_lower c then Ascii.ascii_of_nat (Ascii.nat_of_ascii c - 32) else c.
Definition to_lower (c : Ascii.ascii) : Ascii.ascii :=
  if is_upper c then Ascii.ascii_of_nat (Ascii.nat_of_ascii c + 32) else c.

Fixpoint replace_char (old new : Ascii.ascii) (s : string) : string :=
  match s with
  | EmptyString => EmptyString
  | String c rest =>
      String (if Ascii.eqb c old then new else c) (replace_char old new rest)
  end.

Fixpoint title_from (inside_word : bool) (s : string) : string :=
  match s with
  | EmptyString => EmptyString
  | String c rest =>
      if is_upper c || is_lower c
      then String (if inside_word then to_lower c else to_upper c)
                  (title_from true rest)
      else String c (title_from false rest)
  end.

Definition title (s : string) : string := title_from false s.

Record suggestion : Type := mk_suggestion {
  s_supplier : string;
  score : Q;
  s_grade : option grade_label;
  s_risk_level : option risk_label;
  weakest_area : string;
  suggestion_text : string
}.

Section Suggestions.

(** The text of the action for a metric, formatted from the row. *)
Variable action : string -> scored_row -> string.

Definition suggestion_for (row : scored_row) : option suggestion :=
  match sort_by_value (weak_areas row) with
  | [] => None
  | top_weak :: _ =>
      Some {| s_supplier := supplier (dims row);
              score := round3 (overall_score row);
              s_grade := grade row;
              s_risk_level := risk_level row;
              weakest_area :=
                title (replace_char underscore space (fst (fst top_weak)));
              suggestion_text := action (fst (fst top_weak)) row |}
  end.

Definition get_improvement_suggestions (scored_df : list scored_row)
    : list suggestion :=
  flat_map (fun row => match suggestion_for row with
                       | Some s => [s]
                       | None => []
                       end) scored_df.

End Suggestions.

End SupplierReport.

(** ** The tool schemas and the rule-based router
       ([src/src/agent/tools.py], [src/src/agent/supply_chain_agent.py]) *)

Module Agent.

Import Py Tools.
Local Open Scope string_scope.

(** One entry of [TOOL_DEFINITIONS]: the function name, its declared
    properties with their JSON types, and the required ones. *)
Record tool_definition : Type := mk_tool_definition {
  function_name : string;
  properties : list (string * string);
  required : list string
}.

Definition TOOL_DEFINITIONS : list tool_definition :=
  [ mk_tool_definition "query_supply_chain_data"
      [("category", "string"); ("region", "string"); ("department", "string");
       ("metric", "string"); ("time_period", "string")] [];
    mk_tool_definition "run_demand_forecast"
      [("category", "string"); ("horizon_days", "integer")] [];
    mk_tool_definition "analyze_supplier"
      [("supplier_name", "string")] ["supplier_name"];
    mk_tool_definition "check_inventory_status"
      [("category", "string")] [];
    mk_tool_definition "predict_delivery_risk"
      [("category", "string"); ("region", "string");
       ("shipping_mode", "string"); ("quantity", "integer")] [];
    mk_tool_definition "get_top_products"
      [("metric", "string"); ("top_n", "integer")] [];
    mk_tool_definition "compare_regions" [] [] ].

(** An argument object that follows a schema: every key is a declared
    property and every required property is there. *)
Definition follows (d : tool_definition) (kws : list (string * pyobj))
    : bool :=
  forallb (fun kv => contains (fst kv) (properties d)) kws
  && forallb (fun r => contains r kws) (required d).

(** The dictionary with the given string keys. *)
Definition dict_of (kws : list (string * pyobj)) : pyobj :=
  PDict (map (fun kv => (KStr (fst kv), snd kv)) kws).

(** *** Text tests *)

(** [s.startswith(w)]. *)
Fixpoint starts_with (w s : string) : bool :=
  match w with
  | EmptyString => true
  | String a w' =>
      match s with
      | EmptyString => false
      | String b s' => Ascii.eqb a b && starts_with w' s'
      end
  end.

(** [w in s]. *)
Fixpoint contains_text (w s : string) : bool :=
  starts_with w s
  || match s with
     | EmptyString => false
     | String _ s' => contains_text w s'
     end.

(** [s.lower()] on ASCII text. *)
Fixpoint lower (s : string) : string :=
  match s with
  | EmptyString => EmptyString
  | String c rest => String (SupplierReport.to_lower c) (lower rest)
  end.

(** [any(w in msg for w in words)]. *)
Definition any_in (words : list string) (msg : string) : bool :=
  existsb (fun w => contains_text w msg) words.

(** *** [config] *)

Definition PRODUCT_CATEGORIES : list string :=
  [ "Accessories"; "Baby"; "Basketball"; "Books"; "Camping & Hiking";
    "Cardio Equipment"; "Children's Clothing"; "Cleats"; "Computers";
    "Consumer Electronics"; "Electronics"; "Fishing"; "Fitness Accessories";
    "Garden"; "Golf Apparel"; "Golf Bags & Carts"; "Health and Beauty";
    "Hockey"; "Indoor/Outdoor Games"; "Men's Clothing"; "Men's Footwear";
    "Music"; "Pet Supplies"; "Soccer"; "Sporting Goods"; "Strength Training";
    "Tennis & Racquet"; "Toys"; "Video Games"; "Women's Apparel";
    "Women's Clothing" ].

Definition SHIPPING_MODES : list string :=
  [ "Standard Class"; "Second Class"; "First Class"; "Same Day" ].

Definition DEPARTMENTS : list string :=
  [ "Fan Shop"; "Apparel"; "Golf"; "Footwear"; "Outdoors";
    "Fitness"; "Book Shop"; "Discs Shop"; "Technology";
    "Pet Shop"; "Health and Beauty" ].

(** The loop shared by the three [_extract_*] methods: the first name whose
    lower-case form occurs in the message. *)
Definition first_mentioned (names : list string) (msg : string)
    : option string :=
  find (fun name => contains_text (lower name) msg) names.

Definition _extract_category : string -> option string :=
  first_mentioned PRODUCT_CATEGORIES.
Definition _extract_department : string -> option string :=
  first_mentioned DEPARTMENTS.
Definition _extract_shipping : string -> option string :=
  first_mentioned SHIPPING_MODES.

(** An optional string as a Python value. *)
Definition optional (s : option string) : pyobj :=
  match s with
  | Some text => PStr text
  | None => PNone
  end.

(** What [_fallback_response] does with a message: one call of
    [execute_tool], or the general help text. *)
Inductive route : Type :=
| CallTool (tool_name : string) (arguments : list (string * pyobj))
| GeneralHelp.

Definition _fallback_route (user_message : string) : route :=
  let msg := lower user_message in
  if any_in ["revenue"; "sales"; "order"; "how many"; "total"] msg then
    CallTool "query_supply_chain_data"
      [("time_period",
        PStr (if contains_text "year" msg then "last_year" else "all"))]
  else if any_in ["forecast"; "predict demand"; "future demand"] msg then
    let category := _extract_category msg in
    CallTool "run_demand_forecast"
      [("category", optional category); ("horizon_days", PInt 30)]
  else if any_in ["supplier"; "vendor"; "department"] msg then
    let supplier := _extract_department msg in
    match supplier with
    | Some name =>
        if truthy supplier
        then CallTool "analyze_supplier" [("supplier_name", PStr name)]
        else CallTool "query_supply_chain_data" []
    | None => CallTool "query_supply_chain_data" []
    end
  else if any_in ["inventory"; "stock"; "reorder"] msg then
    let category := _extract_category msg in
    CallTool "check_inventory_status" [("category", optional category)]
  else if any_in ["delivery"; "late"; "delay"; "shipping"] msg then
    CallTool "predict_delivery_risk"
      [("category", optional (_extract_category msg));
       ("shipping_mode", optional (_extract_shipping msg))]
  else if any_in ["top"; "best"; "worst"; "ranking"] msg then
    let metric := if contains_text "profit" msg then "profit" else "revenue" in
    CallTool "get_top_products" [("metric", PStr metric); ("top_n", PInt 10)]
  else if any_in ["region"; "compare"; "geography"; "market"] msg then
    CallTool "compare_regions" []
  else GeneralHelp.

End Agent.

(** ** Two tool bodies: [_predict_delivery] and [_check_inventory]
       ([src/src/agent/tools.py]) *)

Module ToolBodies.

Import Py Dataset.
Local Open Scope string_scope.

(** The columns of an order that [_predict_delivery] reads. *)
Record shipment : Type := mk_shipment {
  ship_category : string;
  ship_region : string;
  ship_mode : string;
  ship_late : R;
  ship_delay : R
}.

Section Bodies.

(** [search p] is the test [Series.str.contains(p, case=False)] applies to
    a cell; a pattern that is not a regular expression is refused. *)
Variable search : string -> outcome (string -> bool).
(** [format_fixed n x] is [f"{x:.nf}"], [format_grouped n x] is
    [f"{x:,.nf}"]. *)
Variable format_fixed : nat -> R -> string.
Variable format_grouped : nat -> R -> string.

(** [data[data[column].str.contains(pattern, case=False)]]. *)
Definition str_contains {A : Type} (column : A -> string) (pattern : string)
    (data : list A) : outcome (list A) :=
  test <- search pattern ;;
  Returned (filter (fun row => test (column row)) data).

(** One of the three filters of [_predict_delivery]: applied only when the
    value is given, and kept only when it leaves some rows. *)
Definition narrowed (column : shipment -> string) (value : option string)
    (data : list shipment) : outcome (list shipment) :=
  match value with
  | Some pattern =>
      if truthy value then
        sub <- str_contains column pattern data ;;
        Returned (if (0 <? List.length sub)%nat then sub else data)
      else Returned data
  | None => Returned data
  end.

(** [column.mean()]: NaN, here [None], on no rows. *)
Definition mean_or_nan (xs : list R) : option R :=
  match xs with
  | [] => None
  | _ => Some (Numpy.mean xs)
  end.

(** The comparisons with NaN are false. *)
Definition risk_of_rate (late_rate : option R) : string :=
  match late_rate with
  | Some r =>
      if Numpy.Rltb (5 / 10) r then "High"
      else if Numpy.Rltb (3 / 10) r then "Medium" else "Low"
  | None => "Low"
  end.

Definition recommendation_for (risk_level : string) : string :=
  if String.eqb risk_level "High"
  then "Consider using Same Day or First Class shipping."
  else if String.eqb risk_level "Low"
  then "Standard delivery should be acceptable."
  else "Monitor closely; consider faster shipping if timeline is critical.".

(** [value or "All"]. *)
Definition or_all (value : option string) : string :=
  match value with
  | Some s => if truthy value then s else "All"
  | None => "All"
  end.

(** [quantity or "Any"]. *)
Definition or_any (quantity : option Z) : Tools.pyobj :=
  match quantity with
  | Some q => if (q =? 0)%Z then Tools.PStr "Any" else Tools.PInt q
  | None => Tools.PStr "Any"
  end.

Definition format_percent (rate : option R) : string :=
  match rate with
  | Some r => format_fixed 1 (r * 100) ++ "%"
  | None => "nan%"
  end.

Definition format_days (delay : option R) : string :=
  match delay with
  | Some d => format_fixed 1 d ++ " days"
  | None => "nan days"
  end.

(** The returned dictionary, its two inner dictionaries flattened. *)
Record delivery_risk : Type := mk_delivery_risk {
  param_category : string;
  param_region : string;
  param_shipping_mode : string;
  param_quantity : Tools.pyobj;
  late_delivery_probability : string;
  risk_level : string;
  avg_delay_if_late : string;
  matching_orders : nat;
  recommendation : string
}.

Definition _predict_delivery (df : list shipment)
    (category region shipping_mode : option string) (quantity : option Z)
    : outcome delivery_risk :=
  data1 <- narrowed ship_category category df ;;
  data2 <- narrowed ship_region region data1 ;;
  data <- narrowed ship_mode shipping_mode data2 ;;
  let late_rate := mean_or_nan (map ship_late data) in
  let avg_delay := mean_or_nan (map ship_delay data) in
  let risk := risk_of_rate late_rate in
  Returned {| param_category := or_all category;
              param_region := or_all region;
              param_shipping_mode := or_all shipping_mode;
              param_quantity := or_any quantity;
              late_delivery_probability := format_percent late_rate;
              risk_level := risk;
              avg_delay_if_late := format_days avg_delay;
              matching_orders := List.length data;
              recommendation := recommendation_for risk |}.

(** *** [_check_inventory] *)

Import InventoryAnalysis InventoryRecommendations.

Record category_status : Type := mk_category_status {
  status_category : string;
  status_avg_daily_demand : string;
  status_demand_variability : string;
  status_annual_demand : string;
  status_safety_stock_95 : string;
  status_safety_stock_99 : string;
  status_eoq : string;
  status_reorder_point : string;
  status_late_delivery_rate : string;
  status_recommendations : list string
}.

Record category_line : Type := mk_category_line {
  line_name : string;
  line_eoq : string;
  line_safety_stock : string;
  line_daily_demand : string;
  line_late_rate : string
}.

(** The three dictionaries [_check_inventory] can return. *)
Inductive inventory_status : Type :=
| NotFound (error : string)
| Status (status : category_status)
| Overview (total_categories : nat) (categories : list category_line).

Definition overview (results : list inventory_row) : inventory_status :=
  Overview (List.length results)
    (map (fun row =>
            {| line_name := InventoryAnalysis.category row;
               line_eoq := format_fixed 0 (eoq row);
               line_safety_stock := format_fixed 0 (safety_stock_95 row);
               line_daily_demand := format_fixed 1 (avg_daily_demand row);
               line_late_rate :=
                 format_fixed 1 (late_delivery_rate row) ++ "%" |})
         results).

(** [_check_inventory].  The analysis of a dataset without any category of
    10 orders is a frame without columns, on which [results["category"]]
    is a [KeyError]. *)
Definition _check_inventory (df : dataframe) (category : option string)
    : outcome inventory_status :=
  let results := analyze_inventory df in
  match category with
  | Some pattern =>
      if truthy category then
        match results with
        | [] => Raised (Exn "KeyError" "'category'")
        | _ :: _ =>
        matched <- str_contains InventoryAnalysis.category pattern results ;;
        match matched with
        | [] => Returned (NotFound ("Category '" ++ pattern ++ "' not found."))
        | row :: _ =>
            let recs := get_recommendations format_fixed matched in
            Returned (Status
              {| status_category := InventoryAnalysis.category row;
                 status_avg_daily_demand :=
                   format_fixed 1 (avg_daily_demand row) ++ " units";
                 status_demand_variability :=
                   format_fixed 1 (demand_cv row) ++ "% CV";
                 status_annual_demand :=
                   format_grouped 0 (annual_demand row) ++ " units";
                 status_safety_stock_95 :=
                   format_fixed 0 (safety_stock_95 row) ++ " units";
                 status_safety_stock_99 :=
                   format_fixed 0 (safety_stock_99 row) ++ " units";
                 status_eoq := format_fixed 0 (eoq row) ++ " units";
                 status_reorder_point :=
                   format_fixed 0 (reorder_point_95 row) ++ " units";
                 status_late_delivery_rate :=
                   format_fixed 1 (late_delivery_rate row) ++ "%";
                 status_recommendations := map action recs |})
        end
        end
      else Returned (overview results)
  | None => Returned (overview results)
  end.

End Bodies.

End ToolBodies.

(** * Verified properties *)

Section InventoryFormulas.

Import InventoryOptimizer.

Lemma calculate_eoq_guarded (D S P h : R) :
  D <= 0 \/ P * h <= 0 -> calculate_eoq D S P h = 0.
Proof.
  intros Hg. unfold calculate_eoq.
  destruct (Numpy.Rleb (P * h) 0) eqn:Hh; [reflexivity |].
  destruct (Numpy.Rleb D 0) eqn:Hd; [reflexivity |].
  apply Numpy.Rleb_false in Hh, Hd. lra.
Qed.

Lemma calculate_eoq_open (D S P h : R) :
  0 < D -> 0 < P * h ->
  calculate_eoq D S P h = Numpy.round (sqrt (2 * D * S / (P * h))) 0.
Proof.
  intros HD Hh. unfold calculate_eoq.
  destruct (Numpy.Rleb (P * h) 0) eqn:Eh.
  { apply Numpy.Rleb_true in Eh. lra. }
  destruct (Numpy.Rleb D 0) eqn:Ed.
  { apply Numpy.Rleb_true in Ed. lra. }
  reflexivity.
Qed.

(** The worked example of the specification: the square root of 50000 lies
    strictly between 223.5 and 224.5. *)
Lemma sqrt_50000_window : 224 - 1 / 2 < sqrt 50000 < 224 + 1 / 2.
Proof.
  split.
  - replace (224 - 1 / 2) with (sqrt ((447 / 2) * (447 / 2))).
    + apply sqrt_lt_1; lra.
    + rewrite sqrt_square; lra.
  - replace (224 + 1 / 2) with (sqrt ((449 / 2) * (449 / 2))).
    + apply sqrt_lt_1; lra.
    + rewrite sqrt_square; lra.
Qed.

Lemma calculate_eoq_example : calculate_eoq 10000 50 100 (20 / 100) = 224.
Proof.
  rewrite calculate_eoq_open; [| lra | lra].
  replace (2 * 10000 * 50 / (100 * (20 / 100))) with 50000 by field.
  unfold Numpy.round. simpl. rewrite Rmult_1_r.
  rewrite (Numpy.rint_unique (sqrt 50000) 224).
  - field.
  - exact sqrt_50000_window.
Qed.

(** C7 (as stated, refuted): at the specification's own example the returned
    value is the whole number 224, not the square root of 50000. *)
Lemma calculate_eoq_not_raw_sqrt :
  0 < 10000 /\ 0 < 100 * (20 / 100) /\
  calculate_eoq 10000 50 100 (20 / 100)
    <> sqrt (2 * 10000 * 50 / (100 * (20 / 100))).
Proof.
  split; [lra |]. split; [lra |].
  rewrite calculate_eoq_example.
  replace (2 * 10000 * 50 / (100 * (20 / 100))) with 50000 by field.
  intros Heq.
  assert (Hsq : sqrt 50000 * sqrt 50000 = 50000) by (apply sqrt_sqrt; lra).
  rewrite <- Heq in Hsq. lra.
Qed.

(** C7 (amended): [calculate_eoq] returns 0 whenever the annual demand or the
    holding cost (unit price times holding-cost rate) is not positive;
    otherwise, for a non-negative ordering cost, it returns the square root
    of [2 * annual_demand * ordering_cost / holding_cost] rounded to the
    nearest whole number (ties to even).  For the specification's example
    (10000, 50, 100, 0.20) the result is exactly 224. *)
Theorem calculate_eoq_rounded (D S P h : R) :
  (D <= 0 \/ P * h <= 0 -> calculate_eoq D S P h = 0) /\
  (0 < D -> 0 < P * h -> 0 <= S ->
     calculate_eoq D S P h = Numpy.round (sqrt (2 * D * S / (P * h))) 0) /\
  calculate_eoq 10000 50 100 (20 / 100) = 224.
Proof.
  split; [apply calculate_eoq_guarded |].
  split; [| apply calculate_eoq_example].
  intros HD Hh _. now apply calculate_eoq_open.
Qed.

Lemma calculate_eoq_rounded_witness :
  (0 <= 0 \/ 100 * (20 / 100) <= 0) /\ calculate_eoq 0 50 100 (20 / 100) = 0.
Proof.
  split.
  - left. lra.
  - apply (proj1 (calculate_eoq_rounded 0 50 100 (20 / 100))). left. lra.
Defined.

Lemma sqrt_100 : sqrt (1 * 0 ^ 2 + 10 ^ 2 * 1 ^ 2) = 10.
Proof.
  replace (1 * 0 ^ 2 + 10 ^ 2 * 1 ^ 2) with (10 * 10) by ring.
  apply sqrt_square. lra.
Qed.

(** C1 (as stated, refuted): at service level 0.3 (average demand 10, no
    demand deviation, lead time 1 with deviation 1) the returned safety stock
    is negative. *)
Lemma safety_stock_negative_below_median :
  0 <= 10 /\ 0 <= 0 /\ 0 <= 1 /\ 0 < 3 / 10 < 1 /\
  ~ (0 <= safety_stock (calculate_safety_stock 10 0 1 1 (3 / 10))).
Proof.
  repeat (split; [lra |]).
  cbv [calculate_safety_stock safety_stock].
  rewrite sqrt_100, Numpy.round_0_rint.
  pose proof (Normal.norm_ppf_low (3 / 10) ltac:(lra)) as Hz.
  pose proof (Numpy.rint_bounds (Normal.norm_ppf (3 / 10) * 10)) as [_ Hr].
  lra.
Qed.

(** C1 (amended): for every service level strictly between 0 and 1 and
    non-negative demand and lead-time arguments, the returned reorder point
    is at least the returned safety stock, and the returned z-score does not
    decrease when the service level grows; the safety stock is non-negative
    whenever the service level is at least 0.5. *)
Theorem calculate_safety_stock_bounds (d sd L sL sl : R) :
  0 <= d -> 0 <= sd -> 0 <= L -> 0 <= sL -> 0 < sl < 1 ->
  let r := calculate_safety_stock d sd L sL sl in
  safety_stock r <= reorder_point r /\
  (1 / 2 <= sl -> 0 <= safety_stock r) /\
  (forall sl' : R, sl <= sl' < 1 ->
     z_score r <= z_score (calculate_safety_stock d sd L sL sl')).
Proof.
  intros Hd Hsd HL HsL Hsl r. unfold r.
  cbv [calculate_safety_stock safety_stock reorder_point z_score].
  split; [| split].
  - apply Numpy.round_mono.
    assert (0 <= d * L) by (apply Rmult_le_pos; assumption). lra.
  - intros Hhalf. apply Numpy.round_nonneg.
    apply Rmult_le_pos.
    + apply Normal.norm_ppf_nonneg. lra.
    + apply sqrt_pos.
  - intros sl' Hsl'. apply Numpy.round_mono.
    apply Normal.norm_ppf_monotone; lra.
Qed.

Lemma calculate_safety_stock_bounds_witness :
  0 <= 10 /\ 0 <= 0 /\ 0 <= 1 /\ 0 <= 1 /\ 0 < 19 / 20 < 1 /\
  let r := calculate_safety_stock 10 0 1 1 (19 / 20) in
  safety_stock r <= reorder_point r /\
  (1 / 2 <= 19 / 20 -> 0 <= safety_stock r) /\
  (forall sl' : R, 19 / 20 <= sl' < 1 ->
     z_score r <= z_score (calculate_safety_stock 10 0 1 1 sl')).
Proof.
  repeat (split; [lra |]).
  apply (calculate_safety_stock_bounds 10 0 1 1 (19 / 20)); lra.
Defined.

End InventoryFormulas.

Section SupplierLabels.

Import SupplierScorer.
Local Open Scope Q_scope.

Lemma Qltb_true (x y : Q) : Qltb x y = true <-> x < y.
Proof.
  unfold Qltb. rewrite negb_true_iff. split.
  - intros H. apply Qnot_le_lt. intros Hle.
    apply Qle_bool_iff in Hle. congruence.
  - intros H. destruct (Qle_bool y x) eqn:E; [| reflexivity].
    apply Qle_bool_iff in E. lra.
Qed.

Lemma Qltb_false (x y : Q) : Qltb x y = false <-> y <= x.
Proof.
  unfold Qltb. rewrite negb_false_iff. apply Qle_bool_iff.
Qed.

(** Which edges of [score_bins] lie strictly below a score decides its bin. *)
Ltac split_edges s :=
  unfold grade_of, risk_level_of, cut, score_bins, searchsorted_left;
  repeat match goal with
  | |- context [Qltb ?b s] =>
      let E := fresh "E" in
      destruct (Qltb b s) eqn:E;
      [apply Qltb_true in E | apply Qltb_false in E]
  end; simpl.

Lemma labels_same_rank (s : Q) :
  option_map grade_rank (grade_of s) = option_map risk_rank (risk_level_of s).
Proof. split_edges s; reflexivity. Qed.

Lemma labels_band_F (s : Q) :
  0 < s <= 3 # 10 -> grade_of s = Some F /\ risk_level_of s = Some Critical.
Proof. intros [H1 H2]. split; split_edges s; try reflexivity; lra. Qed.

Lemma labels_band_D (s : Q) :
  3 # 10 < s <= 5 # 10 -> grade_of s = Some D /\ risk_level_of s = Some High.
Proof. intros [H1 H2]. split; split_edges s; try reflexivity; lra. Qed.

Lemma labels_band_C (s : Q) :
  5 # 10 < s <= 65 # 100 -> grade_of s = Some C /\ risk_level_of s = Some Medium.
Proof. intros [H1 H2]. split; split_edges s; try reflexivity; lra. Qed.

Lemma labels_band_B (s : Q) :
  65 # 100 < s <= 8 # 10 -> grade_of s = Some B /\ risk_level_of s = Some Low.
Proof. intros [H1 H2]. split; split_edges s; try reflexivity; lra. Qed.

Lemma labels_band_A (s : Q) :
  8 # 10 < s <= 1 -> grade_of s = Some A /\ risk_level_of s = Some VeryLow.
Proof. intros [H1 H2]. split; split_edges s; try reflexivity; lra. Qed.

Lemma insert_desc_In (r x : scored_row) (l : list scored_row) :
  In x (insert_desc r l) -> x = r \/ In x l.
Proof.
  induction l as [| y ys IH]; simpl.
  - intros [<- | []]. now left.
  - destruct (Qle_bool (overall_score y) (overall_score r)); simpl.
    + intros [<- | H]; [now left | now right].
    + intros [<- | H]; [right; now left |].
      destruct (IH H) as [-> | Hin]; [now left | right; now right].
Qed.

Lemma sort_desc_In (x : scored_row) (l : list scored_row) :
  In x (sort_desc l) -> In x l.
Proof.
  induction l as [| y ys IH]; simpl; [trivial |].
  intros H. apply insert_desc_In in H. destruct H as [-> | H]; auto.
Qed.

(** Every returned row carries the labels its own overall score selects. *)
Lemma score_suppliers_row (table : list dimensions) (row : scored_row) :
  In row (score_suppliers table) ->
  risk_level row = risk_level_of (overall_score row) /\
  grade row = grade_of (overall_score row).
Proof.
  intros H. apply sort_desc_In in H. apply in_map_iff in H.
  destruct H as [d [<- _]]. split; reflexivity.
Qed.

(** Two departments on the boundaries: only the delivery dimension at 1
    (overall score 0.3), and every dimension at 0 (overall score 0). *)
Definition dept_boundary : dimensions :=
  mk_dimensions "Golf" 1 0 0 0 0 0.
Definition dept_zero : dimensions :=
  mk_dimensions "Fan Shop" 0 0 0 0 0 0.

(** C2 (as stated, refuted): an overall score of exactly 0.3 is labelled
    F / Critical, not D / High, and an overall score of exactly 0 gets no
    label at all. *)
Lemma boundary_scores_labels :
  map (fun r => (Qred (overall_score r), grade r, risk_level r))
      (score_suppliers [dept_boundary; dept_zero])
  = [ (3 # 10, Some F, Some Critical); (0, None, None) ].
Proof. vm_compute. reflexivity. Qed.

(** C2 (amended): in every row produced by [score_suppliers] the grade and
    the risk level are both derived from the overall score with the same cut
    points, each bin closed on the right: (0,0.3] -> F/Critical,
    (0.3,0.5] -> D/High, (0.5,0.65] -> C/Medium, (0.65,0.8] -> B/Low,
    (0.8,1.0] -> A/Very Low; in particular a score of exactly 0.3 receives
    F/Critical, and for every score the two labels sit at the same ordinal
    rank (or are both absent). *)
Theorem score_suppliers_labels (table : list dimensions) (row : scored_row) :
  In row (score_suppliers table) ->
  let s := overall_score row in
  (0 < s <= 3 # 10 -> grade row = Some F /\ risk_level row = Some Critical) /\
  (3 # 10 < s <= 5 # 10 -> grade row = Some D /\ risk_level row = Some High) /\
  (5 # 10 < s <= 65 # 100 -> grade row = Some C /\ risk_level row = Some Medium) /\
  (65 # 100 < s <= 8 # 10 -> grade row = Some B /\ risk_level row = Some Low) /\
  (8 # 10 < s <= 1 -> grade row = Some A /\ risk_level row = Some VeryLow) /\
  option_map grade_rank (grade row) = option_map risk_rank (risk_level row).
Proof.
  intros Hin s. destruct (score_suppliers_row table row Hin) as [Hr Hg].
  rewrite Hr, Hg. fold s.
  repeat split; try apply labels_same_rank;
    first [ now apply labels_band_F | now apply labels_band_D
          | now apply labels_band_C | now apply labels_band_B
          | now apply labels_band_A ].
Qed.

Lemma score_suppliers_labels_witness :
  In (score_row dept_boundary) (score_suppliers [dept_boundary; dept_zero]) /\
  grade (score_row dept_boundary) = Some F /\
  risk_level (score_row dept_boundary) = Some Critical.
Proof.
  assert (Hin : In (score_row dept_boundary)
                   (score_suppliers [dept_boundary; dept_zero])).
  { left. reflexivity. }
  split; [exact Hin |].
  apply (score_suppliers_labels _ _ Hin). vm_compute. split; congruence.
Defined.

End SupplierLabels.

Section DemandForecasting.

Import Py Dataset DemandForecaster.

Variable xgb_fit : list (features * R) -> list (features * R) -> regressor.
Variable cal : calendar.

(** *** The prepared frame loses exactly the first 28 daily rows *)

Lemma dropna_count {A : Type} (f : nat -> option A) (k : nat) :
  forall len start : nat,
    (forall i, (start <= i < start + len)%nat -> (f i = None <-> (i < k)%nat)) ->
    List.length (dropna (map f (seq start len))) = (start + len - Nat.max start k)%nat.
Proof.
  induction len as [| len IH]; intros start Hf; simpl.
  - lia.
  - assert (Hrest : List.length (dropna (map f (seq (S start) len)))
                    = (S start + len - Nat.max (S start) k)%nat).
    { apply IH. intros i Hi. apply Hf. lia. }
    destruct (f start) eqn:Efs.
    + assert (Hk : ~ (start < k)%nat).
      { intros Hlt. apply (Hf start ltac:(lia)) in Hlt. congruence. }
      simpl. rewrite Hrest. lia.
    + assert (Hk : (start < k)%nat) by (apply (Hf start ltac:(lia)); exact Efs).
      rewrite Hrest. lia.
Qed.

Lemma shift_at_some (lag : nat) (l : list R) (i : nat) :
  (lag <= i < List.length l)%nat -> exists v, shift_at lag l i = Some v.
Proof.
  intros Hi. unfold shift_at.
  destruct (i <? lag)%nat eqn:E; [apply Nat.ltb_lt in E; lia |].
  destruct (nth_error l (i - lag)) eqn:En; [now eexists |].
  apply nth_error_None in En. lia.
Qed.

Lemma featured_row_none_iff (daily : list daily_row) (i : nat) :
  (i < List.length daily)%nat ->
  (featured_row cal daily i = None <-> (i < 28)%nat).
Proof.
  intros Hi. unfold featured_row.
  destruct (nth_error daily i) as [r |] eqn:Er;
    [| apply nth_error_None in Er; lia].
  destruct (Nat.lt_ge_cases i 28) as [Hlt | Hge].
  - assert (E28 : shift_at 28 (map demand daily) i = None).
    { unfold shift_at. apply Nat.ltb_lt in Hlt. now rewrite Hlt. }
    rewrite E28. split; [intros _; exact Hlt | intros _].
    destruct (shift_at 1 (map demand daily) i),
             (shift_at 7 (map demand daily) i),
             (shift_at 14 (map demand daily) i); reflexivity.
  - assert (Hlen : List.length (map demand daily) = List.length daily)
      by apply length_map.
    destruct (shift_at_some 1 (map demand daily) i) as [v1 ->]; [lia |].
    destruct (shift_at_some 7 (map demand daily) i) as [v7 ->]; [lia |].
    destruct (shift_at_some 14 (map demand daily) i) as [v14 ->]; [lia |].
    destruct (shift_at_some 28 (map demand daily) i) as [v28 ->]; [lia |].
    split; [discriminate | lia].
Qed.

Definition selected (df : dataframe) (category : option string) : dataframe :=
  match category with
  | Some c => if truthy category then of_category c df else df
  | None => df
  end.

(** The number of prepared rows: the distinct order days, less 28. *)
Lemma prepared_length (df : dataframe) (category : option string) :
  List.length (_prepare_data cal df category)
  = (List.length (unique_days (map order_date (selected df category))) - 28)%nat.
Proof.
  unfold _prepare_data. fold (selected df category).
  set (daily := daily_aggregate (selected df category)).
  rewrite (dropna_count (featured_row cal daily) 28).
  - unfold daily, daily_aggregate. rewrite length_map. lia.
  - intros i Hi. apply featured_row_none_iff. lia.
Qed.

(** *** The chronological split *)

Lemma n_test_value (n : nat) :
  Z.to_nat (Qceiling (TEST_SIZE * inject_Z (Z.of_nat n))) = ((n + 4) / 5)%nat.
Proof.
  unfold TEST_SIZE, Qceiling, Qfloor, Qmult, Qopp, inject_Z.
  cbn [Qnum Qden]. change (10 * 1)%positive with 10%positive.
  assert (H : (- (- (2 * Z.of_nat n) / 10) = (Z.of_nat n + 4) / 5)%Z).
  { pose proof (Z.div_mod (- (2 * Z.of_nat n)) 10 ltac:(lia)) as H1.
    pose proof (Z.mod_pos_bound (- (2 * Z.of_nat n)) 10 ltac:(lia)) as H2.
    pose proof (Z.div_mod (Z.of_nat n + 4) 5 ltac:(lia)) as H3.
    pose proof (Z.mod_pos_bound (Z.of_nat n + 4) 5 ltac:(lia)) as H4.
    lia. }
  rewrite H.
  replace 4%Z with (Z.of_nat 4) by reflexivity.
  replace 5%Z with (Z.of_nat 5) by reflexivity.
  rewrite <- Nat2Z.inj_add, <- Nat2Z.inj_div. apply Nat2Z.id.
Qed.

Lemma n_test_bounds (n : nat) :
  (2 <= n)%nat -> (1 <= (n + 4) / 5 < n)%nat.
Proof.
  intros Hn.
  pose proof (Nat.div_mod (n + 4) 5 ltac:(lia)) as H1.
  pose proof (Nat.mod_upper_bound (n + 4) 5 ltac:(lia)) as H2.
  lia.
Qed.

Lemma train_test_split_ok {A : Type} (rows : list A) :
  (2 <= List.length rows)%nat ->
  train_test_split rows TEST_SIZE
  = Returned (firstn (List.length rows - (List.length rows + 4) / 5) rows,
              firstn ((List.length rows + 4) / 5)
                     (skipn (List.length rows - (List.length rows + 4) / 5) rows)).
Proof.
  intros Hn. unfold train_test_split. rewrite n_test_value.
  pose proof (n_test_bounds _ Hn) as Hb.
  destruct (List.length rows - (List.length rows + 4) / 5 =? 0)%nat eqn:E.
  - apply Nat.eqb_eq in E. lia.
  - reflexivity.
Qed.

Lemma train_test_split_empty_train {A : Type} (rows : list A) :
  (List.length rows <= 1)%nat ->
  train_test_split rows TEST_SIZE
  = Raised (Exn "ValueError" "the resulting train set will be empty").
Proof.
  intros Hn. unfold train_test_split. rewrite n_test_value.
  destruct rows as [| a [| b rest]]; simpl in *; try reflexivity. lia.
Qed.

(** *** What [train] does with few rows *)

Lemma train_enough_rows (self : forecaster) (df : dataframe)
    (category : option string) :
  let n := List.length (_prepare_data cal df category) in
  (2 <= n)%nat ->
  exists self' rep,
    train xgb_fit cal self df category = (self', Returned rep) /\
    model self' <> None /\
    List.length (y_test rep) = ((n + 4) / 5)%nat.
Proof.
  intros n Hn. unfold train. fold n.
  rewrite (train_test_split_ok _ Hn). fold n.
  eexists. eexists. split; [reflexivity |]. split; [discriminate |].
  cbn [y_test]. rewrite length_map, length_firstn, length_skipn. fold n.
  pose proof (n_test_bounds n Hn). lia.
Qed.

Lemma train_too_few_rows (self : forecaster) (df : dataframe)
    (category : option string) :
  (List.length (_prepare_data cal df category) <= 1)%nat ->
  exists self',
    train xgb_fit cal self df category
    = (self', Raised (Exn "ValueError" "the resulting train set will be empty")) /\
    model self' = model self.
Proof.
  intros Hn. unfold train.
  rewrite (train_test_split_empty_train _ Hn).
  eexists. split; reflexivity.
Qed.

(** C3 (amended): [train] defines no minimum row count and never raises an
    [InsufficientDataError].  With [n] rows left after the lag features are
    added and NaN rows dropped, the chronological split keeps the last
    [ceil(0.2 n)] rows for testing: for [n >= 2] training goes ahead and
    returns; for [n <= 1] the split itself fails with the library's
    [ValueError] (empty training set), the only error [train] raises. *)
Theorem train_row_threshold (self : forecaster) (df : dataframe)
    (category : option string) :
  let n := List.length (_prepare_data cal df category) in
  ((2 <= n)%nat ->
     exists self' rep,
       train xgb_fit cal self df category = (self', Returned rep) /\
       model self' <> None /\
       List.length (y_test rep) = ((n + 4) / 5)%nat) /\
  ((n <= 1)%nat ->
     exists self',
       train xgb_fit cal self df category
       = (self', Raised (Exn "ValueError" "the resulting train set will be empty")) /\
       model self' = model self) /\
  (forall e, snd (train xgb_fit cal self df category) = Raised e ->
     exn_class e = "ValueError"%string).
Proof.
  intros n. split; [apply train_enough_rows |].
  split; [apply train_too_few_rows |].
  intros e He.
  destruct (Nat.le_gt_cases n 1) as [Hle | Hgt].
  - destruct (train_too_few_rows self df category Hle) as [self' [Ht _]].
    rewrite Ht in He. simpl in He. injection He as <-. reflexivity.
  - destruct (train_enough_rows self df category Hgt) as [self' [rep [Ht _]]].
    rewrite Ht in He. discriminate.
Qed.

(** A successful [train] leaves a fitted model and a non-empty prepared frame. *)
Lemma train_returned (self0 self : forecaster) (df : dataframe)
    (category : option string) (rep : train_report) :
  train xgb_fit cal self0 df category = (self, Returned rep) ->
  (exists m, model self = Some m) /\ _prepare_data cal df category <> [].
Proof.
  intros Ht.
  destruct (Nat.le_gt_cases (List.length (_prepare_data cal df category)) 1)
    as [Hle | Hgt].
  - destruct (train_too_few_rows self0 df category Hle) as [self' [Ht' _]].
    rewrite Ht' in Ht. discriminate.
  - split.
    + unfold train in Ht. rewrite (train_test_split_ok _ Hgt) in Ht.
      injection Ht as <- _. now eexists.
    + intros Hnil. rewrite Hnil in Hgt. simpl in Hgt. lia.
Qed.

(** *** The forecasting loop *)




Lemma last_row_exists {A : Type} (l : list A) :
  l <> [] -> exists r, last (map Some l) None = Some r /\ In r l.
Proof.
  induction l as [| a [| b rest] IH]; intros Hne.
  - congruence.
  - exists a. split; [reflexivity | now left].
  - destruct IH as [r [Hl Hin]]; [discriminate |].
    exists r. split; [exact Hl | now right].
Qed.



(** While no model is set the first test of [forecast_future] returns. *)
Lemma forecast_future_model_unset (self : forecaster) (df : dataframe)
    (horizon_days : nat) (category : option string) :
  model self = None ->
  forecast_future cal self df horizon_days category = Returned [].
Proof.
  intros Hm. unfold forecast_future. now rewrite Hm.
Qed.

(** C10: before any call to [train] the model is unset, and
    [forecast_future] returns the empty table for every dataset, horizon
    and category filter; it does not raise. *)
Theorem forecast_future_untrained (df : dataframe) (horizon_days : nat)
    (category : option string) :
  forecast_future cal init df horizon_days category = Returned [].
Proof.
  apply forecast_future_model_unset.
  reflexivity.
Qed.

End DemandForecasting.

Section DemandExamples.

Import Py Dataset DemandForecaster.

(** A schematic calendar for examples: twelve months of thirty days. *)
Definition schematic_calendar : calendar :=
  {| dt_year := fun d => (2015 + d / 360)%Z;
     dt_month := fun d => (1 + (d mod 360) / 30)%Z;
     dt_quarter := fun d => (1 + (d mod 360) / 90)%Z;
     dt_dayofweek := fun d => (d mod 7)%Z;
     dt_dayofyear := fun d => (1 + d mod 360)%Z;
     dt_week := fun d => (1 + (d mod 360) / 7)%Z;
     dt_is_month_start := fun d => (d mod 30 =? 0)%Z;
     dt_is_month_end := fun d => (d mod 30 =? 29)%Z;
     dt_is_quarter_start := fun d => (d mod 90 =? 0)%Z |}.

(** A stand-in for the boosted trees: predict the mean training target. *)
Definition mean_fit (train_set eval_set : list (features * R)) : regressor :=
  {| predict := fun _ => Numpy.mean (map snd train_set) |}.

(** One order a day for 58 consecutive days. *)
Definition two_months : dataframe :=
  map (fun i => mk_order (Z.of_nat i) (Z.of_nat i) "Golf" 1 10 10 0 2 0)
      (seq 0 58).

Lemma two_months_days :
  List.length (unique_days (map order_date two_months)) = 58%nat.
Proof. vm_compute. reflexivity. Qed.

Lemma two_months_prepared (cal : calendar) :
  List.length (_prepare_data cal two_months None) = 30%nat.
Proof.
  rewrite prepared_length. unfold selected. rewrite two_months_days. reflexivity.
Qed.

Lemma two_months_trains :
  exists self rep,
    train mean_fit schematic_calendar init two_months None
    = (self, Returned rep).
Proof.
  destruct (train_enough_rows mean_fit schematic_calendar init two_months None)
    as [self [rep [Ht _]]].
  - rewrite two_months_prepared. lia.
  - now exists self, rep.
Qed.

(** C3 (as stated, refuted): a series that leaves 30 rows after preparation,
    fewer than the suggested minimum of 40, trains without any error. *)
Lemma train_thirty_rows_succeeds :
  (List.length (_prepare_data schematic_calendar two_months None) < 40)%nat /\
  exists self rep,
    train mean_fit schematic_calendar init two_months None
    = (self, Returned rep).
Proof.
  split.
  - rewrite two_months_prepared. lia.
  - exact two_months_trains.
Qed.


End DemandExamples.

Section InventoryDeterminism.

Import Dataset InventoryAnalysis.

(** A call leaves the cache holding, for its key, the value it returned. *)
Lemma cached_call_stores {A B : Type} (key : A -> N) (body : A -> B)
    (c : Streamlit.cache) (a : A) :
  Streamlit.lookup (key a) (snd (Streamlit.cached_call key body c a))
  = Some (fst (Streamlit.cached_call key body c a)).
Proof.
  unfold Streamlit.cached_call.
  destruct (Streamlit.lookup (key a) c) as [b |] eqn:E; simpl.
  - exact E.
  - now rewrite N.eqb_refl.
Qed.

Lemma cached_call_repeat {A B : Type} (key : A -> N) (body : A -> B)
    (c : Streamlit.cache) (a : A) :
  let first := Streamlit.cached_call key body c a in
  Streamlit.cached_call key body (snd first) a = (fst first, snd first).
Proof.
  intros first. unfold Streamlit.cached_call at 1.
  unfold first. now rewrite cached_call_stores.
Qed.

Lemma cached_call_fresh {A B : Type} (key : A -> N) (body : A -> B) (a : A) :
  fst (Streamlit.cached_call key body [] a) = body a.
Proof. reflexivity. Qed.

(** C9: calling [analyze_inventory] twice on the same unchanged dataset
    yields identical output rows: the second call returns exactly the table
    of the first (same categories, same order, same values), and on a fresh
    cache that table is the one the aggregation computes from the dataset. *)
Theorem analyze_inventory_deterministic (hash_dataframe : dataframe -> N)
    (c : Streamlit.cache) (df : dataframe) :
  let first := cached_analyze_inventory hash_dataframe c df in
  let second := cached_analyze_inventory hash_dataframe (snd first) df in
  fst second = fst first /\
  fst (cached_analyze_inventory hash_dataframe [] df) = analyze_inventory df.
Proof.
  intros first second. split; [| reflexivity].
  unfold second, cached_analyze_inventory.
  unfold first, cached_analyze_inventory.
  now rewrite cached_call_repeat.
Qed.

End InventoryDeterminism.

Section DeliveryPrediction.

Import Py DeliveryPredictor.

(** *** Encoders *)

Lemma insert_unique_In (x y : string) (l : list string) :
  In x (Dataset.insert_unique String.ltb String.eqb y l) <-> x = y \/ In x l.
Proof.
  induction l as [| z zs IH]; simpl.
  - intuition congruence.
  - destruct (String.eqb y z) eqn:E.
    + apply String.eqb_eq in E. subst z. simpl. intuition congruence.
    + destruct (String.ltb y z); simpl; [intuition congruence |].
      rewrite IH. intuition congruence.
Qed.

Lemma unique_names_In (x : string) (l : list string) :
  In x (Dataset.unique_names l) <-> In x l.
Proof.
  unfold Dataset.unique_names, Dataset.sorted_unique.
  induction l as [| y ys IH]; simpl; [tauto |].
  rewrite insert_unique_In, IH. intuition congruence.
Qed.

Lemma known_In (le : label_encoder) (x : string) :
  known le x = true <-> In x le.
Proof.
  unfold known. rewrite existsb_exists. split.
  - intros [y [Hin Heq]]. apply String.eqb_eq in Heq. now subst.
  - intros Hin. exists x. split; [exact Hin | apply String.eqb_refl].
Qed.

Lemma index_of_In (le : label_encoder) (x : string) :
  In x le -> exists i, index_of x le = Some i.
Proof.
  induction le as [| c rest IH]; simpl; [tauto |].
  intros Hin. destruct (String.eqb x c) eqn:E; [now eexists |].
  destruct Hin as [-> | Hin]; [rewrite String.eqb_refl in E; discriminate |].
  destruct (IH Hin) as [i ->]. now eexists.
Qed.

(** The guarded call never reaches the refusal of [transform]; a value
    outside [classes_] gets the sentinel. *)
Lemma encode_returns (le : label_encoder) (x : string) :
  exists code, encode le x = Returned code /\ (~ In x le -> code = (- 1)%Z).
Proof.
  unfold encode. destruct (known le x) eqn:E.
  - apply known_In in E. destruct (index_of_In le x E) as [i Hi].
    unfold transform. rewrite Hi. eexists. split; [reflexivity | tauto].
  - eexists. split; [reflexivity | trivial].
Qed.


Lemma encode_categoricals_text (les : list (cat_col * label_encoder)) :
  forall df df', encode_categoricals les df = Returned df' -> text df' = text df.
Proof.
  induction les as [| [col le] rest IH]; intros df df' Hrun; simpl in Hrun.
  - now injection Hrun as <-.
  - destruct (text df col) as [s |].
    + destruct (encode_returns le s) as [code [Hcode _]].
      rewrite Hcode in Hrun. simpl in Hrun. now rewrite (IH _ _ Hrun).
    + now apply IH.
Qed.



(** *** Filling and selecting the feature columns *)






(** *** The state [train] leaves behind *)





Section Trained.

Variable stratified_split :
  list (list R * R) -> outcome (list (list R * R) * list (list R * R)).
Variable xgb_fit :
  R -> list (list R * R) -> list (list R * R) -> classifier.
Variable sklearn_metrics :
  list R -> list Z -> list R -> outcome classification_metrics.



End Trained.

(** C4 (amended): when no model has been fitted, as on a fresh instance
    before any call to [train], [predict_single] does not raise: for every
    order it returns the one-key dictionary [{"error": "Model not trained"}],
    which carries the message and none of the prediction fields. *)
Theorem predict_single_untrained (self : predictor) (order_data : cells) :
  model self = None ->
  predict_single self order_data = Returned (ErrorResult "Model not trained").
Proof. intros Hm. unfold predict_single. now rewrite Hm. Qed.

End DeliveryPrediction.

Section DeliveryExamples.

Import Py DeliveryPredictor.

(** An order with no field at all, and one from a region never trained on. *)
Definition no_fields : cells :=
  {| text := fun _ => None; number := fun _ => None |}.

Definition order_from_mars : cells :=
  {| text := fun c => match c with region => Some "Mars"%string | _ => None end;
     number := fun c => match c with quantity => Some 3 | _ => None end |}.

(** A training frame of two orders with a region and a quantity. *)
Definition cell_row (reg : string) (qty : R) : cells :=
  {| text := fun c => match c with region => Some reg | _ => None end;
     number := fun c => match c with quantity => Some qty | _ => None end |}.

Definition small_frame : frame :=
  {| text_columns := [region];
     number_columns := [quantity];
     rows := [(cell_row "Europe" 1, 0); (cell_row "LATAM" 2, 1)] |}.

Definition constant_fit (w : R) (train_set test_set : list (list R * R))
    : classifier :=
  {| late := fun _ => 1 / 4 |}.


(** C4 (as stated, refuted): on a fresh instance [predict_single] returns
    normally, with an error dictionary; it raises nothing. *)
Lemma predict_single_untrained_no_raise :
  predict_single init no_fields = Returned (ErrorResult "Model not trained") /\
  (forall e, predict_single init no_fields <> Raised e).
Proof. split; [reflexivity | intros e; discriminate]. Qed.

Lemma predict_single_untrained_witness :
  model init = None /\
  predict_single init no_fields = Returned (ErrorResult "Model not trained").
Proof.
  split; [reflexivity |].
  apply (predict_single_untrained init no_fields). reflexivity.
Defined.


End DeliveryExamples.

Section ToolBridge.

Import Py Tools.

Variable implementation :
  tool -> Dataset.dataframe -> list (string * pyobj) -> outcome pyobj.

Lemma dumps_error_dict (message : string) :
  dumps false (error_dict message) = Returned (error_document message).
Proof. reflexivity. Qed.

Lemma error_document_has_key (message : string) :
  has_key "error" (error_document message) = true.
Proof. reflexivity. Qed.

(** The work done inside the [try]. *)
Definition guarded (tool_name : string) (arguments : pyobj)
    (df : Dataset.dataframe) : outcome json :=
  result <- call_tool implementation tool_name arguments df ;;
  dumps true result.

Lemma execute_tool_unknown (tool_name : string)
    (arguments : pyobj) (df : Dataset.dataframe) :
  contains tool_name tool_map = false ->
  execute_tool implementation tool_name arguments df
  = Returned (error_document ("Unknown tool: " ++ tool_name)).
Proof.
  intros Hc. unfold execute_tool. rewrite Hc. reflexivity.
Qed.

Lemma execute_tool_known (tool_name : string)
    (arguments : pyobj) (df : Dataset.dataframe) :
  contains tool_name tool_map = true ->
  execute_tool implementation tool_name arguments df
  = match guarded tool_name arguments df with
    | Returned doc => Returned doc
    | Raised e => Returned (error_document (exn_message e))
    end.
Proof.
  intros Hc. unfold execute_tool. rewrite Hc. simpl negb. cbv iota.
  unfold try_except. fold (guarded tool_name arguments df).
  destruct (guarded tool_name arguments df); reflexivity.
Qed.

(** C8: [execute_tool] never raises to its caller.  For every tool name and
    argument object it returns a JSON document; an unknown tool name yields
    an object with the key ["error"]; and an exception raised while binding
    the arguments, inside the tool implementation or while serialising its
    result is caught and reported as [{"error": message}]. *)
Theorem execute_tool_never_raises (tool_name : string)
    (arguments : pyobj) (df : Dataset.dataframe) :
  exists doc : json,
    execute_tool implementation tool_name arguments df = Returned doc /\
    (contains tool_name tool_map = false ->
       doc = error_document ("Unknown tool: " ++ tool_name) /\
       has_key "error" doc = true) /\
    (forall e, contains tool_name tool_map = true ->
       guarded tool_name arguments df = Raised e ->
       doc = error_document (exn_message e)) /\
    (forall result, contains tool_name tool_map = true ->
       guarded tool_name arguments df = Returned result -> doc = result).
Proof.
  destruct (contains tool_name tool_map) eqn:Hc.
  - rewrite (execute_tool_known _ arguments df Hc).
    destruct (guarded tool_name arguments df) as [doc | e] eqn:Hg.
    + exists doc. split; [reflexivity |].
      split; [discriminate |]. split; [discriminate |].
      intros result _ H. now injection H.
    + exists (error_document (exn_message e)). split; [reflexivity |].
      split; [discriminate |]. split; [| discriminate].
      intros e' _ H. now injection H as <-.
  - rewrite (execute_tool_unknown _ arguments df Hc).
    eexists. split; [reflexivity |].
    split; [intros _; split; reflexivity |].
    split; discriminate.
Qed.

(** The dispatch example of the specification. *)
Lemma execute_tool_nonexistent (df : Dataset.dataframe) :
  execute_tool implementation "nonexistent_tool" (PDict []) df
  = Returned (error_document "Unknown tool: nonexistent_tool").
Proof. reflexivity. Qed.

End ToolBridge.

Section InventoryExtras.

Import Dataset InventoryOptimizer InventoryAnalysis InventoryRecommendations.

(** *** The order quantity *)

Lemma calculate_eoq_nonneg (D S P h : R) : 0 <= calculate_eoq D S P h.
Proof.
  unfold calculate_eoq.
  destruct (Numpy.Rleb (P * h) 0 || Numpy.Rleb D 0); [lra |].
  apply Numpy.round_nonneg, sqrt_pos.
Qed.

(** X1: the order quantity is never negative, and for a non-negative
    ordering cost it does not decrease when the annual demand grows (the
    other arguments being the same). *)
Theorem calculate_eoq_monotone (D1 D2 S P h : R) :
  0 <= S -> D1 <= D2 ->
  0 <= calculate_eoq D1 S P h <= calculate_eoq D2 S P h.
Proof.
  intros HS HD. split; [apply calculate_eoq_nonneg |].
  unfold calculate_eoq.
  destruct (Numpy.Rleb (P * h) 0) eqn:Eh; [simpl; lra |].
  apply Numpy.Rleb_false in Eh.
  destruct (Numpy.Rleb D1 0) eqn:E1; simpl.
  - destruct (Numpy.Rleb D2 0); [lra |].
    apply Numpy.round_nonneg, sqrt_pos.
  - apply Numpy.Rleb_false in E1.
    destruct (Numpy.Rleb D2 0) eqn:E2.
    { apply Numpy.Rleb_true in E2. lra. }
    apply Numpy.round_mono, sqrt_le_1_alt.
    apply Rmult_le_compat_r.
    + left. now apply Rinv_0_lt_compat.
    + nra.
Qed.

Lemma calculate_eoq_monotone_witness :
  0 <= 50 /\ 1000 <= 10000 /\
  0 <= calculate_eoq 1000 50 100 (20 / 100)
    <= calculate_eoq 10000 50 100 (20 / 100).
Proof.
  split; [lra |]. split; [lra |].
  apply (calculate_eoq_monotone 1000 10000 50 100 (20 / 100)); lra.
Defined.

(** *** The safety stock *)

(** X2: raising the service level never lowers the safety stock or the
    reorder point: for two levels [p <= q] strictly between 0 and 1 and the
    same demand and lead-time arguments, both returned values at [q] are at
    least those at [p]. *)
Theorem safety_stock_grows_with_service_level (d sd L sL p q : R) :
  0 < p -> p <= q -> q < 1 ->
  safety_stock (calculate_safety_stock d sd L sL p)
    <= safety_stock (calculate_safety_stock d sd L sL q) /\
  reorder_point (calculate_safety_stock d sd L sL p)
    <= reorder_point (calculate_safety_stock d sd L sL q).
Proof.
  intros Hp Hpq Hq.
  cbv [calculate_safety_stock safety_stock reorder_point].
  pose proof (Normal.norm_ppf_monotone p q Hp Hpq Hq) as Hz.
  pose proof (sqrt_pos (L * sd ^ 2 + d ^ 2 * sL ^ 2)) as Hs.
  assert (Hss : Normal.norm_ppf p * sqrt (L * sd ^ 2 + d ^ 2 * sL ^ 2)
                <= Normal.norm_ppf q * sqrt (L * sd ^ 2 + d ^ 2 * sL ^ 2))
    by now apply Rmult_le_compat_r.
  split; apply Numpy.round_mono; lra.
Qed.

Lemma safety_stock_grows_with_service_level_witness :
  0 < 95 / 100 /\ 95 / 100 <= 99 / 100 /\ 99 / 100 < 1 /\
  safety_stock (calculate_safety_stock 10 2 3 1 (95 / 100))
    <= safety_stock (calculate_safety_stock 10 2 3 1 (99 / 100)) /\
  reorder_point (calculate_safety_stock 10 2 3 1 (95 / 100))
    <= reorder_point (calculate_safety_stock 10 2 3 1 (99 / 100)).
Proof.
  split; [lra |]. split; [lra |]. split; [lra |].
  apply (safety_stock_grows_with_service_level 10 2 3 1 (95 / 100) (99 / 100));
    lra.
Defined.

(** *** The analysis table *)

Lemma service_levels_ordered (d sd L sL : R) :
  0 <= safety_stock (calculate_safety_stock d sd L sL (95 / 100))
    <= safety_stock (calculate_safety_stock d sd L sL (99 / 100)) /\
  reorder_point (calculate_safety_stock d sd L sL (95 / 100))
    <= reorder_point (calculate_safety_stock d sd L sL (99 / 100)).
Proof.
  pose proof (Normal.norm_ppf_monotone (95 / 100) (99 / 100)
                ltac:(lra) ltac:(lra) ltac:(lra)) as Hz.
  pose proof (Normal.norm_ppf_nonneg (95 / 100) ltac:(lra)) as Hz0.
  pose proof (sqrt_pos (L * sd ^ 2 + d ^ 2 * sL ^ 2)) as Hs.
  assert (Hss : Normal.norm_ppf (95 / 100) * sqrt (L * sd ^ 2 + d ^ 2 * sL ^ 2)
                <= Normal.norm_ppf (99 / 100)
                   * sqrt (L * sd ^ 2 + d ^ 2 * sL ^ 2))
    by (now apply Rmult_le_compat_r).
  cbv [calculate_safety_stock safety_stock reorder_point].
  repeat split.
  - apply Numpy.round_nonneg. now apply Rmult_le_pos.
  - now apply Numpy.round_mono.
  - apply Numpy.round_mono. lra.
Qed.

Lemma analyze_category_some (df : dataframe) (cat : string)
    (row : inventory_row) :
  analyze_category df cat = Some row ->
  (10 <= List.length (of_category cat df))%nat /\
  category row = cat /\
  total_orders row = List.length (of_category cat df) /\
  0 <= eoq row /\
  0 <= safety_stock_95 row <= safety_stock_99 row /\
  reorder_point_95 row <= reorder_point_99 row.
Proof.
  unfold analyze_category.
  destruct (List.length (of_category cat df) <? 10)%nat eqn:E; [discriminate |].
  apply Nat.ltb_ge in E. intros H. apply (f_equal (fun o => o)) in H.
  inversion H as [Hrow]. clear H Hrow.
  cbv beta iota zeta delta [category total_orders eoq safety_stock_95
    safety_stock_99 reorder_point_95 reorder_point_99].
  split; [exact E |]. split; [reflexivity |]. split; [reflexivity |].
  split; [apply calculate_eoq_nonneg |].
  apply service_levels_ordered.
Qed.

Lemma analyze_category_none (df : dataframe) (cat : string) :
  analyze_category df cat = None <->
  (List.length (of_category cat df) < 10)%nat.
Proof.
  unfold analyze_category.
  destruct (List.length (of_category cat df) <? 10)%nat eqn:E.
  - apply Nat.ltb_lt in E. tauto.
  - apply Nat.ltb_ge in E. split; [discriminate | lia].
Qed.

Lemma analyze_inventory_In (df : dataframe) (row : inventory_row) :
  In row (analyze_inventory df) <->
  exists cat, In cat (map product_category df) /\
              analyze_category df cat = Some row.
Proof.
  unfold analyze_inventory. rewrite in_flat_map. split.
  - intros [cat [Hcat Hrow]]. exists cat.
    rewrite unique_names_In in Hcat. split; [exact Hcat |].
    destruct (analyze_category df cat) as [r |]; simpl in Hrow;
      [destruct Hrow as [-> | []]; reflexivity | destruct Hrow].
  - intros [cat [Hcat Hrow]]. exists cat.
    rewrite unique_names_In. split; [exact Hcat |].
    rewrite Hrow. now left.
Qed.

(** X3: every row of the analysis table stands for a category with at least
    ten orders and carries that order count; its order quantity is not
    negative, and its safety stock and reorder point at the 99% level are at
    least those at the 95% level, the 95% safety stock being non-negative. *)
Theorem analyze_inventory_rows (df : dataframe) (row : inventory_row) :
  In row (analyze_inventory df) ->
  (10 <= total_orders row)%nat /\
  total_orders row = List.length (of_category (category row) df) /\
  0 <= eoq row /\
  0 <= safety_stock_95 row <= safety_stock_99 row /\
  reorder_point_95 row <= reorder_point_99 row.
Proof.
  intros Hin. apply analyze_inventory_In in Hin.
  destruct Hin as [cat [_ Hrow]].
  destruct (analyze_category_some df cat row Hrow)
    as [Hten [Hcat [Htot [Heoq [Hss Hrop]]]]].
  rewrite Hcat, Htot. repeat split; tauto || lia.
Qed.

Lemma analyze_inventory_reported (df : dataframe) (cat : string) :
  (exists row, In row (analyze_inventory df) /\ category row = cat) <->
  (10 <= List.length (of_category cat df))%nat.
Proof.
  split.
  - intros [row [Hin Hcat]]. apply analyze_inventory_In in Hin.
    destruct Hin as [cat' [_ Hrow]].
    destruct (analyze_category_some df cat' row Hrow) as [Hten [Hc _]].
    congruence.
  - intros Hten.
    destruct (analyze_category df cat) as [row |] eqn:E.
    + exists row. split.
      * apply analyze_inventory_In. exists cat. split; [| exact E].
        destruct (of_category cat df) as [| o rest] eqn:Eo; [simpl in Hten; lia |].
        assert (Hino : In o (of_category cat df)) by (rewrite Eo; now left).
        unfold of_category in Hino. apply filter_In in Hino.
        destruct Hino as [Hino Heq]. apply String.eqb_eq in Heq.
        rewrite <- Heq. now apply in_map.
      * now destruct (analyze_category_some df cat row E) as [_ [Hc _]].
    + apply analyze_category_none in E. lia.
Qed.

(** X4: a category is reported exactly when the dataset holds at least ten
    orders of it; categories with fewer orders are skipped. *)
Theorem analyze_inventory_reports (df : dataframe) (cat : string) :
  (exists row, In row (analyze_inventory df) /\ category row = cat) <->
  (10 <= List.length (of_category cat df))%nat.
Proof. apply analyze_inventory_reported. Qed.

(** *** The order of the reported categories *)

Section SortedUniqueFacts.

Context {K : Type} (ltb eqb : K -> K -> bool).
Hypothesis ltb_trans :
  forall x y z, ltb x y = true -> ltb y z = true -> ltb x z = true.
Hypothesis ltb_total :
  forall x y, eqb x y = false -> ltb x y = false -> ltb y x = true.

Definition increasing (l : list K) : Prop :=
  StronglySorted (fun a b => ltb a b = true) l.

Lemma insert_unique_members (x y : K) (l : list K) :
  In y (insert_unique ltb eqb x l) -> y = x \/ In y l.
Proof.
  induction l as [| z zs IH]; simpl.
  - intuition.
  - destruct (eqb x z); [simpl; intuition |].
    destruct (ltb x z); simpl; intuition.
Qed.

Lemma insert_unique_increasing (x : K) (l : list K) :
  increasing l -> increasing (insert_unique ltb eqb x l).
Proof.
  unfold increasing. induction l as [| z zs IH]; intros Hs; simpl.
  - constructor; constructor.
  - apply StronglySorted_inv in Hs. destruct Hs as [Hzs Hz].
    destruct (eqb x z) eqn:Ee; [now constructor |].
    destruct (ltb x z) eqn:El.
    + constructor; [now constructor |].
      constructor; [exact El |].
      rewrite Forall_forall in *. intros w Hw.
      apply (ltb_trans x z w El). now apply Hz.
    + constructor; [now apply IH |].
      rewrite Forall_forall in *. intros w Hw.
      apply insert_unique_members in Hw. destruct Hw as [-> | Hw].
      * now apply ltb_total.
      * now apply Hz.
Qed.

Lemma sorted_unique_increasing (l : list K) :
  increasing (sorted_unique ltb eqb l).
Proof.
  unfold sorted_unique. induction l as [| x xs IH]; simpl.
  - constructor.
  - now apply insert_unique_increasing.
Qed.

End SortedUniqueFacts.

Lemma ascii_compare_N (a b : Ascii.ascii) :
  Ascii.compare a b = N.compare (Ascii.N_of_ascii a) (Ascii.N_of_ascii b).
Proof. reflexivity. Qed.

Lemma string_compare_lt_trans (a b c : string) :
  String.compare a b = Lt -> String.compare b c = Lt ->
  String.compare a c = Lt.
Proof.
  revert b c. induction a as [| x a IH]; intros [| y b] [| z c];
    simpl; try discriminate; try reflexivity.
  rewrite !ascii_compare_N.
  destruct (N.compare_spec (Ascii.N_of_ascii x) (Ascii.N_of_ascii y))
    as [Hxy | Hxy | Hxy]; try discriminate;
    destruct (N.compare_spec (Ascii.N_of_ascii y) (Ascii.N_of_ascii z))
      as [Hyz | Hyz | Hyz]; try discriminate; intros H1 H2.
  - rewrite Hxy, Hyz, N.compare_refl. now apply (IH b c).
  - rewrite Hxy. now apply N.compare_lt_iff in Hyz as ->.
  - rewrite <- Hyz. now apply N.compare_lt_iff in Hxy as ->.
  - assert (Hxz : (Ascii.N_of_ascii x < Ascii.N_of_ascii z)%N) by lia.
    now apply N.compare_lt_iff in Hxz as ->.
Qed.

Lemma string_ltb_trans (a b c : string) :
  String.ltb a b = true -> String.ltb b c = true -> String.ltb a c = true.
Proof.
  unfold String.ltb. intros H1 H2.
  destruct (String.compare a b) eqn:E1; try discriminate.
  destruct (String.compare b c) eqn:E2; try discriminate.
  now rewrite (string_compare_lt_trans a b c E1 E2).
Qed.

Lemma string_ltb_total (a b : string) :
  String.eqb a b = false -> String.ltb a b = false -> String.ltb b a = true.
Proof.
  unfold String.ltb. intros He Hl. rewrite (String.compare_antisym b a).
  destruct (String.compare a b) eqn:E; simpl; try reflexivity.
  - apply String.compare_eq_iff in E. apply String.eqb_neq in He. contradiction.
  - discriminate.
Qed.

Lemma unique_names_increasing (l : list string) :
  increasing String.ltb (unique_names l).
Proof.
  apply sorted_unique_increasing.
  - apply string_ltb_trans.
  - apply string_ltb_total.
Qed.

Lemma unique_days_increasing (l : list Z) :
  increasing Z.ltb (unique_days l).
Proof.
  apply sorted_unique_increasing.
  - intros x y z H1 H2. apply Z.ltb_lt in H1, H2. apply Z.ltb_lt. lia.
  - intros x y He Hl. apply Z.eqb_neq in He. apply Z.ltb_ge in Hl.
    apply Z.ltb_lt. lia.
Qed.

Lemma flat_map_appended_categories (df : dataframe) (cats : list string) :
  map category (flat_map (fun cat => appended (analyze_category df cat)) cats)
  = filter (fun cat => (10 <=? List.length (of_category cat df))%nat) cats.
Proof.
  induction cats as [| cat rest IH]; [reflexivity |].
  cbn [flat_map filter]. rewrite map_app, IH.
  destruct (analyze_category df cat) as [row |] eqn:E.
  - destruct (analyze_category_some df cat row E) as [Hten [Hcat _]].
    apply Nat.leb_le in Hten. rewrite Hten.
    cbn [appended map app]. now rewrite Hcat.
  - apply analyze_category_none in E.
    destruct (10 <=? List.length (of_category cat df))%nat eqn:E10;
      [apply Nat.leb_le in E10; lia | reflexivity].
Qed.

Lemma increasing_filter {K : Type} (ltb : K -> K -> bool) (f : K -> bool)
    (l : list K) :
  increasing ltb l -> increasing ltb (filter f l).
Proof.
  unfold increasing. induction l as [| x xs IH]; intros Hs; simpl;
    [constructor |].
  apply StronglySorted_inv in Hs. destruct Hs as [Hxs Hx].
  destruct (f x); [| now apply IH].
  constructor; [now apply IH |].
  rewrite Forall_forall in *. intros y Hy. apply filter_In in Hy.
  now apply Hx.
Qed.

(** X7: the rows of the analysis table come in strictly increasing order of
    their category names (so no category is listed twice), whatever the
    order of the orders in the dataset. *)
Theorem analyze_inventory_sorted (df : dataframe) :
  StronglySorted (fun a b => String.ltb a b = true)
                 (map category (analyze_inventory df)).
Proof.
  unfold analyze_inventory. rewrite flat_map_appended_categories.
  apply increasing_filter, unique_names_increasing.
Qed.

(** *** Recommendations *)

Variable format_fixed : nat -> R -> string.

Lemma row_recommendations_category (row : inventory_row)
    (rec : recommendation) :
  In rec (row_recommendations format_fixed row) ->
  rec_category rec = category row.
Proof.
  unfold row_recommendations, variability_rule, late_rule, eoq_rule,
    stable_rule.
  rewrite !in_app_iff.
  destruct (Numpy.Rltb 80 (demand_cv row));
    destruct (Numpy.Rltb 60 (late_delivery_rate row));
    destruct (Numpy.Rltb 0 (eoq row) && Numpy.Rltb 0 (avg_daily_demand row));
    destruct (Numpy.Rltb 0 (annual_demand row / eoq row));
    destruct (Numpy.Rltb (demand_cv row) 30
              && Numpy.Rltb (late_delivery_rate row) 40);
    simpl; intuition (subst; reflexivity).
Qed.

Lemma row_high_priority (row : inventory_row) :
  (exists rec, In rec (row_recommendations format_fixed row) /\
               priority rec = "High"%string) <->
  (80 < demand_cv row \/ 60 < late_delivery_rate row).
Proof.
  unfold row_recommendations, variability_rule, late_rule, eoq_rule,
    stable_rule.
  destruct (Numpy.Rltb 80 (demand_cv row)) eqn:Ecv;
    [apply Numpy.Rltb_true in Ecv | apply Numpy.Rltb_false in Ecv];
    (destruct (Numpy.Rltb 60 (late_delivery_rate row)) eqn:El;
     [apply Numpy.Rltb_true in El | apply Numpy.Rltb_false in El]).
  1-3: split; [intros _; lra |]; intros _; eexists; split;
    [simpl; left; reflexivity | reflexivity].
  split; [| lra].
  intros [rec [Hin Hp]]. exfalso. simpl in Hin.
  destruct (Numpy.Rltb 0 (eoq row) && Numpy.Rltb 0 (avg_daily_demand row));
    destruct (Numpy.Rltb 0 (annual_demand row / eoq row));
    destruct (Numpy.Rltb (demand_cv row) 30
              && Numpy.Rltb (late_delivery_rate row) 40);
    simpl in Hin; intuition (subst; discriminate).
Qed.

(** X5: a category receives a High-priority recommendation exactly when one
    of its analysis rows has a demand CV above 80 or a late-delivery rate
    above 60. *)
Theorem high_priority_recommendation (analysis : list inventory_row)
    (cat : string) :
  (exists rec, In rec (get_recommendations format_fixed analysis) /\
               rec_category rec = cat /\ priority rec = "High"%string) <->
  (exists row, In row analysis /\ category row = cat /\
               (80 < demand_cv row \/ 60 < late_delivery_rate row)).
Proof.
  unfold get_recommendations. split.
  - intros [rec [Hin [Hcat Hp]]]. apply in_flat_map in Hin.
    destruct Hin as [row [Hrow Hrec]]. exists row.
    split; [exact Hrow |]. split.
    + now rewrite <- (row_recommendations_category row rec Hrec).
    + apply row_high_priority. now exists rec.
  - intros [row [Hrow [Hcat Hrule]]].
    apply row_high_priority in Hrule. destruct Hrule as [rec [Hrec Hp]].
    exists rec. split; [| split].
    + apply in_flat_map. now exists row.
    + now rewrite (row_recommendations_category row rec Hrec).
    + exact Hp.
Qed.

(** X6: a row yields at most three recommendations, and the advice to
    reduce the safety stock (Low priority) is never given together with a
    High-priority warning for the same row. *)
Theorem recommendations_consistent (row : inventory_row) :
  (List.length (row_recommendations format_fixed row) <= 3)%nat /\
  ((exists rec, In rec (row_recommendations format_fixed row) /\
                priority rec = "Low"%string) ->
   ~ (exists rec, In rec (row_recommendations format_fixed row) /\
                  priority rec = "High"%string)).
Proof.
  split.
  - unfold row_recommendations, variability_rule, late_rule, eoq_rule,
      stable_rule.
    destruct (Numpy.Rltb 80 (demand_cv row)) eqn:Ecv;
      destruct (Numpy.Rltb 60 (late_delivery_rate row));
      destruct (Numpy.Rltb 0 (eoq row) && Numpy.Rltb 0 (avg_daily_demand row));
      destruct (Numpy.Rltb 0 (annual_demand row / eoq row));
      destruct (Numpy.Rltb (demand_cv row) 30) eqn:Elow;
      destruct (Numpy.Rltb (late_delivery_rate row) 40);
      simpl; try lia;
      apply Numpy.Rltb_true in Ecv; apply Numpy.Rltb_true in Elow; lra.
  - intros [rec [Hin Hp]] Hhigh. apply row_high_priority in Hhigh.
    unfold row_recommendations, variability_rule, late_rule, eoq_rule,
      stable_rule in Hin.
    destruct (Numpy.Rltb (demand_cv row) 30) eqn:Elow;
      [apply Numpy.Rltb_true in Elow | ];
      (destruct (Numpy.Rltb (late_delivery_rate row) 40) eqn:El;
       [apply Numpy.Rltb_true in El | ]);
      try lra;
      destruct (Numpy.Rltb 80 (demand_cv row));
      destruct (Numpy.Rltb 60 (late_delivery_rate row));
      destruct (Numpy.Rltb 0 (eoq row) && Numpy.Rltb 0 (avg_daily_demand row));
      destruct (Numpy.Rltb 0 (annual_demand row / eoq row));
      simpl in Hin; intuition (subst; discriminate).
Qed.

End InventoryExtras.

Section InventoryExtrasExamples.

Import Dataset InventoryAnalysis.

(** Ten orders of one category, one a day. *)
Definition ten_golf_orders : dataframe :=
  map (fun i => mk_order (Z.of_nat i) (Z.of_nat i) "Golf" 2 10 20 0 2 0)
      (seq 0 10).

Lemma ten_golf_orders_reported :
  exists row, In row (analyze_inventory ten_golf_orders).
Proof.
  destruct (analyze_inventory_reported ten_golf_orders "Golf") as [_ H].
  destruct H as [row [Hin _]]; [vm_compute; lia |].
  now exists row.
Qed.

Lemma analyze_inventory_rows_witness :
  exists row,
    In row (analyze_inventory ten_golf_orders) /\
    (10 <= total_orders row)%nat /\
    total_orders row
    = List.length (of_category (category row) ten_golf_orders) /\
    0 <= eoq row /\
    0 <= safety_stock_95 row <= safety_stock_99 row /\
    reorder_point_95 row <= reorder_point_99 row.
Proof.
  destruct ten_golf_orders_reported as [row Hin].
  exists row. split; [exact Hin |].
  exact (analyze_inventory_rows ten_golf_orders row Hin).
Defined.

End InventoryExtrasExamples.

Section ForecasterExtras.

Import Py Dataset DemandForecaster MemoisedForecaster.

Variable xgb_fit : list (features * R) -> list (features * R) -> regressor.
Variable cal : calendar.

(** *** How many order days training needs *)

(** X8: the 28-day lag costs the first 28 order days, so training needs at
    least 30 distinct order days.  The prepared frame has one row for each
    distinct order day (of the category) after the 28th; with 30 or more
    days [train] fits a model and returns; with fewer the split raises
    [ValueError] and the instance keeps the model it had. *)
Theorem train_needs_thirty_days (self : forecaster) (df : dataframe)
    (category : option string) :
  let days := List.length (unique_days (map order_date (selected df category))) in
  List.length (_prepare_data cal df category) = (days - 28)%nat /\
  ((30 <= days)%nat ->
     exists self' rep,
       train xgb_fit cal self df category = (self', Returned rep) /\
       model self' <> None) /\
  ((days < 30)%nat ->
     exists self' message,
       train xgb_fit cal self df category
       = (self', Raised (Exn "ValueError" message)) /\
       model self' = model self).
Proof.
  intros days. pose proof (prepared_length cal df category) as Hlen.
  fold days in Hlen. split; [exact Hlen |]. split; intros Hdays.
  - destruct (train_enough_rows xgb_fit cal self df category)
      as [self' [rep [Ht [Hm _]]]]; [lia |].
    now exists self', rep.
  - destruct (train_too_few_rows xgb_fit cal self df category)
      as [self' [Ht Hm]]; [lia |].
    now exists self', "the resulting train set will be empty"%string.
Qed.

(** *** The held-out tail *)

Lemma featured_row_index (daily : list daily_row) (i : nat)
    (row : prepared_row) :
  featured_row cal daily i = Some row -> p_index row = i.
Proof.
  unfold featured_row.
  destruct (nth_error daily i); [| discriminate].
  destruct (shift_at 1 (map demand daily) i); [| discriminate].
  destruct (shift_at 7 (map demand daily) i); [| discriminate].
  destruct (shift_at 14 (map demand daily) i); [| discriminate].
  destruct (shift_at 28 (map demand daily) i); [| discriminate].
  intros H. injection H as <-. reflexivity.
Qed.

Lemma dropna_indices (daily : list daily_row) :
  forall len start : nat,
    (start + len <= List.length daily)%nat ->
    map p_index (dropna (map (featured_row cal daily) (seq start len)))
    = seq (Nat.max start 28) (start + len - Nat.max start 28).
Proof.
  induction len as [| len IH]; intros start Hb.
  - simpl. replace (start + 0 - Nat.max start 28)%nat with 0%nat by lia.
    reflexivity.
  - cbn [seq map].
    specialize (IH (S start) ltac:(lia)).
    destruct (featured_row cal daily start) as [row |] eqn:E.
    + assert (Hge : ~ (start < 28)%nat).
      { intros Hlt.
        apply (featured_row_none_iff cal daily start ltac:(lia)) in Hlt.
        congruence. }
      cbn [dropna map]. rewrite IH, (featured_row_index _ _ _ E).
      replace (Nat.max start 28) with start by lia.
      replace (Nat.max (S start) 28) with (S start) by lia.
      replace (start + S len - start)%nat with (S len) by lia.
      replace (S start + len - S start)%nat with len by lia.
      reflexivity.
    + assert (Hlt : (start < 28)%nat).
      { apply (featured_row_none_iff cal daily start ltac:(lia)). exact E. }
      cbn [dropna]. rewrite IH.
      replace (Nat.max start 28) with 28%nat by lia.
      replace (Nat.max (S start) 28) with 28%nat by lia.
      f_equal. lia.
Qed.

(** The index labels of the prepared frame: 28, 29, ... *)
Lemma prepared_indices (df : dataframe) (category : option string) :
  map p_index (_prepare_data cal df category)
  = seq 28 (List.length (_prepare_data cal df category)).
Proof.
  rewrite prepared_length. unfold _prepare_data. fold (selected df category).
  rewrite dropna_indices by lia.
  unfold daily_aggregate. rewrite length_map. reflexivity.
Qed.

Lemma firstn_skipn_seq (a n k m : nat) :
  (k + m <= n)%nat -> firstn m (skipn k (seq a n)) = seq (a + k) m.
Proof.
  intros Hb. replace n with (k + (n - k))%nat by lia.
  rewrite seq_app, skipn_app, length_seq, Nat.sub_diag, skipn_all2
    by (rewrite length_seq; lia).
  simpl. replace (n - k)%nat with (m + (n - k - m))%nat by lia.
  rewrite seq_app, firstn_app, length_seq, Nat.sub_diag, firstn_all2
    by (rewrite length_seq; lia).
  simpl. now rewrite app_nil_r.
Qed.

(** X9: the split is chronological.  When [train] returns, the held-out
    rows are the last [ceil(0.2 n)] rows of the prepared frame: the returned
    index is the run of consecutive labels that ends with the last row, and
    the held-out targets are the last targets. *)
Theorem train_holds_out_the_tail (self0 self : forecaster) (df : dataframe)
    (category : option string) (rep : train_report) :
  train xgb_fit cal self0 df category = (self, Returned rep) ->
  let prepared := _prepare_data cal df category in
  let n := List.length prepared in
  let n_test := ((n + 4) / 5)%nat in
  (1 <= n_test < n)%nat /\
  test_index rep = seq (28 + (n - n_test)) n_test /\
  y_test rep = lastn n_test (map p_demand prepared) /\
  List.length (y_pred rep) = n_test.
Proof.
  intros Ht prepared n n_test.
  assert (Hn : (2 <= n)%nat).
  { destruct (Nat.le_gt_cases n 1) as [Hle | Hgt]; [| lia].
    destruct (train_too_few_rows xgb_fit cal self0 df category Hle)
      as [self' [Ht' _]].
    rewrite Ht' in Ht. discriminate. }
  pose proof (n_test_bounds n Hn) as Hb. fold n_test in Hb.
  unfold train in Ht. fold prepared in Ht.
  rewrite (train_test_split_ok prepared Hn) in Ht. fold n n_test in Ht.
  injection Ht as _ <-. cbn [test_index y_test y_pred].
  split; [exact Hb |]. split; [| split].
  - rewrite <- firstn_map, <- skipn_map. unfold prepared.
    rewrite prepared_indices. fold prepared n.
    apply firstn_skipn_seq. lia.
  - unfold lastn. rewrite length_map. fold n.
    rewrite <- firstn_map, <- skipn_map.
    apply firstn_all2. rewrite length_skipn, length_map. fold n. lia.
  - rewrite length_map, length_firstn, length_skipn. fold n. lia.
Qed.

(** *** The forecasting recurrence *)

(** The rows the loop produces from a given state, written as a recursion. *)
Fixpoint forecasts_from (m : regressor) (last_row : prepared_row)
    (recent_demands : list R) (dates : list Z) : list forecast_row :=
  match dates with
  | [] => []
  | d :: rest =>
      let pred := clamp (predict m (future_features cal last_row
                                      recent_demands d)) in
      {| date := d; predicted_demand := pred |}
        :: forecasts_from m last_row (recent_demands ++ [pred]) rest
  end.

Lemma forecast_loop_unfolds (m : regressor) (last_row : prepared_row) :
  forall (dates : list Z) (fs : list forecast_row) (rd : list R),
    fst (fold_left (forecast_step cal m last_row) dates (fs, rd))
    = fs ++ forecasts_from m last_row rd dates.
Proof.
  induction dates as [| d dates IH]; intros fs rd; simpl.
  - now rewrite app_nil_r.
  - rewrite IH, <- app_assoc. reflexivity.
Qed.

Lemma forecasts_from_nth (m : regressor) (last_row : prepared_row) :
  forall (dates : list Z) (rd : list R) (k : nat) (row : forecast_row),
    nth_error (forecasts_from m last_row rd dates) k = Some row ->
    predicted_demand row
    = clamp (predict m
               (future_features cal last_row
                  (rd ++ map predicted_demand
                             (firstn k (forecasts_from m last_row rd dates)))
                  (date row))).
Proof.
  induction dates as [| d dates IH]; intros rd k row Hk.
  - destruct k; discriminate.
  - destruct k as [| k]; simpl in Hk.
    + injection Hk as <-. simpl. now rewrite app_nil_r.
    + specialize (IH _ k row Hk). rewrite IH. cbn [forecasts_from firstn map].
      now rewrite <- app_assoc.
Qed.

Lemma lag_value_last (l : list R) (p : R) : lag_value (l ++ [p]) 1 = p.
Proof.
  unfold lag_value. rewrite length_app. cbn [List.length].
  replace (1 <=? List.length l + 1)%nat with true
    by (symmetry; apply Nat.leb_le; lia).
  replace (List.length l + 1 - 1)%nat with (List.length l) by lia.
  apply nth_middle.
Qed.

(** X10: forecasting feeds on itself.  Every forecast row is the clamped
    prediction for a feature row built from the last 30 known demands
    followed by all the predictions made before it; from the second row on,
    the lag-1 feature is exactly the previous row's predicted demand. *)
Theorem forecast_feeds_on_itself (self : forecaster) (m : regressor)
    (df : dataframe) (category : option string) (horizon_days : nat)
    (rows : list forecast_row) :
  model self = Some m ->
  forecast_future cal self df horizon_days category = Returned rows ->
  exists last_row : prepared_row,
    last (map Some (_prepare_data cal df category)) None = Some last_row /\
    forall (k : nat) (row : forecast_row),
      nth_error rows k = Some row ->
      let known := lastn 30 (map p_demand (_prepare_data cal df category)) in
      let recent := known ++ map predicted_demand (firstn k rows) in
      predicted_demand row
      = clamp (predict m (future_features cal last_row recent (date row))) /\
      (forall prev : forecast_row,
          k <> 0%nat -> nth_error rows (k - 1) = Some prev ->
          demand_lag_1 (future_features cal last_row recent (date row))
          = predicted_demand prev).
Proof.
  intros Hm Hf. unfold forecast_future in Hf. rewrite Hm in Hf.
  destruct (last (map Some (_prepare_data cal df category)) None)
    as [last_row |] eqn:Hlast; [| discriminate].
  injection Hf as Hrows. rewrite forecast_loop_unfolds in Hrows.
  simpl in Hrows. exists last_row. split; [reflexivity |].
  intros k row Hk known recent. split.
  - unfold recent. rewrite <- Hrows in Hk |- *.
    now apply forecasts_from_nth.
  - intros prev Hk0 Hprev. cbn [future_features demand_lag_1].
    unfold recent.
    assert (Hsplit : firstn k rows = firstn (k - 1) rows ++ [prev]).
    { destruct k as [| k]; [congruence |].
      replace (S k - 1)%nat with k in * by lia.
      clear - Hprev. revert k Hprev.
      induction rows as [| r rs IH]; intros k Hprev.
      - destruct k; discriminate.
      - destruct k as [| k]; simpl in *.
        + now injection Hprev as ->.
        + f_equal. now apply IH. }
    rewrite Hsplit, map_app, app_assoc. simpl. apply lag_value_last.
Qed.

(** *** A trained model on a dataset that is too short *)

Lemma last_none_nil {A : Type} (l : list A) :
  last (map Some l) None = None -> l = [].
Proof.
  intros H. destruct l as [| a rest]; [reflexivity |].
  destruct (last_row_exists (a :: rest) ltac:(discriminate)) as [r [Hr _]].
  congruence.
Qed.

(** X11: a fitted model does not help on a dataset that is too short: when
    the dataset (after the category filter) has at most 28 distinct order
    days, [forecast_future] raises [ValueError] instead of returning rows. *)
Theorem forecast_future_short_dataset (self : forecaster) (m : regressor)
    (df : dataframe) (category : option string) (horizon_days : nat) :
  model self = Some m ->
  (List.length (unique_days (map order_date (selected df category))) <= 28)%nat ->
  exists message,
    forecast_future cal self df horizon_days category
    = Raised (Exn "ValueError" message).
Proof.
  intros Hm Hdays. unfold forecast_future. rewrite Hm.
  assert (Hnil : _prepare_data cal df category = []).
  { apply length_zero_iff_nil. rewrite prepared_length. lia. }
  rewrite Hnil. simpl. now eexists.
Qed.

(** *** Training through the decorator *)

Variable key : dataframe * option string -> N.

Lemma cached_train_hit (c : @Streamlit.cache train_report)
    (self : forecaster) (df : dataframe) (category : option string)
    (rep : train_report) :
  Streamlit.lookup (key (df, category)) c = Some rep ->
  cached_train key xgb_fit cal c self df category = ((self, Returned rep), c).
Proof. intros Hl. unfold cached_train. now rewrite Hl. Qed.

Lemma cached_train_stores (c : @Streamlit.cache train_report)
    (self self' : forecaster) (df : dataframe) (category : option string)
    (rep : train_report) (c' : @Streamlit.cache train_report) :
  cached_train key xgb_fit cal c self df category
  = ((self', Returned rep), c') ->
  Streamlit.lookup (key (df, category)) c' = Some rep.
Proof.
  unfold cached_train.
  destruct (Streamlit.lookup (key (df, category)) c) as [rep0 |] eqn:El.
  - intros H. injection H as _ <- <-. exact El.
  - destruct (train xgb_fit cal self df category) as [s [r | e]];
      intros H; [| discriminate].
    injection H as _ <- <-. simpl. now rewrite N.eqb_refl.
Qed.

(** X12: the memoised [train] leaves a later instance untrained.  Once a
    call of [train] on a dataset and category has returned (on any
    instance), the same call on a fresh instance returns the stored report
    without running the body: the fresh instance has no model, and its
    [forecast_future] returns the empty table. *)
Theorem second_instance_stays_untrained
    (c c' : @Streamlit.cache train_report) (self self' : forecaster)
    (df : dataframe) (category : option string) (rep : train_report)
    (horizon_days : nat) :
  cached_train key xgb_fit cal c self df category
  = ((self', Returned rep), c') ->
  cached_train key xgb_fit cal c' init df category
  = ((init, Returned rep), c') /\
  forecast_future cal init df horizon_days category = Returned [] /\
  fst (train_and_forecast key xgb_fit cal c' df horizon_days category)
  = Returned (rep, []).
Proof.
  intros Hfirst. pose proof (cached_train_stores _ _ _ _ _ _ _ Hfirst) as Hl.
  pose proof (cached_train_hit c' init df category rep Hl) as Hhit.
  split; [exact Hhit |]. split; [reflexivity |].
  unfold train_and_forecast. rewrite Hhit. reflexivity.
Qed.

End ForecasterExtras.

Section ForecasterExtrasExamples.

Import Py Dataset DemandForecaster MemoisedForecaster.

Definition constant_key (args : dataframe * option string) : N := 0%N.

Lemma two_months_cached_train :
  exists self rep c,
    cached_train constant_key mean_fit schematic_calendar [] init
                 two_months None
    = ((self, Returned rep), c).
Proof.
  destruct two_months_trains as [self [rep Ht]].
  exists self, rep. eexists. unfold cached_train. simpl Streamlit.lookup.
  rewrite Ht. reflexivity.
Qed.

Lemma train_holds_out_the_tail_witness :
  exists self rep,
    train mean_fit schematic_calendar init two_months None
    = (self, Returned rep) /\
    let prepared := _prepare_data schematic_calendar two_months None in
    let n := List.length prepared in
    let n_test := ((n + 4) / 5)%nat in
    (1 <= n_test < n)%nat /\
    test_index rep = seq (28 + (n - n_test)) n_test /\
    y_test rep = lastn n_test (map p_demand prepared) /\
    List.length (y_pred rep) = n_test.
Proof.
  destruct two_months_trains as [self [rep Ht]].
  exists self, rep. split; [exact Ht |].
  exact (train_holds_out_the_tail mean_fit schematic_calendar init self
           two_months None rep Ht).
Defined.

Lemma two_months_forecast :
  exists self m rows,
    model self = Some m /\
    forecast_future schematic_calendar self two_months 7 None = Returned rows.
Proof.
  destruct two_months_trains as [self [rep Ht]].
  destruct (train_returned mean_fit schematic_calendar _ _ _ _ _ Ht)
    as [[m Hm] Hne].
  destruct (last_row_exists _ Hne) as [last_row [Hlast _]].
  exists self, m. eexists. split; [exact Hm |].
  unfold forecast_future. rewrite Hm, Hlast. reflexivity.
Qed.

Lemma forecast_feeds_on_itself_witness :
  exists self m rows,
    model self = Some m /\
    forecast_future schematic_calendar self two_months 7 None = Returned rows /\
    exists last_row : prepared_row,
      last (map Some (_prepare_data schematic_calendar two_months None)) None
      = Some last_row /\
      forall (k : nat) (row : forecast_row),
        nth_error rows k = Some row ->
        let known :=
          lastn 30 (map p_demand
                        (_prepare_data schematic_calendar two_months None)) in
        let recent := known ++ map predicted_demand (firstn k rows) in
        predicted_demand row
        = clamp (predict m (future_features schematic_calendar last_row
                              recent (date row))) /\
        (forall prev : forecast_row,
            k <> 0%nat -> nth_error rows (k - 1) = Some prev ->
            demand_lag_1 (future_features schematic_calendar
                            last_row recent (date row))
            = predicted_demand prev).
Proof.
  destruct two_months_forecast as [self [m [rows [Hm Hf]]]].
  exists self, m, rows. split; [exact Hm |]. split; [exact Hf |].
  exact (forecast_feeds_on_itself schematic_calendar self m two_months None 7
           rows Hm Hf).
Defined.

(** Four weeks of orders, one a day: too short to forecast from. *)
Definition four_weeks : dataframe :=
  map (fun i => mk_order (Z.of_nat i) (Z.of_nat i) "Golf" 1 10 10 0 2 0)
      (seq 0 28).

Definition fitted_somewhere : forecaster :=
  {| model := Some (mean_fit [] []);
     feature_columns := feature_column_names;
     metrics := None |}.

Lemma forecast_future_short_dataset_witness :
  model fitted_somewhere = Some (mean_fit [] []) /\
  (List.length (unique_days (map order_date (selected four_weeks None)))
   <= 28)%nat /\
  exists message,
    forecast_future schematic_calendar fitted_somewhere four_weeks 7 None
    = Raised (Exn "ValueError" message).
Proof.
  assert (Hdays : (List.length
                     (unique_days (map order_date (selected four_weeks None)))
                   <= 28)%nat) by (vm_compute; lia).
  split; [reflexivity |]. split; [exact Hdays |].
  exact (forecast_future_short_dataset schematic_calendar fitted_somewhere
           (mean_fit [] []) four_weeks None 7 eq_refl Hdays).
Defined.

Lemma second_instance_stays_untrained_witness :
  exists self rep c,
    cached_train constant_key mean_fit schematic_calendar [] init
                 two_months None
    = ((self, Returned rep), c) /\
    cached_train constant_key mean_fit schematic_calendar c init
                 two_months None
    = ((init, Returned rep), c) /\
    forecast_future schematic_calendar init two_months 7 None = Returned [] /\
    fst (train_and_forecast constant_key mean_fit schematic_calendar c
                            two_months 7 None)
    = Returned (rep, []).
Proof.
  destruct two_months_cached_train as [self [rep [c Hc]]].
  exists self, rep, c. split; [exact Hc |].
  exact (second_instance_stays_untrained mean_fit schematic_calendar
           constant_key [] c init self two_months None rep 7 Hc).
Defined.

End ForecasterExtrasExamples.

Section DeliveryExtras.

Import Py DeliveryPredictor.

(** *** The labels of a prediction *)

(** X13: the fields of a prediction agree with each other.  The flag is 1
    exactly when the late probability exceeds one half; the risk level is
    High above 0.7, Medium in (0.4, 0.7] and Low otherwise; so a High risk
    always comes with the flag 1 and a Low risk with the flag 0. *)
Theorem predict_single_labels_agree (self : predictor) (order_data : cells)
    (prediction : Z) (p_late p_on_time : R) (risk : string) :
  predict_single self order_data
  = Returned (Prediction prediction p_late p_on_time risk) ->
  p_on_time = 1 - p_late /\
  (prediction = 1%Z <-> 1 / 2 < p_late) /\
  (prediction = 0%Z <-> p_late <= 1 / 2) /\
  (risk = "High"%string <-> 7 / 10 < p_late) /\
  (risk = "Medium"%string <-> 4 / 10 < p_late <= 7 / 10) /\
  (risk = "Low"%string <-> p_late <= 4 / 10) /\
  (risk = "High"%string -> prediction = 1%Z) /\
  (risk = "Low"%string -> prediction = 0%Z).
Proof.
  unfold predict_single. destruct (model self) as [m |]; [| discriminate].
  destruct (encode_categoricals (label_encoders self) order_data)
    as [df1 | e]; [| discriminate].
  cbn [bind].
  destruct (select (feature_columns self)
              (fill_missing (feature_columns self) (add_interactions df1)))
    as [x | e]; [| discriminate].
  cbn [bind]. intros H. injection H as <- <- <- <-.
  unfold predict, predict_proba, risk_of. cbn [fst snd].
  destruct (Rlt_dec (1 / 2) (late m x));
    destruct (Rlt_dec (7 / 10) (late m x));
    destruct (Rlt_dec (4 / 10) (late m x));
    repeat split; intros; try lra; try reflexivity; try discriminate.
Qed.

(** *** Codes of the categorical values *)

Lemma index_of_nth (le : label_encoder) (x : string) (i : nat) :
  index_of x le = Some i -> nth_error le i = Some x.
Proof.
  revert i. induction le as [| c rest IH]; intros i; simpl; [discriminate |].
  destruct (String.eqb x c) eqn:E.
  - intros H. injection H as <-. apply String.eqb_eq in E. now subst.
  - destruct (index_of x rest) as [j |]; [| discriminate].
    intros H. injection H as <-. simpl. now apply IH.
Qed.




Section TrainedExtras.

Variable stratified_split :
  list (list R * R) -> outcome (list (list R * R) * list (list R * R)).
Variable xgb_fit :
  R -> list (list R * R) -> list (list R * R) -> classifier.
Variable sklearn_metrics :
  list R -> list Z -> list R -> outcome classification_metrics.





(** *** The vector handed to the model *)










(** *** A training call that fails *)


End TrainedExtras.

(** *** Training again on the same instance *)

Lemma find_encoder_app (c : cat_col) (le : label_encoder)
    (les more : list (cat_col * label_encoder)) :
  find_encoder c les = Some le -> find_encoder c (les ++ more) = Some le.
Proof.
  induction les as [| [c0 le0] rest IH]; simpl; [discriminate |].
  destruct (cat_col_eq_dec c c0); [trivial | exact IH].
Qed.

Lemma fit_encoders_keeps (df : frame) (cols : list cat_col) (c : cat_col)
    (le : label_encoder) :
  forall les, find_encoder c les = Some le ->
              find_encoder c (fit_encoders df cols les) = Some le.
Proof.
  induction cols as [| c0 rest IH]; intros les Hle; simpl; [exact Hle |].
  destruct (find_encoder c0 les); apply IH; [exact Hle |].
  now apply find_encoder_app.
Qed.

(** X17: an encoder, once fitted, is never refitted.  When the instance
    already has an encoder for a column, [_prepare_features] keeps it for
    any later frame, and every value of the new frame that the old encoder
    does not know enters the design matrix as -1. *)
Theorem prepare_features_keeps_encoders (self : predictor) (df : frame)
    (col : cat_col) (le : label_encoder) :
  find_encoder col (label_encoders self) = Some le ->
  let self' := fst (_prepare_features self df) in
  find_encoder col (label_encoders self') = Some le /\
  forall (r : cells) (s : string),
    text r col = Some s ->
    (~ In s le ->
     feature_value (label_encoders self') r (encoded col) = - 1) /\
    (forall i, nth_error le i = Some s -> NoDup le ->
     feature_value (label_encoders self') r (encoded col)
     = IZR (Z.of_nat i)).
Proof.
  intros Hle self'.
  assert (Hkept : find_encoder col (label_encoders self') = Some le).
  { unfold self', _prepare_features. cbn [fst label_encoders].
    now apply fit_encoders_keeps. }
  split; [exact Hkept |].
  intros r s Hs. cbn [feature_value]. unfold cell_code.
  rewrite Hkept, Hs. split.
  - intros Hunseen. destruct (index_of s le) as [i |] eqn:Ei; [| reflexivity].
    apply index_of_nth in Ei. apply nth_error_In in Ei. contradiction.
  - intros i Hi Hnd.
    destruct (index_of_In le s (nth_error_In _ _ Hi)) as [j Hj].
    rewrite Hj. apply index_of_nth in Hj.
    assert (Hij : j = i).
    { apply (proj1 (NoDup_nth_error le) Hnd).
      - apply nth_error_Some. congruence.
      - congruence. }
    now subst.
Qed.

End DeliveryExtras.

Section DeliveryExtrasExamples.

Import Py DeliveryPredictor.

Lemma predict_single_labels_agree_witness :
  predict_single
    {| model := Some (constant_fit 1 [] []); label_encoders := [];
       feature_columns := []; metrics := None |} no_fields
  = Returned (Prediction 0 (1 / 4) (1 - 1 / 4) "Low") /\
  ("Low"%string = "Low"%string <-> 1 / 4 <= 4 / 10).
Proof.
  assert (H : predict_single
                {| model := Some (constant_fit 1 [] []); label_encoders := [];
                   feature_columns := []; metrics := None |} no_fields
              = Returned (Prediction 0 (1 / 4) (1 - 1 / 4) "Low")).
  { unfold predict_single, predict, predict_proba, risk_of. cbn.
    destruct (Rlt_dec (1 / 2) (1 / 4)); [lra |].
    destruct (Rlt_dec (7 / 10) (1 / 4)); [lra |].
    destruct (Rlt_dec (4 / 10) (1 / 4)); [lra |]. reflexivity. }
  split; [exact H |].
  apply (predict_single_labels_agree _ _ _ _ _ _ H).
Defined.








(** An instance whose region encoder was fitted on two regions. *)
Definition fitted_on_two_regions : predictor :=
  {| model := None;
     label_encoders := [(region, ["Europe"; "LATAM"]%string)];
     feature_columns := [];
     metrics := None |}.

Lemma prepare_features_keeps_encoders_witness :
  find_encoder region (label_encoders fitted_on_two_regions)
  = Some ["Europe"; "LATAM"]%string /\
  feature_value
    (label_encoders (fst (_prepare_features fitted_on_two_regions small_frame)))
    order_from_mars (encoded region)
  = - 1.
Proof.
  split; [reflexivity |].
  destruct (prepare_features_keeps_encoders fitted_on_two_regions small_frame
              region ["Europe"; "LATAM"]%string eq_refl) as [_ Hrows].
  apply (Hrows order_from_mars "Mars"%string eq_refl).
  simpl. intros [H | [H | []]]; discriminate.
Defined.

End DeliveryExtrasExamples.

Section SupplierExtras.

Import Py SupplierScorer SupplierReport.
Local Open Scope Q_scope.

(** *** The scaler *)

Lemma qmin_le_l (a b : Q) : qmin a b <= a.
Proof.
  unfold qmin. destruct (Qle_bool a b) eqn:E; [lra |].
  destruct (Qlt_le_dec b a) as [H | H]; [lra |].
  apply Qle_bool_iff in H. congruence.
Qed.

Lemma qmin_le_r (a b : Q) : qmin a b <= b.
Proof.
  unfold qmin. destruct (Qle_bool a b) eqn:E; [| lra].
  now apply Qle_bool_iff.
Qed.

Lemma qmax_ge_l (a b : Q) : a <= qmax a b.
Proof.
  unfold qmax. destruct (Qle_bool a b) eqn:E; [| lra].
  now apply Qle_bool_iff.
Qed.

Lemma qmax_ge_r (a b : Q) : b <= qmax a b.
Proof.
  unfold qmax. destruct (Qle_bool a b) eqn:E; [lra |].
  destruct (Qlt_le_dec b a) as [H | H]; [lra |].
  apply Qle_bool_iff in H. congruence.
Qed.

Lemma fold_qmin_le (xs : list Q) :
  forall x, fold_left qmin xs x <= x /\
            forall v, In v xs -> fold_left qmin xs x <= v.
Proof.
  induction xs as [| y ys IH]; intros x; simpl.
  - split; [lra | tauto].
  - destruct (IH (qmin x y)) as [H1 H2].
    pose proof (qmin_le_l x y). pose proof (qmin_le_r x y).
    split; [lra |]. intros v [<- | Hv]; [lra | now apply H2].
Qed.

Lemma fold_qmax_ge (xs : list Q) :
  forall x, x <= fold_left qmax xs x /\
            forall v, In v xs -> v <= fold_left qmax xs x.
Proof.
  induction xs as [| y ys IH]; intros x; simpl.
  - split; [lra | tauto].
  - destruct (IH (qmax x y)) as [H1 H2].
    pose proof (qmax_ge_l x y). pose proof (qmax_ge_r x y).
    split; [lra |]. intros v [<- | Hv]; [lra | now apply H2].
Qed.

Lemma scaled_in_unit (lo hi v : Q) :
  lo <= v -> v <= hi ->
  let scale_ := 1 / (if Qeq_bool (hi - lo) 0 then 1 else hi - lo) in
  0 <= v * scale_ + (0 - lo * scale_) <= 1.
Proof.
  intros Hlo Hhi. cbv zeta.
  destruct (Qeq_bool (hi - lo) 0) eqn:E.
  - apply Qeq_bool_iff in E.
    assert (H1 : 1 / 1 == 1) by reflexivity.
    rewrite H1. lra.
  - assert (Hne : ~ hi - lo == 0).
    { intros H. apply Qeq_bool_iff in H. congruence. }
    assert (Hpos : 0 < hi - lo) by lra.
    set (r := hi - lo) in *.
    assert (Hs : 0 < / r) by now apply Qinv_lt_0_compat.
    assert (Hrs : r * / r == 1) by now apply Qmult_inv_r.
    assert (Heq : v * (1 / r) + (0 - lo * (1 / r)) == (v - lo) * / r).
    { unfold Qdiv. ring. }
    rewrite Heq. split.
    + apply Qmult_le_0_compat; lra.
    + rewrite <- Hrs. apply Qmult_le_compat_r; [unfold r; lra | lra].
Qed.

Lemma fit_transform_unit (column : list Q) :
  column <> [] ->
  exists scaled,
    fit_transform column = Returned scaled /\
    List.length scaled = List.length column /\
    forall v, In v scaled -> 0 <= v <= 1.
Proof.
  destruct column as [| x rest]; [congruence |]. intros _.
  eexists. split; [reflexivity |]. split; [apply length_map |].
  intros v Hv. apply in_map_iff in Hv. destruct Hv as [u [<- Hu]].
  destruct (fold_qmin_le rest x) as [Hmin1 Hmin2].
  destruct (fold_qmax_ge rest x) as [Hmax1 Hmax2].
  apply scaled_in_unit.
  - destruct Hu as [<- | Hu]; [exact Hmin1 | now apply Hmin2].
  - destruct Hu as [<- | Hu]; [exact Hmax1 | now apply Hmax2].
Qed.

Lemma fit_transform_empty :
  exists message, fit_transform [] = Raised (Exn "ValueError" message).
Proof. now eexists. Qed.

Lemma clip_unit (x : Q) : 0 <= clip x 0 1 <= 1.
Proof.
  unfold clip. pose proof (qmax_ge_r x 0) as H.
  split; [| apply qmin_le_r].
  unfold qmin. destruct (Qle_bool (qmax x 0) 1); lra.
Qed.

Definition in_unit (d : dimensions) : Prop :=
  0 <= delivery_performance d <= 1 /\ 0 <= profitability d <= 1 /\
  0 <= volume_capability d <= 1 /\ 0 <= order_reliability d <= 1 /\
  0 <= cost_efficiency d <= 1 /\ 0 <= product_diversity d <= 1.

Lemma nth_unit (l : list Q) (i : nat) :
  (forall v, In v l -> 0 <= v <= 1) -> 0 <= nth i l 0 <= 1.
Proof.
  intros Hall. destruct (Nat.lt_ge_cases i (List.length l)) as [Hi | Hi].
  - apply Hall. now apply nth_In.
  - rewrite nth_overflow by exact Hi. lra.
Qed.

Lemma constant_column_unit {A : Type} (data : list A) (v : Q) :
  In v (constant_column data (5 # 10)) -> 0 <= v <= 1.
Proof.
  unfold constant_column. intros H. apply in_map_iff in H.
  destruct H as [_ [<- _]]. lra.
Qed.

(** The dimension table of a non-empty aggregated table. *)
Lemma dimension_columns_unit (data : list aggregates) :
  data <> [] ->
  (forall a, In a data -> 0 <= late_delivery_rate a <= 1) ->
  exists table,
    dimension_columns data = Returned table /\
    map supplier table = map group data /\
    forall d, In d table -> in_unit d.
Proof.
  intros Hne Hrate. unfold dimension_columns.
  assert (Hmap : forall f : aggregates -> Q, map f data <> []).
  { intros f H. apply map_eq_nil in H. contradiction. }
  set (profit_step :=
         if std_positive (map avg_profit_margin data)
         then fit_transform (map avg_profit_margin data)
         else Returned (constant_column data (5 # 10))).
  assert (Hprofit : exists profit, profit_step = Returned profit /\
                      forall v, In v profit -> 0 <= v <= 1).
  { unfold profit_step. destruct (std_positive _).
    - destruct (fit_transform_unit _ (Hmap avg_profit_margin))
        as [p [Hp [_ Hu]]]. now exists p.
    - eexists. split; [reflexivity |]. apply constant_column_unit. }
  destruct Hprofit as [profit [-> Hprofit]]. cbn [bind].
  destruct (fit_transform_unit _ (Hmap total_quantity))
    as [volume [-> [_ Hvolume]]]. cbn [bind].
  set (cost_step :=
         if std_positive (map avg_discount data)
         then scaled <- fit_transform (map avg_discount data) ;;
              Returned (map (fun v => 1 - v) scaled)
         else Returned (constant_column data (5 # 10))).
  assert (Hcost : exists cost, cost_step = Returned cost /\
                    forall v, In v cost -> 0 <= v <= 1).
  { unfold cost_step. destruct (std_positive _).
    - destruct (fit_transform_unit _ (Hmap avg_discount))
        as [p [-> [_ Hu]]]. cbn [bind].
      eexists. split; [reflexivity |].
      intros v Hv. apply in_map_iff in Hv. destruct Hv as [u [<- Hin]].
      specialize (Hu u Hin). lra.
    - eexists. split; [reflexivity |]. apply constant_column_unit. }
  destruct Hcost as [cost [-> Hcost]]. cbn [bind].
  destruct (fit_transform_unit _ (Hmap num_categories))
    as [diversity [-> [_ Hdiversity]]]. cbn [bind].
  eexists. split; [reflexivity |]. split.
  - rewrite map_map. cbn [supplier].
    rewrite <- (length_map group data).
    apply nth_ext with (d := ""%string) (d' := ""%string).
    + now rewrite length_map, length_seq.
    + intros n Hn. rewrite length_map, length_seq in Hn.
      rewrite (nth_indep _ _ (nth 0 (map group data) ""%string))
        by now rewrite length_map, length_seq.
      rewrite (map_nth (fun i => nth i (map group data) ""%string)).
      now rewrite seq_nth.
  - intros d Hd. apply in_map_iff in Hd. destruct Hd as [i [<- _]].
    unfold in_unit. cbn.
    repeat split; try (apply nth_unit; assumption);
      try (apply (proj1 (nth_unit _ i ltac:(eassumption))));
      try (apply (proj2 (nth_unit _ i ltac:(eassumption)))).
    all: try (apply nth_unit; intros v Hv; apply in_map_iff in Hv;
              destruct Hv as [a [<- Ha]];
              first [ apply clip_unit | specialize (Hrate a Ha); lra ]).
Qed.

(** *** Scores and labels *)

Lemma weighted_sum_unit (d : dimensions) :
  in_unit d -> 0 <= weighted_sum d <= 1.
Proof.
  unfold in_unit, weighted_sum, WEIGHTS. cbn [fold_left fst snd].
  intros H. lra.
Qed.

Lemma weighted_sum_zero (d : dimensions) :
  in_unit d ->
  (weighted_sum d == 0 <->
   delivery_performance d == 0 /\ profitability d == 0 /\
   volume_capability d == 0 /\ order_reliability d == 0 /\
   cost_efficiency d == 0 /\ product_diversity d == 0).
Proof.
  unfold in_unit, weighted_sum, WEIGHTS. cbn [fold_left fst snd].
  intros H. split; intros H0.
  - repeat split; lra.
  - lra.
Qed.

Lemma unlabelled_iff_zero (s : Q) :
  0 <= s <= 1 ->
  (grade_of s = None <-> s == 0) /\ (risk_level_of s = None <-> s == 0).
Proof.
  intros [H0 H1].
  unfold grade_of, risk_level_of, cut, score_bins, searchsorted_left.
  repeat match goal with
  | |- context [Qltb ?b s] =>
      let E := fresh "E" in
      destruct (Qltb b s) eqn:E;
      [apply Qltb_true in E | apply Qltb_false in E]
  end; simpl; repeat split; intros; try lra; try discriminate;
    try reflexivity.
Qed.

(** *** The ordering *)

Definition descending (l : list scored_row) : Prop :=
  StronglySorted (fun a b => overall_score b <= overall_score a) l.

Lemma In_insert_desc (r x : scored_row) (l : list scored_row) :
  In x (insert_desc r l) <-> x = r \/ In x l.
Proof.
  induction l as [| y ys IH]; simpl; [intuition congruence |].
  destruct (Qle_bool (overall_score y) (overall_score r)); simpl;
    [intuition congruence |].
  rewrite IH. intuition congruence.
Qed.

Lemma In_sort_desc (x : scored_row) (l : list scored_row) :
  In x (sort_desc l) <-> In x l.
Proof.
  induction l as [| y ys IH]; simpl; [tauto |].
  rewrite In_insert_desc, IH. intuition congruence.
Qed.

Lemma length_insert_desc (r : scored_row) (l : list scored_row) :
  List.length (insert_desc r l) = S (List.length l).
Proof.
  induction l as [| y ys IH]; simpl; [reflexivity |].
  destruct (Qle_bool (overall_score y) (overall_score r)); simpl;
    [reflexivity | now rewrite IH].
Qed.

Lemma length_sort_desc (l : list scored_row) :
  List.length (sort_desc l) = List.length l.
Proof.
  induction l as [| y ys IH]; simpl; [reflexivity |].
  now rewrite length_insert_desc, IH.
Qed.

Lemma insert_desc_descending (r : scored_row) (l : list scored_row) :
  descending l -> descending (insert_desc r l).
Proof.
  unfold descending. induction l as [| y ys IH]; intros Hs; simpl.
  - constructor; constructor.
  - apply StronglySorted_inv in Hs. destruct Hs as [Hys Hy].
    destruct (Qle_bool (overall_score y) (overall_score r)) eqn:E.
    + apply Qle_bool_iff in E.
      constructor; [now constructor |].
      constructor; [exact E |].
      rewrite Forall_forall in *. intros w Hw. specialize (Hy w Hw). lra.
    + assert (Hlt : overall_score r < overall_score y).
      { apply Qnot_le_lt. intros H. apply Qle_bool_iff in H. congruence. }
      constructor; [now apply IH |].
      rewrite Forall_forall in *. intros w Hw.
      apply (proj1 (In_insert_desc _ _ _)) in Hw. destruct Hw as [-> | Hw]; [lra |].
      now apply Hy.
Qed.

Lemma sort_desc_descending (l : list scored_row) : descending (sort_desc l).
Proof.
  induction l as [| y ys IH]; simpl; [constructor |].
  now apply insert_desc_descending.
Qed.

Lemma descending_head (first : scored_row) (rest : list scored_row) :
  descending (first :: rest) ->
  forall row, In row (first :: rest) ->
              overall_score row <= overall_score first.
Proof.
  intros Hs row [<- | Hin]; [lra |].
  apply StronglySorted_inv in Hs. destruct Hs as [_ Hall].
  rewrite Forall_forall in Hall. now apply Hall.
Qed.

Lemma descending_last (l : list scored_row) (final : scored_row) :
  descending l -> last (map Some l) None = Some final ->
  In final l /\
  forall row, In row l -> overall_score final <= overall_score row.
Proof.
  induction l as [| x xs IH]; intros Hs Hl; [discriminate |].
  apply StronglySorted_inv in Hs. destruct Hs as [Hxs Hx].
  destruct xs as [| y ys].
  - simpl in Hl. injection Hl as <-. split; [now left |].
    intros row [<- | []]. lra.
  - destruct (IH Hxs Hl) as [Hin Hmin]. split; [now right |].
    intros row [<- | Hrow]; [| now apply Hmin].
    rewrite Forall_forall in Hx. now apply Hx.
Qed.

(** X18: scoring the aggregated table.  An empty table is refused with the
    scaler's [ValueError].  For a non-empty table whose late-delivery rates
    lie in [0, 1], [score_suppliers] returns one row per department, in
    descending order of overall score; every dimension and the overall
    score lie in [0, 1]; and a row is left without grade and risk level
    exactly when its overall score is 0, that is when all six dimensions
    are 0. *)
Theorem score_aggregates_range (data : list aggregates) :
  (data = [] ->
   exists message,
     score_aggregates data = Raised (Exn "ValueError" message)) /\
  (data <> [] ->
   (forall a, In a data -> 0 <= late_delivery_rate a <= 1) ->
   exists rows,
     score_aggregates data = Returned rows /\
     List.length rows = List.length data /\
     (forall name, In name (map (fun r => supplier (dims r)) rows)
                   <-> In name (map group data)) /\
     descending rows /\
     forall row, In row rows ->
       in_unit (dims row) /\
       0 <= overall_score row <= 1 /\
       (grade row = None <-> overall_score row == 0) /\
       (risk_level row = None <-> overall_score row == 0) /\
       (overall_score row == 0 <->
        delivery_performance (dims row) == 0 /\
        profitability (dims row) == 0 /\
        volume_capability (dims row) == 0 /\
        order_reliability (dims row) == 0 /\
        cost_efficiency (dims row) == 0 /\
        product_diversity (dims row) == 0)).
Proof.
  split.
  - intros ->. unfold score_aggregates, dimension_columns. cbn.
    now eexists.
  - intros Hne Hrate.
    destruct (dimension_columns_unit data Hne Hrate)
      as [table [Htable [Hnames Hunit]]].
    unfold score_aggregates. rewrite Htable. cbn [bind].
    eexists. split; [reflexivity |].
    unfold score_suppliers. split; [| split; [| split]].
    + rewrite length_sort_desc, length_map.
      rewrite <- (length_map supplier table), Hnames. apply length_map.
    + intros name. rewrite <- Hnames. rewrite !in_map_iff. split.
      * intros [r [<- Hr]]. apply (proj1 (In_sort_desc _ _)) in Hr.
        apply in_map_iff in Hr. destruct Hr as [d [<- Hd]].
        now exists d.
      * intros [d [<- Hd]]. exists (score_row d). split; [reflexivity |].
        apply In_sort_desc. now apply in_map.
    + apply sort_desc_descending.
    + intros row Hrow. apply (proj1 (In_sort_desc _ _)) in Hrow.
      apply in_map_iff in Hrow. destruct Hrow as [d [<- Hd]].
      specialize (Hunit d Hd). cbn [score_row dims overall_score grade
                                     risk_level].
      pose proof (weighted_sum_unit d Hunit) as Hs.
      destruct (unlabelled_iff_zero (weighted_sum d) Hs) as [Hg Hr].
      split; [exact Hunit |]. split; [exact Hs |]. split; [exact Hg |].
      split; [exact Hr |]. apply (weighted_sum_zero d Hunit).
Qed.

(** *** The risk summary *)

Lemma value_counts_total (labels : list (option risk_label)) :
  (value_counts labels Critical + value_counts labels High
   + value_counts labels Medium + value_counts labels Low
   + value_counts labels VeryLow
   + List.length (filter (fun x => match x with
                                   | Some _ => false
                                   | None => true
                                   end) labels))%nat
  = List.length labels.
Proof.
  unfold value_counts. induction labels as [| [l |] rest IH]; simpl;
    [reflexivity | destruct l; simpl; lia | lia].
Qed.

Lemma dimension_columns_length (data : list aggregates)
    (table : list dimensions) :
  dimension_columns data = Returned table ->
  data <> [] /\ List.length table = List.length data.
Proof.
  unfold dimension_columns.
  destruct (if std_positive (map avg_profit_margin data)
            then fit_transform (map avg_profit_margin data)
            else Returned (constant_column data (5 # 10))) as [profit | e];
    [| discriminate].
  cbn [bind].
  destruct data as [| a rest]; [discriminate |].
  destruct (fit_transform (map total_quantity (a :: rest))) as [volume | e];
    [| discriminate].
  cbn [bind].
  match goal with
  | |- context [bind ?c _] => destruct c as [cost | e]; [| discriminate]
  end.
  cbn [bind].
  destruct (fit_transform (map num_categories (a :: rest)))
    as [diversity | e]; [| discriminate].
  cbn [bind]. intros H. injection H as <-.
  split; [discriminate |].
  cbn [List.length]. f_equal. rewrite length_map. apply length_seq.
Qed.

(** X19: the risk summary of the scored table.  On the table
    [score_suppliers] returns, [best] names a department whose overall
    score no other exceeds and [worst] one whose score none is below;
    [total_entities] is the number of departments; and the risk
    distribution counts every labelled row once, so its counts and the
    unlabelled rows add up to [total_entities]. *)
Theorem get_risk_summary_extremes (data : list aggregates)
    (scored : list scored_row) :
  score_aggregates data = Returned scored ->
  let summary := get_risk_summary scored in
  total_entities summary = List.length data /\
  (risk_distribution summary Critical + risk_distribution summary High
   + risk_distribution summary Medium + risk_distribution summary Low
   + risk_distribution summary VeryLow
   + List.length (filter (fun r => match risk_level r with
                                   | Some _ => false
                                   | None => true
                                   end) scored))%nat
  = total_entities summary /\
  avg_score summary <> None /\
  exists top bottom,
    In top scored /\ In bottom scored /\
    best summary = supplier (dims top) /\
    worst summary = supplier (dims bottom) /\
    forall row, In row scored ->
      overall_score bottom <= overall_score row <= overall_score top.
Proof.
  unfold score_aggregates.
  destruct (dimension_columns data) as [table | e] eqn:Et; [| discriminate].
  cbn [bind]. intros H. injection H as <-. cbv zeta.
  destruct (dimension_columns_length data table Et) as [Hne Htable].
  set (scored := score_suppliers table) in *.
  set (summary := get_risk_summary scored).
  assert (Hlen : List.length scored = List.length data).
  { unfold scored, score_suppliers.
    now rewrite length_sort_desc, length_map. }
  pose proof (sort_desc_descending (map score_row table)) as Hs.
  fold (score_suppliers table) in Hs. fold scored in Hs.
  split; [exact Hlen |]. split.
  - unfold summary, get_risk_summary.
    cbn [risk_distribution total_entities].
    pose proof (value_counts_total (map risk_level scored)) as H.
    rewrite length_map in H. rewrite <- H. f_equal.
    clear. induction scored as [| r rs IH]; simpl; [reflexivity |].
    destruct (risk_level r); simpl; now rewrite IH.
  - destruct scored as [| first rest] eqn:E.
    { exfalso. destruct data; [congruence | discriminate]. }
    split; [discriminate |].
    destruct (last_row_exists (first :: rest) ltac:(discriminate))
      as [final [Hfinal _]].
    destruct (descending_last _ _ Hs Hfinal) as [Hin Hmin].
    exists first, final. split; [now left |]. split; [exact Hin |].
    split; [reflexivity |]. split.
    + unfold summary, get_risk_summary. cbn [worst]. now rewrite Hfinal.
    + intros row Hrow. split; [now apply Hmin |].
      now apply (descending_head first rest Hs).
Qed.

(** [get_risk_summary] of a frame without rows. *)
Lemma get_risk_summary_empty :
  best (get_risk_summary []) = "N/A"%string /\
  worst (get_risk_summary []) = "N/A"%string /\
  avg_score (get_risk_summary []) = None /\
  total_entities (get_risk_summary []) = 0%nat.
Proof. repeat split. Qed.

(** *** Improvement suggestions *)

Variable action : string -> scored_row -> string.

Definition value_sorted (l : list weak_area) : Prop :=
  StronglySorted (fun a b => snd (fst a) <= snd (fst b)) l.

Lemma In_insert_by_value (x y : weak_area) (l : list weak_area) :
  In y (insert_by_value x l) <-> y = x \/ In y l.
Proof.
  induction l as [| z zs IH]; simpl; [intuition congruence |].
  destruct (Qle_bool (snd (fst x)) (snd (fst z))); simpl;
    [intuition congruence |].
  rewrite IH. intuition congruence.
Qed.

Lemma In_sort_by_value (y : weak_area) (l : list weak_area) :
  In y (sort_by_value l) <-> In y l.
Proof.
  induction l as [| z zs IH]; simpl; [tauto |].
  rewrite In_insert_by_value, IH. intuition congruence.
Qed.

Lemma insert_by_value_sorted (x : weak_area) (l : list weak_area) :
  value_sorted l -> value_sorted (insert_by_value x l).
Proof.
  unfold value_sorted. induction l as [| y ys IH]; intros Hs; simpl.
  - constructor; constructor.
  - apply StronglySorted_inv in Hs. destruct Hs as [Hys Hy].
    destruct (Qle_bool (snd (fst x)) (snd (fst y))) eqn:E.
    + apply Qle_bool_iff in E.
      constructor; [now constructor |].
      constructor; [exact E |].
      rewrite Forall_forall in *. intros w Hw. specialize (Hy w Hw). lra.
    + assert (Hlt : snd (fst y) < snd (fst x)).
      { apply Qnot_le_lt. intros H. apply Qle_bool_iff in H. congruence. }
      constructor; [now apply IH |].
      rewrite Forall_forall in *. intros w Hw.
      apply (proj1 (In_insert_by_value _ _ _)) in Hw. destruct Hw as [-> | Hw]; [lra |].
      now apply Hy.
Qed.

Lemma sort_by_value_sorted (l : list weak_area) :
  value_sorted (sort_by_value l).
Proof.
  induction l as [| y ys IH]; simpl; [constructor |].
  now apply insert_by_value_sorted.
Qed.

Lemma weak_areas_spec (row : scored_row) (w : weak_area) :
  In w (weak_areas row) <->
  exists metric column weight,
    In (metric, (column, weight)) weight_items /\
    column (dims row) < 5 # 10 /\
    w = (metric, column (dims row), weight).
Proof.
  unfold weak_areas. rewrite in_flat_map. split.
  - intros [[metric [column weight]] [Hin Hw]].
    destruct (Qltb (column (dims row)) (5 # 10)) eqn:E; [| destruct Hw].
    apply Qltb_true in E. destruct Hw as [<- | []].
    now exists metric, column, weight.
  - intros [metric [column [weight [Hin [Hlt ->]]]]].
    exists (metric, (column, weight)). split; [exact Hin |].
    apply Qltb_true in Hlt. rewrite Hlt. now left.
Qed.

(** X20: which department gets a suggestion, and for what.  A row gets a
    suggestion exactly when one of its six dimensions is below 0.5, and
    the suggestion then names (in title case) a dimension whose value is
    the smallest of the six. *)
Theorem suggestion_names_weakest (row : scored_row) :
  (suggestion_for action row = None <->
   forall metric column weight,
     In (metric, (column, weight)) weight_items ->
     5 # 10 <= column (dims row)) /\
  (forall s, suggestion_for action row = Some s ->
     s_supplier s = supplier (dims row) /\
     exists metric column weight,
       In (metric, (column, weight)) weight_items /\
       weakest_area s = title (replace_char underscore space metric) /\
       suggestion_text s = action metric row /\
       column (dims row) < 5 # 10 /\
       forall metric' column' weight',
         In (metric', (column', weight')) weight_items ->
         column (dims row) <= column' (dims row)).
Proof.
  unfold suggestion_for.
  pose proof (sort_by_value_sorted (weak_areas row)) as Hsorted.
  destruct (sort_by_value (weak_areas row)) as [| top rest] eqn:E.
  - split; [| discriminate]. split; [| reflexivity]. intros _.
    intros metric column weight Hin.
    destruct (Qlt_le_dec (column (dims row)) (5 # 10)) as [Hlt | Hge];
      [| exact Hge].
    exfalso.
    assert (Hw : In (metric, column (dims row), weight)
                    (sort_by_value (weak_areas row))).
    { apply In_sort_by_value, weak_areas_spec.
      now exists metric, column, weight. }
    rewrite E in Hw. destruct Hw.
  - assert (Htop : In top (weak_areas row)).
    { apply In_sort_by_value. rewrite E. now left. }
    apply weak_areas_spec in Htop.
    destruct Htop as [metric [column [weight [Hin [Hlt ->]]]]].
    split.
    + split; [discriminate |]. intros Hall.
      specialize (Hall metric column weight Hin). lra.
    + intros s Hs. injection Hs as <-. cbn.
      split; [reflexivity |].
      exists metric, column, weight.
      repeat split; try assumption.
      intros metric' column' weight' Hin'.
      destruct (Qlt_le_dec (column' (dims row)) (5 # 10)) as [Hlt' | Hge'];
        [| lra].
      assert (Hw : In (metric', column' (dims row), weight')
                      (sort_by_value (weak_areas row))).
      { apply In_sort_by_value, weak_areas_spec.
        now exists metric', column', weight'. }
      rewrite E in Hw. destruct Hw as [Hw | Hw].
      * injection Hw as _ Hv _. rewrite <- Hv. lra.
      * apply StronglySorted_inv in Hsorted. destruct Hsorted as [_ Hall].
        rewrite Forall_forall in Hall. apply (Hall _ Hw).
Qed.

Lemma title_of_keys :
  map (fun k => title (replace_char underscore space k)) metric_keys
  = [ "Delivery Performance"; "Profitability"; "Volume Capability";
      "Order Reliability"; "Cost Efficiency"; "Product Diversity" ]%string.
Proof. vm_compute. reflexivity. Qed.

End SupplierExtras.

Section SupplierExtrasExamples.

Import Py SupplierScorer SupplierReport.
Local Open Scope Q_scope.

(** Two departments after aggregation. *)
Definition two_departments : list aggregates :=
  [ mk_aggregates "Golf" (1 # 2) (1 # 10) 100 (1 # 2) 4 (1 # 10) 3;
    mk_aggregates "Fan Shop" (3 # 5) (2 # 10) 300 1 4 (2 # 10) 5 ].

Lemma score_aggregates_range_witness :
  two_departments <> [] /\
  (forall a, In a two_departments -> 0 <= late_delivery_rate a <= 1) /\
  exists rows,
    score_aggregates two_departments = Returned rows /\
    List.length rows = List.length two_departments /\
    descending rows.
Proof.
  assert (Hne : two_departments <> []) by discriminate.
  assert (Hrate : forall a, In a two_departments ->
                            0 <= late_delivery_rate a <= 1).
  { intros a [<- | [<- | []]]; simpl; lra. }
  split; [exact Hne |]. split; [exact Hrate |].
  destruct (proj2 (score_aggregates_range two_departments) Hne Hrate)
    as [rows [Hrows [Hlen [_ [Hdesc _]]]]].
  now exists rows.
Defined.

Lemma two_departments_scored :
  exists scored, score_aggregates two_departments = Returned scored.
Proof. eexists. vm_compute. reflexivity. Qed.

Lemma get_risk_summary_extremes_witness :
  exists scored,
    score_aggregates two_departments = Returned scored /\
    total_entities (get_risk_summary scored) = List.length two_departments /\
    avg_score (get_risk_summary scored) <> None.
Proof.
  destruct two_departments_scored as [scored Hs].
  exists scored. split; [exact Hs |].
  destruct (get_risk_summary_extremes two_departments scored Hs)
    as [Ht [_ [Ha _]]].
  split; [exact Ht | exact Ha].
Defined.

End SupplierExtrasExamples.

Section AgentExtras.

Import Py Tools Agent.

(** *** Binding the arguments of a schema *)

Lemma keywords_dict_of (kws : list (string * pyobj)) :
  unpack (dict_of kws) = Returned kws.
Proof.
  unfold dict_of, unpack. induction kws as [| [k v] rest IH]; simpl.
  - reflexivity.
  - rewrite IH. reflexivity.
Qed.

Lemma contains_In {V : Type} (name : string) (l : list (string * V)) :
  contains name l = true <-> In name (map fst l).
Proof.
  unfold contains. induction l as [| [n v] rest IH]; simpl.
  - split; [discriminate | tauto].
  - destruct (String.eqb name n) eqn:E.
    + apply String.eqb_eq in E. subst. split; [now left | reflexivity].
    + rewrite IH. split; [now right |].
      intros [H | H]; [| exact H].
      subst. rewrite String.eqb_refl in E. discriminate.
Qed.

(** A tool binds every argument object that follows a schema whose
    properties are parameters of the tool, do not include [df], and whose
    required list covers the parameters without default. *)
Lemma follows_binds (t : tool) (d : tool_definition)
    (kws : list (string * pyobj)) :
  (forall k, contains k (properties d) = true ->
             contains k (parameters t) = true) ->
  contains "df" (properties d) = false ->
  (forall p, In p (parameters t) -> snd p = false ->
             In (fst p) (required d)) ->
  follows d kws = true ->
  bind_arguments t (dict_of kws) = Returned kws.
Proof.
  intros Hprops Hdf Hreq Hfollows.
  unfold follows in Hfollows. apply andb_true_iff in Hfollows.
  destruct Hfollows as [Hkeys Hneeded].
  rewrite forallb_forall in Hkeys, Hneeded.
  unfold bind_arguments. rewrite keywords_dict_of. cbn [bind].
  assert (H1 : contains "df" kws = false).
  { destruct (contains "df" kws) eqn:E; [| reflexivity].
    apply contains_In in E. apply in_map_iff in E.
    destruct E as [[k v] [Hk Hin]]. simpl in Hk. subst k.
    specialize (Hkeys _ Hin). simpl in Hkeys. congruence. }
  rewrite H1.
  assert (H2 : forallb (fun kv => contains (fst kv) (parameters t)) kws
               = true).
  { apply forallb_forall. intros kv Hin. apply Hprops. now apply Hkeys. }
  rewrite H2. cbn [negb].
  assert (H3 : forallb (fun p => snd p || contains (fst p) kws)
                       (parameters t) = true).
  { apply forallb_forall. intros p Hin.
    destruct (snd p) eqn:E; [reflexivity |]. simpl.
    apply Hneeded. now apply Hreq. }
  rewrite H3. reflexivity.
Qed.

Lemma schema_binds (d : tool_definition) (kws : list (string * pyobj)) :
  In d TOOL_DEFINITIONS ->
  follows d kws = true ->
  exists t,
    lookup (function_name d) tool_map = Some t /\
    bind_arguments t (dict_of kws) = Returned kws.
Proof.
  intros Hd Hfollows. simpl in Hd.
  destruct Hd as [<- | [<- | [<- | [<- | [<- | [<- | [<- | []]]]]]]];
    (eexists; split; [reflexivity |];
     refine (follows_binds _ _ kws _ _ _ Hfollows);
     [ intros k; cbn [properties parameters]; unfold contains;
       cbn [lookup];
       repeat (destruct (String.eqb k _); [reflexivity |]); trivial
     | reflexivity
     | cbn [parameters required]; intros p Hp Hs; simpl in Hp;
       repeat (destruct Hp as [<- | Hp];
               [first [discriminate | simpl; tauto] |]);
       destruct Hp ]).
Qed.

(** X21: the schemas and the implementations agree.  [TOOL_DEFINITIONS]
    declares exactly the tools of the dispatch table, and an argument
    object that follows a tool's schema (only declared properties, all
    required ones) always binds: the call reaches the implementation with
    those arguments, and no [TypeError] is reported. *)
Theorem schema_arguments_bind :
  map function_name TOOL_DEFINITIONS = map fst tool_map /\
  forall (d : tool_definition) (kws : list (string * pyobj)),
    In d TOOL_DEFINITIONS ->
    follows d kws = true ->
    exists t,
      lookup (function_name d) tool_map = Some t /\
      bind_arguments t (dict_of kws) = Returned kws /\
      forall implementation df,
        call_tool implementation (function_name d) (dict_of kws) df
        = implementation t df kws.
Proof.
  split; [reflexivity |].
  intros d kws Hd Hfollows.
  destruct (schema_binds d kws Hd Hfollows) as [t [Hl Hb]].
  exists t. split; [exact Hl |]. split; [exact Hb |].
  intros implementation df. unfold call_tool, getitem.
  rewrite Hl. cbn [bind]. rewrite Hb. reflexivity.
Qed.

(** *** Arguments that do not bind *)

(** X22: arguments that do not fit the signature never reach the tool.
    For a known tool, an argument value that is not a mapping, a keyword
    the implementation does not have, a keyword [df], or a call of
    [analyze_supplier] without [supplier_name] is answered with an error
    document, the same whatever the implementation would have done. *)
Theorem execute_tool_rejects_unbound (tool_name : string) (t : tool)
    (arguments : pyobj) :
  lookup tool_name tool_map = Some t ->
  ((forall entries, arguments <> PDict entries) \/
   (exists kws, unpack arguments = Returned kws /\
      (contains "df" kws = true \/
       (exists kv, In kv kws /\ contains (fst kv) (parameters t) = false) \/
       (t = _analyze_supplier /\ contains "supplier_name" kws = false)))) ->
  exists message,
    bind_arguments t arguments = Raised (Exn "TypeError" message) /\
    forall implementation df,
      execute_tool implementation tool_name arguments df
      = Returned (error_document message).
Proof.
  intros Hl Hbad.
  assert (Hraise : exists message,
             bind_arguments t arguments = Raised (Exn "TypeError" message)).
  { unfold bind_arguments. destruct Hbad as [Hnd | [kws [Hu Hbad]]].
    - destruct arguments; try (now eexists).
      exfalso. now apply (Hnd entries).
    - rewrite Hu. cbn [bind].
      destruct (contains "df" kws) eqn:Edf; [now eexists |].
      destruct Hbad as [H | [[kv [Hin Hkv]] | [-> Hmiss]]]; [discriminate | |].
      + assert (Hf : forallb (fun kv => contains (fst kv) (parameters t)) kws
                     = false).
        { apply not_true_is_false. intros Hall.
          rewrite forallb_forall in Hall. specialize (Hall kv Hin).
          congruence. }
        rewrite Hf. now eexists.
      + destruct (forallb _ kws); [| now eexists].
        cbn [negb parameters forallb snd fst orb].
        rewrite Hmiss. now eexists. }
  destruct Hraise as [message Hraise]. exists message.
  split; [exact Hraise |].
  intros implementation df.
  assert (Hc : contains tool_name tool_map = true).
  { unfold contains. now rewrite Hl. }
  unfold execute_tool. rewrite Hc. cbn [negb].
  unfold call_tool, getitem. rewrite Hl. cbn [bind]. rewrite Hraise.
  reflexivity.
Qed.

(** *** The router *)

(** X23: every call the rule-based router makes is well formed.  Whatever
    the message, the router either answers with the help text or calls a
    tool of the dispatch table with arguments that follow that tool's
    schema and bind to its implementation. *)
Theorem fallback_route_binds (user_message : string) (tool_name : string)
    (arguments : list (string * pyobj)) :
  _fallback_route user_message = CallTool tool_name arguments ->
  exists d t,
    In d TOOL_DEFINITIONS /\ function_name d = tool_name /\
    follows d arguments = true /\
    lookup tool_name tool_map = Some t /\
    bind_arguments t (dict_of arguments) = Returned arguments.
Proof.
  unfold _fallback_route.
  set (msg := lower user_message).
  assert (Hstep : forall d,
            In d TOOL_DEFINITIONS -> function_name d = tool_name ->
            follows d arguments = true ->
            exists d t,
              In d TOOL_DEFINITIONS /\ function_name d = tool_name /\
              follows d arguments = true /\
              lookup tool_name tool_map = Some t /\
              bind_arguments t (dict_of arguments) = Returned arguments).
  { intros d Hd Hn Hf.
    destruct (schema_binds d arguments Hd Hf)
      as [t [Hl Hb]].
    exists d, t. rewrite <- Hn. repeat split; assumption. }
  repeat match goal with
  | |- (if ?c then _ else _) = _ -> _ => destruct c
  | |- match ?c with Some _ => _ | None => _ end = _ -> _ => destruct c
  end; intros H; try discriminate; injection H as <- <-.
  all: match goal with
       | |- context [lookup ?n tool_map] =>
           match goal with
           | |- context [follows _ ?a] =>
               let d := eval cbv in
                 (find (fun d => String.eqb (function_name d) n)
                       TOOL_DEFINITIONS) in
               match d with
               | Some ?d0 => apply (Hstep d0)
               end
           end
       end; try reflexivity; try (cbv [TOOL_DEFINITIONS In]; tauto).
Qed.

(** *** What the keyword lists can and cannot reach *)

Lemma starts_with_spec (w s : string) :
  starts_with w s = true <-> exists b, s = (w ++ b)%string.
Proof.
  revert s. induction w as [| a w IH]; intros s; simpl.
  - split; [intros _; now exists s | reflexivity].
  - destruct s as [| c s].
    + split; [discriminate | intros [b Hb]; discriminate].
    + rewrite andb_true_iff, IH, Ascii.eqb_eq. split.
      * intros [-> [b ->]]. now exists b.
      * intros [b Hb]. injection Hb as -> ->. split; [reflexivity |].
        now exists b.
Qed.

Lemma append_assoc (a b c : string) :
  ((a ++ b) ++ c = a ++ (b ++ c))%string.
Proof. induction a as [| x a IH]; simpl; [reflexivity | now rewrite IH]. Qed.

Lemma contains_text_spec (w s : string) :
  contains_text w s = true <-> exists a b, s = (a ++ w ++ b)%string.
Proof.
  induction s as [| c s IH].
  - simpl. rewrite orb_false_r, starts_with_spec. split.
    + intros [b Hb]. now exists EmptyString, b.
    + intros [a [b Hab]]. destruct a as [| x a]; [| discriminate].
      now exists b.
  - cbn [contains_text]. rewrite orb_true_iff, starts_with_spec, IH. split.
    + intros [[b Hb] | [a [b Hab]]].
      * now exists EmptyString, b.
      * exists (String c a), b. simpl. now rewrite Hab.
    + intros [a [b Hab]]. destruct a as [| x a].
      * left. now exists b.
      * right. simpl in Hab. injection Hab as _ ->. now exists a, b.
Qed.

(** A text that contains [u ++ w] contains [w]. *)
Lemma contains_text_suffix (u w s : string) :
  contains_text (u ++ w) s = true -> contains_text w s = true.
Proof.
  rewrite !contains_text_spec. intros [a [b ->]].
  exists (a ++ u)%string, b. now rewrite !append_assoc.
Qed.

(** X24: the keyword "reorder" is shadowed.  A message that contains
    "reorder" contains "order", which the first rule takes: it is answered
    by the data query, never by the inventory check.  The inventory check
    is reached only through "inventory" or "stock". *)
Theorem reorder_routes_to_query (user_message : string) :
  (contains_text "reorder" (lower user_message) = true ->
   exists period,
     _fallback_route user_message
     = CallTool "query_supply_chain_data" [("time_period"%string, PStr period)])
  /\
  (forall arguments,
     _fallback_route user_message
     = CallTool "check_inventory_status" arguments ->
     contains_text "inventory" (lower user_message) = true \/
     contains_text "stock" (lower user_message) = true).
Proof.
  unfold _fallback_route. set (msg := lower user_message).
  split.
  - intros Hre.
    assert (Hord : contains_text "order" msg = true)
      by exact (contains_text_suffix "re" "order" msg Hre).
    assert (Hany : any_in ["revenue"; "sales"; "order"; "how many"; "total"]%string
                          msg = true).
    { unfold any_in. cbn [existsb]. rewrite Hord.
      now rewrite !orb_true_r. }
    rewrite Hany. now eexists.
  - intros arguments.
    destruct (any_in ["revenue"; "sales"; "order"; "how many"; "total"]%string
                     msg) eqn:E1; [discriminate |].
    destruct (any_in ["forecast"; "predict demand"; "future demand"]%string
                     msg); [discriminate |].
    destruct (any_in ["supplier"; "vendor"; "department"]%string msg).
    { destruct (_extract_department msg) as [name |]; [| discriminate].
      destruct (truthy (Some name)); discriminate. }
    destruct (any_in ["inventory"; "stock"; "reorder"]%string msg) eqn:E4.
    + intros _. unfold any_in in E1, E4. cbn [existsb] in E1, E4.
      destruct (contains_text "inventory" msg); [now left |].
      destruct (contains_text "stock" msg); [now right |].
      destruct (contains_text "reorder" msg) eqn:Ere; [| discriminate].
      apply (contains_text_suffix "re" "order") in Ere.
      rewrite Ere, !orb_true_r in E1. discriminate.
    + repeat match goal with
      | |- (if ?c then _ else _) = _ -> _ => destruct c
      end; discriminate.
Qed.

(** X25: [_extract_category] never answers "Women's Clothing".  The
    lower-case name contains "men's clothing", which stands earlier in the
    list: a message that mentions women's clothing is read as a category
    listed no later than "Men's Clothing", the twentieth. *)
Theorem extract_category_never_womens_clothing (msg : string) :
  _extract_category msg <> Some "Women's Clothing"%string /\
  (contains_text "women's clothing" msg = true ->
   exists category,
     _extract_category msg = Some category /\
     In category (firstn 20 PRODUCT_CATEGORIES)).
Proof.
  assert (Hshadow : contains_text (lower "Women's Clothing") msg = true ->
                    contains_text (lower "Men's Clothing") msg = true).
  { exact (contains_text_suffix "wo" "men's clothing" msg). }
  unfold _extract_category, first_mentioned.
  set (mentioned := fun name => contains_text (lower name) msg) in *.
  change (mentioned "Women's Clothing"%string = true ->
          mentioned "Men's Clothing"%string = true) in Hshadow.
  change (contains_text "women's clothing" msg)
    with (mentioned "Women's Clothing"%string).
  unfold PRODUCT_CATEGORIES. cbn [find firstn].
  repeat match goal with
  | |- context [if mentioned ?c then _ else _] =>
      let E := fresh "E" in destruct (mentioned c) eqn:E
  end;
    (split;
     [ first [ discriminate
             | exfalso; discriminate (Hshadow eq_refl) ]
     | intros Hw;
       first [ discriminate
             | solve [exfalso; discriminate (Hshadow Hw)]
             | solve [eexists; split;
                      [reflexivity | simpl; intuition reflexivity]] ] ]).
Qed.

End AgentExtras.

Section AgentExtrasExamples.

Import Py Tools Agent.

Lemma execute_tool_rejects_unbound_witness :
  lookup "analyze_supplier" tool_map = Some _analyze_supplier /\
  exists message,
    bind_arguments _analyze_supplier (PDict [])
    = Raised (Exn "TypeError" message) /\
    forall implementation df,
      execute_tool implementation "analyze_supplier" (PDict []) df
      = Returned (error_document message).
Proof.
  split; [reflexivity |].
  apply (execute_tool_rejects_unbound "analyze_supplier" _analyze_supplier
           (PDict []) eq_refl).
  right. exists []. split; [reflexivity |].
  right. right. split; reflexivity.
Defined.

Lemma inventory_status_route :
  _fallback_route "Inventory status"
  = CallTool "check_inventory_status" [("category"%string, PNone)].
Proof. vm_compute. reflexivity. Qed.

Lemma fallback_route_binds_witness :
  _fallback_route "Inventory status"
  = CallTool "check_inventory_status" [("category"%string, PNone)] /\
  exists d t,
    In d TOOL_DEFINITIONS /\
    function_name d = "check_inventory_status"%string /\
    follows d [("category"%string, PNone)] = true /\
    lookup "check_inventory_status" tool_map = Some t /\
    bind_arguments t (dict_of [("category"%string, PNone)])
    = Returned [("category"%string, PNone)].
Proof.
  split; [exact inventory_status_route |].
  exact (fallback_route_binds "Inventory status" "check_inventory_status"
           [("category"%string, PNone)] inventory_status_route).
Defined.

End AgentExtrasExamples.

Section ToolBodyExtras.

Import Py Dataset ToolBodies.

Variable search : string -> outcome (string -> bool).
Variable format_fixed : nat -> R -> string.
Variable format_grouped : nat -> R -> string.

(** The test a filter applies: the compiled pattern, or no test at all
    when the value is not given. *)
Definition filter_test (value : option string) : outcome (string -> bool) :=
  match value with
  | Some pattern =>
      if truthy value then search pattern else Returned (fun _ => true)
  | None => Returned (fun _ => true)
  end.

Lemma filter_true {A : Type} (l : list A) : filter (fun _ => true) l = l.
Proof. induction l as [| x xs IH]; simpl; [reflexivity | now rewrite IH]. Qed.

Lemma filter_filter {A : Type} (f g : A -> bool) (l : list A) :
  filter f (filter g l) = filter (fun x => g x && f x) l.
Proof.
  induction l as [| x xs IH]; simpl; [reflexivity |].
  destruct (g x); simpl; [destruct (f x); now rewrite IH | exact IH].
Qed.

Lemma kept_filter {A : Type} (f : A -> bool) (l : list A) (y : A) :
  In y (filter f l) ->
  match filter f l with
  | [] => l
  | sub => sub
  end = filter f l.
Proof. destruct (filter f l); [intros [] | reflexivity]. Qed.

Lemma narrowed_spec (column : shipment -> string) (value : option string)
    (test : string -> bool) (data : list shipment) :
  filter_test value = Returned test ->
  narrowed search column value data
  = Returned (match filter (fun s => test (column s)) data with
              | [] => data
              | sub => sub
              end).
Proof.
  unfold filter_test, narrowed, str_contains.
  destruct value as [pattern |].
  - destruct (truthy (Some pattern)).
    + intros ->. cbn [bind].
      destruct (filter (fun row => test (column row)) data); reflexivity.
    + intros H. injection H as <-. rewrite filter_true.
      destruct data; reflexivity.
  - intros H. injection H as <-. rewrite filter_true.
    destruct data; reflexivity.
Qed.

Lemma narrowed_keeps (column : shipment -> string) (test : string -> bool)
    (data : list shipment) :
  let kept := match filter (fun s => test (column s)) data with
              | [] => data
              | sub => sub
              end in
  incl kept data /\ (data <> [] -> kept <> []) /\
  (List.length kept <= List.length data)%nat.
Proof.
  cbv zeta.
  pose proof (filter_length_le (fun s => test (column s)) data) as Hlen.
  destruct (filter (fun s => test (column s)) data) as [| x sub] eqn:E.
  - split; [apply incl_refl |]. split; [trivial | lia].
  - split; [| split; [discriminate | exact Hlen]].
    rewrite <- E. intros s Hs. apply filter_In in Hs. tauto.
Qed.

(** X26: the filters of [_predict_delivery] never leave it without data.
    With patterns that compile, the tool returns; on a non-empty dataset
    the prediction rests on at least one order, each of them an order of
    the dataset; when some order passes all the given filters, it rests on
    exactly those orders; otherwise a filter that would leave nothing is
    dropped.  The risk level is High, Medium or Low, and High exactly when
    the advice is the faster shipping. *)
Theorem predict_delivery_matching (df : list shipment)
    (category region shipping_mode : option string) (quantity : option Z)
    (by_category by_region by_mode : string -> bool) :
  filter_test category = Returned by_category ->
  filter_test region = Returned by_region ->
  filter_test shipping_mode = Returned by_mode ->
  exists result,
    _predict_delivery search format_fixed df category region shipping_mode
                      quantity
    = Returned result /\
    (matching_orders result <= List.length df)%nat /\
    (df <> [] -> (1 <= matching_orders result)%nat) /\
    (let exact :=
       filter (fun s => by_category (ship_category s)
                        && by_region (ship_region s)
                        && by_mode (ship_mode s)) df in
     exact <> [] ->
     matching_orders result = List.length exact /\
     risk_level result = risk_of_rate (mean_or_nan (map ship_late exact))) /\
    (risk_level result = "High"%string \/ risk_level result = "Medium"%string
     \/ risk_level result = "Low"%string) /\
    (risk_level result = "High"%string <->
     recommendation result
     = "Consider using Same Day or First Class shipping."%string).
Proof.
  intros Hc Hr Hm. unfold _predict_delivery.
  rewrite (narrowed_spec ship_category category by_category df Hc).
  cbn [bind].
  set (data1 := match filter (fun s => by_category (ship_category s)) df with
                | [] => df
                | sub => sub
                end).
  rewrite (narrowed_spec ship_region region by_region data1 Hr).
  cbn [bind].
  set (data2 := match filter (fun s => by_region (ship_region s)) data1 with
                | [] => data1
                | sub => sub
                end).
  rewrite (narrowed_spec ship_mode shipping_mode by_mode data2 Hm).
  cbn [bind].
  set (data := match filter (fun s => by_mode (ship_mode s)) data2 with
               | [] => data2
               | sub => sub
               end).
  destruct (narrowed_keeps ship_category by_category df) as [_ [Hn1 Hl1]].
  destruct (narrowed_keeps ship_region by_region data1) as [_ [Hn2 Hl2]].
  destruct (narrowed_keeps ship_mode by_mode data2) as [_ [Hn3 Hl3]].
  fold data1 in Hn1, Hl1. fold data2 in Hn2, Hl2. fold data in Hn3, Hl3.
  eexists. split; [reflexivity |].
  cbn [matching_orders risk_level recommendation].
  split; [lia |]. split; [| split; [| split]].
  - intros Hne. specialize (Hn3 (Hn2 (Hn1 Hne))).
    destruct data; [congruence | simpl; lia].
  - cbv zeta. intros Hexact.
    match type of Hexact with ?e <> [] => set (exact := e) in * end.
    assert (Hy : exists y, In y exact).
    { destruct exact as [| y rest]; [congruence | exists y; now left]. }
    destruct Hy as [y Hy]. unfold exact in Hy. apply filter_In in Hy.
    destruct Hy as [Hin Hy]. apply andb_true_iff in Hy.
    destruct Hy as [Hy Hym]. apply andb_true_iff in Hy.
    destruct Hy as [Hyc Hyr].
    assert (H1 : data1 = filter (fun s => by_category (ship_category s)) df).
    { apply (kept_filter _ _ y). apply filter_In. now split. }
    assert (H2 : data2 = filter (fun s => by_region (ship_region s)) data1).
    { apply (kept_filter _ _ y). apply filter_In. split; [| exact Hyr].
      rewrite H1. apply filter_In. now split. }
    assert (H3 : data = filter (fun s => by_mode (ship_mode s)) data2).
    { apply (kept_filter _ _ y). apply filter_In. split; [| exact Hym].
      rewrite H2. apply filter_In. split; [| exact Hyr].
      rewrite H1. apply filter_In. now split. }
    assert (H4 : data = exact).
    { rewrite H3, H2, H1, !filter_filter. unfold exact.
      apply filter_ext. intros s. now rewrite andb_assoc. }
    rewrite H4. split; reflexivity.
  - unfold risk_of_rate.
    destruct (mean_or_nan (map ship_late data)) as [r |]; [| tauto].
    destruct (Numpy.Rltb (5 / 10) r); [tauto |].
    destruct (Numpy.Rltb (3 / 10) r); tauto.
  - unfold risk_of_rate, recommendation_for.
    destruct (mean_or_nan (map ship_late data)) as [r |];
      [destruct (Numpy.Rltb (5 / 10) r);
       [| destruct (Numpy.Rltb (3 / 10) r)] |];
      simpl; split; intros H; try reflexivity; discriminate.
Qed.

(** *** The inventory tool *)

Import InventoryAnalysis InventoryRecommendations.

(** X27: what [_check_inventory] reports for a category.  When the
    dataset has no category of 10 orders the analysis has no columns and
    the request fails with [KeyError].  Otherwise, with a pattern that
    compiles, the tool returns: when no analysed category matches, a
    dictionary with the key "error" that names the request; else the
    figures of the first matching category (in alphabetical order) with
    the recommendations of every matching category, the first one's
    first. *)
Theorem inventory_tool_for_category (df : dataframe) (pattern : string)
    (test : string -> bool) :
  truthy (Some pattern) = true ->
  search pattern = Returned test ->
  let results := analyze_inventory df in
  let matched :=
    filter (fun row => test (InventoryAnalysis.category row)) results in
  (results = [] ->
   _check_inventory search format_fixed format_grouped df (Some pattern)
   = Raised (Exn "KeyError" "'category'")) /\
  (results <> [] -> matched = [] ->
   _check_inventory search format_fixed format_grouped df (Some pattern)
   = Returned (NotFound ("Category '" ++ pattern ++ "' not found."))) /\
  (forall first rest, matched = first :: rest ->
   exists status,
     _check_inventory search format_fixed format_grouped df (Some pattern)
     = Returned (Status status) /\
     status_category status = InventoryAnalysis.category first /\
     status_eoq status = (format_fixed 0 (eoq first) ++ " units")%string /\
     status_recommendations status
     = map action (row_recommendations format_fixed first)
       ++ map action (get_recommendations format_fixed rest)).
Proof.
  intros Htruthy Hsearch results matched.
  unfold _check_inventory, str_contains. rewrite Htruthy.
  fold results. split; [| split].
  - intros ->. reflexivity.
  - intros Hne Hm. destruct results as [| r rs] eqn:E; [congruence |].
    rewrite Hsearch. cbn [bind]. fold matched. now rewrite Hm.
  - intros first rest Hm. destruct results as [| r rs] eqn:E.
    { discriminate Hm. }
    rewrite Hsearch. cbn [bind]. fold matched. rewrite Hm.
    eexists. split; [reflexivity |].
    cbn [status_category status_eoq status_recommendations].
    split; [reflexivity |]. split; [reflexivity |].
    unfold get_recommendations. cbn [flat_map]. now rewrite map_app.
Qed.

End ToolBodyExtras.

Section ToolBodyExamples.

Import Py Dataset ToolBodies.

(** Stand-ins for the libraries: a pattern matches the cells equal to it,
    and numbers are not spelled out. *)
Definition exact_search (pattern : string) : outcome (string -> bool) :=
  Returned (String.eqb pattern).
Definition no_digits (n : nat) (x : R) : string := "#"%string.

Definition three_shipments : list shipment :=
  [ mk_shipment "Golf" "Europe" "Same Day" 1 2;
    mk_shipment "Golf" "LATAM" "First Class" 0 0;
    mk_shipment "Toys" "Europe" "First Class" 1 1 ].

Lemma predict_delivery_matching_witness :
  exists result,
    _predict_delivery exact_search no_digits three_shipments
                      (Some "Golf"%string) (Some "Europe"%string) None None
    = Returned result /\
    (matching_orders result <= List.length three_shipments)%nat /\
    (three_shipments <> [] -> (1 <= matching_orders result)%nat).
Proof.
  destruct (predict_delivery_matching exact_search no_digits three_shipments
              (Some "Golf"%string) (Some "Europe"%string) None None
              (String.eqb "Golf") (String.eqb "Europe") (fun _ => true)
              eq_refl eq_refl eq_refl)
    as [result [Hres [Hle [Hge _]]]].
  now exists result.
Defined.

Lemma inventory_tool_for_category_witness :
  truthy (Some "Golf"%string) = true /\
  exact_search "Golf" = Returned (String.eqb "Golf") /\
  (InventoryAnalysis.analyze_inventory [] = [] ->
   _check_inventory exact_search no_digits no_digits [] (Some "Golf"%string)
   = Raised (Exn "KeyError" "'category'")).
Proof.
  split; [reflexivity |]. split; [reflexivity |].
  exact (proj1 (inventory_tool_for_category exact_search no_digits no_digits []
                  "Golf" (String.eqb "Golf") eq_refl eq_refl)).
Defined.

End ToolBodyExamples.

Section RollingFeatures.

Import Py Dataset DemandForecaster.

Lemma sum_squares_nonneg (f : R -> R) (l : list R) :
  0 <= Numpy.sum (map (fun x => f x * f x) l).
Proof.
  induction l as [| x xs IH]; simpl; [lra |].
  pose proof (Rle_0_sqr (f x)) as H. unfold Rsqr in H. lra.
Qed.

Lemma sq_dev_nonneg (l : list R) : 0 <= Numpy.sq_dev l.
Proof. unfold Numpy.sq_dev. apply (sum_squares_nonneg (fun x => x - Numpy.mean l)). Qed.

(** The two deviations of the same values. *)
Lemma std_sample_std (w : list R) :
  (2 <= List.length w)%nat ->
  let n := INR (List.length w) in
  Numpy.std w = Numpy.sample_std w * sqrt ((n - 1) / n) /\
  Numpy.std w <= Numpy.sample_std w.
Proof.
  intros Hlen n.
  assert (Hn : 2 <= n).
  { unfold n. change 2 with (INR 2). now apply le_INR. }
  pose proof (sq_dev_nonneg w) as Hsq.
  assert (Hq : 0 <= Numpy.sq_dev w / (n - 1)).
  { apply Rmult_le_pos; [exact Hsq |].
    apply Rlt_le, Rinv_0_lt_compat. lra. }
  assert (Hr : 0 <= (n - 1) / n).
  { apply Rmult_le_pos; [lra |]. apply Rlt_le, Rinv_0_lt_compat. lra. }
  assert (Heq : Numpy.std w = Numpy.sample_std w * sqrt ((n - 1) / n)).
  { unfold Numpy.std, Numpy.sample_std. fold n.
    rewrite <- sqrt_mult by assumption. f_equal. field. lra. }
  split; [exact Heq |].
  rewrite Heq.
  assert (Hle : sqrt ((n - 1) / n) <= 1).
  { apply Rle_trans with (sqrt 1); [| rewrite sqrt_1; lra].
    apply sqrt_le_1_alt.
    replace ((n - 1) / n) with (1 - / n) by (field; lra).
    pose proof (Rinv_0_lt_compat n ltac:(lra)). lra. }
  pose proof (sqrt_pos (Numpy.sq_dev w / (n - 1))) as Hs.
  unfold Numpy.sample_std. fold n. nra.
Qed.

Lemma lastn_window (window : nat) (l : list R) (i : nat) :
  (i < List.length l)%nat ->
  lastn window (firstn (i + 1) l) = window_at window l i.
Proof.
  intros Hi. unfold lastn, window_at.
  rewrite length_firstn. f_equal. lia.
Qed.

(** X28: the rolling deviation is not the same feature in training and in
    forecasting.  On the same history, the rolling means agree, but the
    rolling deviation of a window of [n >= 2] values is the sample
    deviation (ddof = 1) in the training frame and the population
    deviation (ddof = 0) in the forecasting loop: the model is fed the
    training value scaled by [sqrt((n - 1) / n)], never a larger one. *)
Theorem rolling_std_differs (window : nat) (l : list R) (i : nat) :
  (i < List.length l)%nat ->
  let history := firstn (i + 1) l in
  let n := INR (List.length (window_at window l i)) in
  recent_mean history window = rolling_mean_at window l i /\
  ((2 <= List.length (window_at window l i))%nat ->
   recent_std history window
   = rolling_std_at window l i * sqrt ((n - 1) / n) /\
   recent_std history window <= rolling_std_at window l i) /\
  ((List.length (window_at window l i) <= 1)%nat ->
   recent_std history window = 0 /\ rolling_std_at window l i = 0).
Proof.
  intros Hi history n.
  unfold recent_mean, recent_std, rolling_mean_at, rolling_std_at, history.
  rewrite (lastn_window window l i Hi).
  split; [reflexivity |]. split.
  - intros Hlen.
    replace (1 <? List.length (window_at window l i))%nat with true
      by (symmetry; apply Nat.ltb_lt; lia).
    replace (List.length (window_at window l i) <=? 1)%nat with false
      by (symmetry; apply Nat.leb_gt; lia).
    apply (std_sample_std _ Hlen).
  - intros Hlen.
    replace (1 <? List.length (window_at window l i))%nat with false
      by (symmetry; apply Nat.ltb_ge; lia).
    replace (List.length (window_at window l i) <=? 1)%nat with true
      by (symmetry; apply Nat.leb_le; lia).
    split; reflexivity.
Qed.

Lemma rolling_std_differs_witness :
  (2 < List.length [1; 2; 4])%nat /\
  recent_mean (firstn (2 + 1) [1; 2; 4]) 7 = rolling_mean_at 7 [1; 2; 4] 2.
Proof.
  assert (Hi : (2 < List.length [1; 2; 4])%nat) by (simpl; lia).
  split; [exact Hi |].
  exact (proj1 (rolling_std_differs 7 [1; 2; 4] 2 Hi)).
Defined.

End RollingFeatures.
